(** * CHARRA: TPM 2.0 remote attestation over CoAP

    A shallow embedding of the verifier's response handler and wait loop
    (src/verifier.c), of the attester's request handler (src/attester.c),
    of the external-key loader (src/core/charra_key_mgr.c) and of the
    verifier's command-line parser (src/util/cli/cli_util_verifier.c),
    followed by the properties of the specification that concern them.

    Functions of libcoap, of the TPM software stack, of mbedTLS and of the
    parts of CHARRA that live in other files are taken as parameters of the
    sections below: a handler is a function of what these calls return. *)

From stdpp Require Import base list strings numbers.
From Stdlib Require Import Sorting.Sorted.
Open Scope Z_scope.

(** ** Result codes, TPM handles, pointers *)

(** [CHARRA_RC], with the constants the sources name; [CHARRA_RC_other]
    stands for the remaining codes a callee may hand back. *)
Inductive CHARRA_RC : Type :=
  | CHARRA_RC_SUCCESS
  | CHARRA_RC_ERROR
  | CHARRA_RC_CLI_ERROR
  | CHARRA_RC_COAP_ERROR
  | CHARRA_RC_TIMEOUT
  | CHARRA_RC_VERIFICATION_FAILED
  | CHARRA_RC_other (code : positive).

#[global] Instance CHARRA_RC_eq_dec : EqDecision CHARRA_RC.
Proof. solve_decision. Defined.

Inductive TSS2_RC : Type :=
  | TSS2_RC_SUCCESS
  | TSS2_RC_failure (code : positive).

#[global] Instance TSS2_RC_eq_dec : EqDecision TSS2_RC.
Proof. solve_decision. Defined.

(** An ESAPI object handle: the reserved value [ESYS_TR_NONE] or the handle
    of an object that lives in the TPM. *)
Inductive ESYS_TR : Type :=
  | ESYS_TR_NONE
  | ESYS_TR_object (h : Z).

#[global] Instance ESYS_TR_eq_dec : EqDecision ESYS_TR.
Proof. solve_decision. Defined.

(** A pointer-valued local.  Both handlers jump to their epilogue from
    places that precede the declaration (and initialiser) of locals the
    epilogue reads; such a local is [Indeterminate] there: it holds
    whatever its storage held, and the source does not say what. *)
Inductive cptr : Type :=
  | Indeterminate
  | NULL
  | Allocated.

Inductive log_level : Type := INFO | ERROR.

(** ** Straight-line code with a jump to one epilogue label

    Both handlers are a sequence of calls, each followed by
    [if (failed) { log; goto label; }], and an epilogue after the label.
    [proc] threads the handler's variables and records whether control
    fell through ([Next]) or jumped ([Jumped]). *)

Inductive flow (A : Type) : Type :=
  | Next (a : A)
  | Jumped.
Arguments Next {A} a.
Arguments Jumped {A}.

Section Proc.
Context {S : Type}.

Definition proc (A : Type) : Type := S -> flow A * S.

Definition ret {A} (a : A) : proc A := fun s => (Next a, s).

Definition bind {A B} (c : proc A) (k : A -> proc B) : proc B :=
  fun s =>
    match c s with
    | (Next a, s') => k a s'
    | (Jumped, s') => (Jumped, s')
    end.

Definition goto {A} : proc A := fun s => (Jumped, s).

Definition get : proc S := fun s => (Next s, s).

Definition modify (f : S -> S) : proc unit := fun s => (Next tt, f s).

(** The variables when control reaches the label, by falling through or
    by a jump. *)
Definition at_label (r : flow unit * S) : S := snd r.

(** The variables when the function returns. *)
Definition at_return (r : flow unit * S) : S := snd r.

(** [body; label: epilogue]: the epilogue runs on every path. *)
Definition with_label (body epilogue : proc unit) : S -> S :=
  fun s => at_return (epilogue (at_label (body s))).
End Proc.

Declare Scope proc_scope.
Delimit Scope proc_scope with proc.
Notation "x <- c ;; k" := (bind c (fun x => k))
  (at level 20, c at level 99, k at level 200, only parsing) : proc_scope.
Notation "' pat <- c ;; k" := (bind c (fun x => match x with pat => k end))
  (at level 20, pat pattern, c at level 99, k at level 200, only parsing)
  : proc_scope.
Notation "c ;; k" := (bind c (fun _ => k))
  (at level 100, k at level 200, only parsing, right associativity)
  : proc_scope.

(** Hash algorithm identifiers of mbedTLS and of the TPM, restricted to the
    four the verifier can be configured with. *)
Inductive mbedtls_md_type_t : Type :=
  | MBEDTLS_MD_SHA1
  | MBEDTLS_MD_SHA256
  | MBEDTLS_MD_SHA384
  | MBEDTLS_MD_SHA512.

Inductive TPM2_ALG_ID : Type :=
  | TPM2_ALG_SHA1
  | TPM2_ALG_SHA256
  | TPM2_ALG_SHA384
  | TPM2_ALG_SHA512.

Record cli_config_signature_hash_algorithm : Type := {
  mbedtls_hash_algorithm : mbedtls_md_type_t;
  tpm2_hash_algorithm : TPM2_ALG_ID
}.

Definition bytes : Type := list Byte.byte.

(** [memcpy(dst, src, n)] on byte images: the first [n] bytes of [dst] are
    replaced by the first [n] bytes of [src]. *)
Definition memcpy (dst src : bytes) (n : Z) : bytes :=
  take (Z.to_nat n) src ++ drop (Z.to_nat n) dst.

Definition uint16 (z : Z) : Z := z mod 65536.

(** A sized TPM buffer ([TPM2B_ATTEST], [TPM2B_DATA]): the [UINT16 size]
    and the bytes that follow it ([attestationData], respectively
    [buffer], in C). *)
Record TPM2B : Type := {
  size : Z;
  buffer : bytes
}.
Definition TPM2B_ATTEST : Type := TPM2B.
Definition TPM2B_DATA : Type := TPM2B.

(** ** src/core/charra_key_mgr.c *)

Module KeyMgr.
Section KeyMgr.
Variable TPM2B_PUBLIC : Type.
(** [tpm2_load_external_public_key_from_path]: [Some key] when it returns
    true and has filled the key in. *)
Variable tpm2_load_external_public_key_from_path :
  string -> option TPM2B_PUBLIC.
(** [Esys_LoadExternal]: the return code and, when the handle was
    written, its value. *)
Variable Esys_LoadExternal : TPM2B_PUBLIC -> TSS2_RC * option ESYS_TR.

(** Lines 46 to 73: the result code, the value written to [*key_handle]
    if any, the key written to [*external_public_key] if any, and the
    messages the function hands to [charra_log_error], oldest first.
    [external_public_key_given] is false for a NULL pointer. *)
Definition charra_load_external_public_key
    (external_public_key_given : bool) (path : option string)
  : CHARRA_RC * option ESYS_TR * option TPM2B_PUBLIC * list string :=
  match path with
  | None =>
    (CHARRA_RC_ERROR, None, None, ["Invalid path for external public key."])
  | Some p =>
    if negb external_public_key_given
    then (CHARRA_RC_ERROR, None, None,
          ["Invalid pointer for external public key."])
    else
      match tpm2_load_external_public_key_from_path p with
      | None =>
        (CHARRA_RC_ERROR, None, None,
         ["Loading external public key from file failed."])
      | Some key =>
        let '(r, h) := Esys_LoadExternal key in
        if decide (r <> TSS2_RC_SUCCESS)
        then (CHARRA_RC_ERROR, h, Some key,
              ["Loading external public key to TPM failed."])
        else (CHARRA_RC_SUCCESS, h, Some key, [])
      end
  end.
End KeyMgr.
End KeyMgr.

(** ** src/verifier.c: [coap_attest_handler] *)

Module Verifier.

Record tpm2_quote_dto : Type := {
  attestation_data_len : Z;
  attestation_data : bytes;
  tpm2_signature_len : Z;
  tpm2_signature : bytes
}.

Record charra_tap_msg_attestation_response_dto : Type := {
  tpm2_quote : tpm2_quote_dto;
  pcr_log_len : Z
}.

(** The file-scope variables the handler reads. *)
Record globals : Type := {
  last_request_nonce_len : Z;
  last_request_nonce : bytes;
  attestation_public_key_path : option string;
  reference_pcr_file_path : option string;
  signature_hash_algorithm : cli_config_signature_hash_algorithm;
  tpm_pcr_selection : list (list Z);
  tpm_pcr_selection_len : list Z
}.

Inductive event : Type :=
  | Log (lvl : log_level) (msg : string)
  | Memcpy (dst : string) (n : Z)
  | Call_mbedtls_rsa_free
  | Free_pcr_logs (n : Z)
  | Call_Esys_FlushContext (h : ESYS_TR)
  | Call_Esys_Free
  | Call_Esys_Finalize
  | Call_Tss2_TctiLdr_Finalize
  | Read_indeterminate (var : string).

(** The variables the handler writes: the file-scope [attestation_rc] and
    [processing_response], the locals its epilogue reads, and the calls and
    messages so far (oldest first). *)
Record state : Type := mk_state {
  attestation_rc : CHARRA_RC;
  processing_response : bool;
  sig_key_handle : ESYS_TR;
  validation : cptr;
  res : option charra_tap_msg_attestation_response_dto;
  esys_ctx : cptr;
  tcti_ctx : cptr;
  trace : list event
}.

Definition set_attestation_rc (v : CHARRA_RC) : proc unit :=
  modify (fun s => mk_state v (processing_response s) (sig_key_handle s)
    (validation s) (res s) (esys_ctx s) (tcti_ctx s) (trace s)).
Definition set_processing_response (v : bool) (s : state) : state :=
  mk_state (attestation_rc s) v (sig_key_handle s)
    (validation s) (res s) (esys_ctx s) (tcti_ctx s) (trace s).
Definition set_sig_key_handle (v : ESYS_TR) : proc unit :=
  modify (fun s => mk_state (attestation_rc s) (processing_response s) v
    (validation s) (res s) (esys_ctx s) (tcti_ctx s) (trace s)).
Definition set_validation (v : cptr) : proc unit :=
  modify (fun s => mk_state (attestation_rc s) (processing_response s)
    (sig_key_handle s) v (res s) (esys_ctx s) (tcti_ctx s) (trace s)).
Definition set_res (v : charra_tap_msg_attestation_response_dto)
  : proc unit :=
  modify (fun s => mk_state (attestation_rc s) (processing_response s)
    (sig_key_handle s) (validation s) (Some v) (esys_ctx s) (tcti_ctx s)
    (trace s)).
Definition set_esys_ctx (v : cptr) : proc unit :=
  modify (fun s => mk_state (attestation_rc s) (processing_response s)
    (sig_key_handle s) (validation s) (res s) v (tcti_ctx s) (trace s)).
Definition set_tcti_ctx (v : cptr) : proc unit :=
  modify (fun s => mk_state (attestation_rc s) (processing_response s)
    (sig_key_handle s) (validation s) (res s) (esys_ctx s) v (trace s)).
Definition record (e : event) (s : state) : state :=
  mk_state (attestation_rc s) (processing_response s) (sig_key_handle s)
    (validation s) (res s) (esys_ctx s) (tcti_ctx s) (trace s ++ [e]).
Definition emit (e : event) : proc unit := modify (record e).
Definition charra_log_info (msg : string) : proc unit := emit (Log INFO msg).
Definition charra_log_error (msg : string) : proc unit :=
  emit (Log ERROR msg).

(** [if (ok) { charra_log_info(valid); } else { charra_log_error(invalid); }] *)
Definition log_result (ok : bool) (valid invalid : string)
  : @proc state unit :=
  if ok then charra_log_info valid else charra_log_error invalid.

(** [if (c) { ...; goto cleanup; }] *)
Definition leave_if (c : bool) (before : @proc state unit)
  : @proc state unit :=
  if c then bind before (fun _ => goto) else ret tt.

(** The messages a callee has handed to [charra_log_error]. *)
Definition log_errors (msgs : list string) : @proc state unit :=
  foldr (fun msg rest => bind (charra_log_error msg) (fun _ => rest))
    (ret tt) msgs.

(** The state on entry: [attestation_rc] and [processing_response] hold
    what the file-scope variables hold; [sig_key_handle] and [validation]
    are initialised at the top of the function, the other locals later. *)
Definition entry (rc : CHARRA_RC) (processing : bool) : state :=
  mk_state rc processing ESYS_TR_NONE NULL None Indeterminate Indeterminate
    [].

Section Handler.
(** libcoap and the CBOR codec *)
Variable coap_pdu_t : Type.
Variable coap_get_data_large : coap_pdu_t -> Z * bytes.
Variable charra_tap_unmarshal_attestation_response :
  Z -> bytes -> CHARRA_RC * charra_tap_msg_attestation_response_dto.
(** sizes of the TPM structures *)
Variable sizeof_TPM2B_ATTEST : Z.
Variable sizeof_TPMT_SIGNATURE : Z.
(** the TPM software stack *)
Variable Tss2_TctiLdr_Initialize : TSS2_RC.
Variable Esys_Initialize : TSS2_RC.
Variable TPM2B_PUBLIC : Type.
Variable TPM2B_PUBLIC_zero : TPM2B_PUBLIC.
Variable tpm2_load_external_public_key_from_path :
  string -> option TPM2B_PUBLIC.
Variable Esys_LoadExternal : TPM2B_PUBLIC -> TSS2_RC * option ESYS_TR.
Variable Esys_FlushContext : ESYS_TR -> TSS2_RC.
(** [charra_verify_tpm2_quote_signature_with_tpm]: the result code and
    whether [*validation] was allocated. *)
Variable charra_verify_tpm2_quote_signature_with_tpm :
  ESYS_TR -> TPM2_ALG_ID -> TPM2B_ATTEST -> bytes -> CHARRA_RC * bool.
(** mbedTLS *)
Variable mbedtls_rsa_context : Type.
Variable charra_crypto_tpm_pub_key_to_mbedtls_pub_key :
  TPM2B_PUBLIC -> CHARRA_RC * mbedtls_rsa_context.
(** [signature.signature.rsapss.sig.buffer], read from the image of a
    [TPMT_SIGNATURE]. *)
Variable rsapss_sig_buffer : bytes -> bytes.
Variable charra_crypto_rsa_verify_signature :
  mbedtls_rsa_context -> mbedtls_md_type_t -> bytes -> Z -> bytes ->
  TPM2B_PUBLIC -> CHARRA_RC.
(** the quote *)
Variable TPMS_ATTEST : Type.
Variable charra_unmarshal_tpm2_quote : Z -> bytes -> CHARRA_RC * TPMS_ATTEST.
Variable charra_verify_tpm2_magic : TPMS_ATTEST -> bool.
Variable charra_verify_tpm2_quote_qualifying_data :
  Z -> bytes -> TPMS_ATTEST -> bool.
Variable charra_check_pcr_digest_against_reference :
  option string -> list Z -> Z -> TPMS_ATTEST -> CHARRA_RC.

(** What [charra_load_external_public_key] returns and writes: the
    result code, the handle and the key. *)
Definition charra_load_external_public_key
    (external_public_key_given : bool) (path : option string)
  : CHARRA_RC * option ESYS_TR * option TPM2B_PUBLIC :=
  (KeyMgr.charra_load_external_public_key TPM2B_PUBLIC
     tpm2_load_external_public_key_from_path Esys_LoadExternal
     external_public_key_given path).1.

(** [sizeof(UINT16)], the size of the [size] field of a sized buffer. *)
Definition sizeof_UINT16 : Z := 2.

(** The size of the object a copy of the handler writes to.  The
    handler assigns [attest.size] (line 620) and copies to
    [attest.attestationData] (line 621): the array shares the
    [TPM2B_ATTEST] with its size field, a [UINT16] that precedes it, so
    it has at most [sizeof(TPM2B_ATTEST) - sizeof(UINT16)] bytes.  The
    other copy is to [&signature] (line 624), a whole [TPMT_SIGNATURE]. *)
Definition capacity (dst : string) : Z :=
  if String.eqb dst "attest.attestationData"
  then sizeof_TPM2B_ATTEST - sizeof_UINT16
  else sizeof_TPMT_SIGNATURE.

(** Lines 619 to 625: the quote copied into the TPM's structures, for
    lengths within [capacity]; a longer copy writes past the end of its
    destination (see [overflows]), and what [attest] and its neighbours
    hold after it the source does not determine. *)
Definition prepare_attest (q : tpm2_quote_dto) : TPM2B_ATTEST :=
  {| size := uint16 (attestation_data_len q);
     buffer :=
       take (Z.to_nat (attestation_data_len q)) (attestation_data q) |}.

Definition prepare_signature (q : tpm2_quote_dto) : bytes :=
  memcpy (replicate (Z.to_nat sizeof_TPMT_SIGNATURE) Byte.x00)
    (tpm2_signature q) (tpm2_signature_len q).

Local Open Scope proc_scope.

(** Lines 535 to 777: from the first statement to the label.  Of the
    messages, those that report an error or the outcome of a check are
    recorded, those of the key manager included; progress messages are
    not. *)
Definition coap_attest_handler_body (g : globals) (received : coap_pdu_t)
  : @proc state unit :=
  modify (set_processing_response true) ;;
  (* get data *)
  let '(coap_r, data) := coap_get_data_large received in
  let data_len := Z.of_nat (length data) in
  leave_if (coap_r =? 0)
    (charra_log_error "[verifier] Could not get CoAP PDU data." ;;
     set_attestation_rc CHARRA_RC_ERROR) ;;
  (* unmarshal data *)
  let '(rc, res) :=
    charra_tap_unmarshal_attestation_response data_len data in
  set_res res ;;
  set_attestation_rc rc ;;
  leave_if (bool_decide (rc <> CHARRA_RC_SUCCESS))
    (charra_log_error "[verifier] Could not parse CBOR data.") ;;
  (* store last response: [last_response] is not read anywhere *)
  (* verify data *)
  leave_if (attestation_data_len (tpm2_quote res) >? sizeof_TPM2B_ATTEST)
    (charra_log_error
       "[verifier] Length of attestation data exceeds maximum allowed size." ;;
     set_attestation_rc CHARRA_RC_ERROR) ;;
  leave_if (tpm2_signature_len (tpm2_quote res) >? sizeof_TPMT_SIGNATURE)
    (charra_log_error
       "[verifier] Length of signature exceeds maximum allowed size." ;;
     set_attestation_rc CHARRA_RC_ERROR) ;;
  (* initialize ESAPI *)
  set_esys_ctx NULL ;;
  set_tcti_ctx NULL ;;
  leave_if (bool_decide (Tss2_TctiLdr_Initialize <> TSS2_RC_SUCCESS))
    (charra_log_error "[verifier] Tss2_TctiLdr_Initialize." ;;
     set_attestation_rc CHARRA_RC_ERROR) ;;
  set_tcti_ctx Allocated ;;
  leave_if (bool_decide (Esys_Initialize <> TSS2_RC_SUCCESS))
    (charra_log_error "[verifier] Esys_Initialize." ;;
     set_attestation_rc CHARRA_RC_ERROR) ;;
  set_esys_ctx Allocated ;;
  (* load TPM key *)
  let '(rc, h, key, messages) :=
    KeyMgr.charra_load_external_public_key TPM2B_PUBLIC
      tpm2_load_external_public_key_from_path Esys_LoadExternal true
      (attestation_public_key_path g) in
  log_errors messages ;;
  let tpm2_public_key := default TPM2B_PUBLIC_zero key in
  (match h with Some h => set_sig_key_handle h | None => ret tt end) ;;
  set_attestation_rc rc ;;
  leave_if (bool_decide (rc <> CHARRA_RC_SUCCESS))
    (charra_log_error "[verifier] Loading external public key failed.") ;;
  charra_log_info "[verifier] External public key loaded." ;;
  (* prepare verification *)
  s <- get ;;
  emit (Memcpy "attest.attestationData"
          (attestation_data_len (tpm2_quote res))) ;;
  let attest := prepare_attest (tpm2_quote res) in
  emit (Memcpy "signature" (tpm2_signature_len (tpm2_quote res))) ;;
  let signature := prepare_signature (tpm2_quote res) in
  (* verify attestation signature with TPM *)
  let '(rc, validation_allocated) :=
    charra_verify_tpm2_quote_signature_with_tpm (sig_key_handle s)
      (tpm2_hash_algorithm (signature_hash_algorithm g)) attest signature in
  (if validation_allocated then set_validation Allocated else ret tt) ;;
  set_attestation_rc rc ;;
  let attestation_result_signature :=
    bool_decide (rc = CHARRA_RC_SUCCESS) in
  log_result attestation_result_signature
    "[verifier]     => TPM2 Quote signature is valid!"
    "[verifier]     => TPM2 Quote signature is NOT valid!" ;;
  (* convert TPM public key to mbedTLS public key *)
  let '(rc, mbedtls_rsa_pub_key) :=
    charra_crypto_tpm_pub_key_to_mbedtls_pub_key tpm2_public_key in
  set_attestation_rc rc ;;
  leave_if (bool_decide (rc <> CHARRA_RC_SUCCESS))
    (charra_log_error "[verifier] mbedTLS RSA error") ;;
  (* verify attestation signature with mbedTLS *)
  let rc :=
    charra_crypto_rsa_verify_signature mbedtls_rsa_pub_key
      (mbedtls_hash_algorithm (signature_hash_algorithm g))
      (attestation_data (tpm2_quote res))
      (attestation_data_len (tpm2_quote res))
      (rsapss_sig_buffer signature) tpm2_public_key in
  set_attestation_rc rc ;;
  log_result (bool_decide (rc = CHARRA_RC_SUCCESS))
    "[verifier]     => TPM2 Quote signature is valid!"
    "[verifier]     => TPM2 Quote signature is NOT valid!" ;;
  emit Call_mbedtls_rsa_free ;;
  (* unmarshal attestation data *)
  let '(rc, attest_struct) :=
    charra_unmarshal_tpm2_quote (attestation_data_len (tpm2_quote res))
      (attestation_data (tpm2_quote res)) in
  set_attestation_rc rc ;;
  leave_if (bool_decide (rc <> CHARRA_RC_SUCCESS))
    (charra_log_error "[verifier] Error while unmarshaling TPM2 Quote.") ;;
  (* verify TPM magic *)
  let attestation_result_tpm2_magic :=
    charra_verify_tpm2_magic attest_struct in
  log_result attestation_result_tpm2_magic
    "[verifier]     =>  TPM2 magic is valid!"
    "[verifier]     => TPM2 magic is NOT valid! This might be a bogus TPM2 Quote!" ;;
  (* verify qualifying data (nonce) *)
  let attestation_result_nonce :=
    charra_verify_tpm2_quote_qualifying_data (last_request_nonce_len g)
      (last_request_nonce g) attest_struct in
  log_result attestation_result_nonce
    "[verifier]     => Qualifying data (nonce) in TPM2 Quote is valid (matches the one sent)!"
    "[verifier]     => Qualifying data (nonce) in TPM2 Quote is NOT valid (does not match the one sent)!" ;;
  (* verify PCRs *)
  let pcr_check :=
    charra_check_pcr_digest_against_reference (reference_pcr_file_path g)
      (tpm_pcr_selection g !!! 1%nat) (tpm_pcr_selection_len g !!! 1%nat)
      attest_struct in
  let attestation_result_pcrs :=
    bool_decide (pcr_check = CHARRA_RC_SUCCESS) in
  log_result attestation_result_pcrs
    "[verifier]     => PCR composite digest is valid!"
    "[verifier]     => PCR composite digest is NOT valid! (does not match any of the digests from the set of reference PCRs)" ;;
  (* output result *)
  let attestation_result :=
    attestation_result_signature && attestation_result_nonce
      && attestation_result_pcrs in
  if attestation_result
  then set_attestation_rc CHARRA_RC_SUCCESS ;;
       charra_log_info "[verifier] |   ATTESTATION SUCCESSFUL   |"
  else set_attestation_rc CHARRA_RC_VERIFICATION_FAILED ;;
       charra_log_info "[verifier] |     ATTESTATION FAILED     |".

(** Lines 779 to 812: the code after the label.  Where a local it reads
    is [Indeterminate] the program frees, flushes with or finalises
    whatever the local holds, and the source does not determine what
    happens then.  The model records the read and goes on as if the local
    held no pointer; what it says from that event on, the reset of
    [processing_response] included, holds of the program only in a run
    without such a read (see [defined]). *)
Definition cleanup : @proc state unit :=
  (* free heap objects *)
  s <- get ;;
  match res s with
  | Some r => emit (Free_pcr_logs (pcr_log_len r))
  | None => emit (Read_indeterminate "res")
  end ;;
  (* flush handles *)
  match sig_key_handle s with
  | ESYS_TR_NONE => ret tt
  | h =>
    emit (Call_Esys_FlushContext h) ;;
    if bool_decide (Esys_FlushContext h <> TSS2_RC_SUCCESS)
    then charra_log_error "[verifier] TSS cleanup sig_key_handle failed."
    else ret tt
  end ;;
  (* free ESAPI objects *)
  match validation s with
  | NULL => ret tt
  | Allocated => emit Call_Esys_Free
  | Indeterminate => emit (Read_indeterminate "validation")
  end ;;
  (* finalize ESAPI & TCTI *)
  match esys_ctx s with
  | NULL => ret tt
  | Allocated => emit Call_Esys_Finalize
  | Indeterminate => emit (Read_indeterminate "esys_ctx")
  end ;;
  match tcti_ctx s with
  | NULL => ret tt
  | Allocated => emit Call_Tss2_TctiLdr_Finalize
  | Indeterminate => emit (Read_indeterminate "tcti_ctx")
  end ;;
  modify (set_processing_response false).

(** The handler: the state it leaves behind, given the file-scope
    variables [g] and the value [rc] of [attestation_rc] on entry. *)
Definition coap_attest_handler (g : globals) (rc : CHARRA_RC)
    (received : coap_pdu_t) : state :=
  with_label (coap_attest_handler_body g received) cleanup
    (entry rc false).
End Handler.

(** The copies a run has made, oldest first: destination and byte count. *)
Definition copies (tr : list event) : list (string * Z) :=
  omap (fun e => match e with Memcpy dst n => Some (dst, n) | _ => None end)
    tr.

(** The copies that wrote past the end of their destination. *)
Definition overflows (sizeof_TPM2B_ATTEST sizeof_TPMT_SIGNATURE : Z)
    (tr : list event) : list (string * Z) :=
  filter
    (fun c => capacity sizeof_TPM2B_ATTEST sizeof_TPMT_SIGNATURE c.1 < c.2)
    (copies tr).

(** A run for which the source determines what the handler does: no
    uninitialised local was read and no copy wrote past its destination. *)
Definition defined (sizeof_TPM2B_ATTEST sizeof_TPMT_SIGNATURE : Z)
    (tr : list event) : Prop :=
  (forall var, ~ In (Read_indeterminate var) tr)
  /\ overflows sizeof_TPM2B_ATTEST sizeof_TPMT_SIGNATURE tr = [].

(** *** A test bench for the handler

    Every call succeeds, except that the five checks return what the
    arguments say: the TPM's and mbedTLS's signature verification, the
    TPM magic, the nonce and the PCR digest.  The response carries a
    four-byte quote and declares the two lengths given; the TPM structures
    are taken to have 2306 and 1030 bytes. *)
Definition bench_globals : globals :=
  {| last_request_nonce_len := 20;
     last_request_nonce := replicate 20 Byte.x2a;
     attestation_public_key_path := Some "keys/attestation.pub";
     reference_pcr_file_path := Some "reference-pcrs.yaml";
     signature_hash_algorithm :=
       {| mbedtls_hash_algorithm := MBEDTLS_MD_SHA256;
          tpm2_hash_algorithm := TPM2_ALG_SHA256 |};
     tpm_pcr_selection :=
       [[0]; [0; 1; 2; 3; 4; 5; 6; 7; 10]; [0]; [0]];
     tpm_pcr_selection_len := [0; 9; 0; 0] |}.

Definition bench_response (attest_len sig_len : Z)
  : charra_tap_msg_attestation_response_dto :=
  {| tpm2_quote :=
       {| attestation_data_len := attest_len;
          attestation_data := [Byte.xff; Byte.x54; Byte.x43; Byte.x47];
          tpm2_signature_len := sig_len;
          tpm2_signature := [Byte.x00; Byte.x16] |};
     pcr_log_len := 0 |}.

Definition bench (attest_len sig_len : Z) (sig sw : CHARRA_RC)
    (magic nonce : bool) (pcr : CHARRA_RC) : state :=
  coap_attest_handler unit (fun _ => (1, [Byte.x82]))
    (fun _ _ => (CHARRA_RC_SUCCESS, bench_response attest_len sig_len))
    2306 1030 TSS2_RC_SUCCESS TSS2_RC_SUCCESS
    unit tt (fun _ => Some tt)
    (fun _ => (TSS2_RC_SUCCESS, Some (ESYS_TR_object 1)))
    (fun _ => TSS2_RC_SUCCESS)
    (fun _ _ _ _ => (sig, true))
    unit (fun _ => (CHARRA_RC_SUCCESS, tt)) (fun sig => sig)
    (fun _ _ _ _ _ _ => sw)
    unit (fun _ _ => (CHARRA_RC_SUCCESS, tt))
    (fun _ => magic) (fun _ _ _ => nonce) (fun _ _ _ _ => pcr)
    bench_globals CHARRA_RC_ERROR tt.

End Verifier.

(** ** src/attester.c: [coap_attest_handler] *)

Module Attester.

Record msg_attestation_request_dto (pcr_selection_dto : Type) : Type := {
  sig_key_id_len : Z;
  sig_key_id : bytes;
  nonce_len : Z;
  nonce : bytes;
  pcr_selections_len : Z;
  pcr_selections : list pcr_selection_dto
}.
Arguments sig_key_id_len {_} _.
Arguments sig_key_id {_} _.
Arguments nonce_len {_} _.
Arguments nonce {_} _.
Arguments pcr_selections_len {_} _.
Arguments pcr_selections {_} _.

Record msg_attestation_response_dto : Type := {
  attestation_data_len : Z;
  attestation_data : bytes;
  tpm2_signature_len : Z;
  tpm2_signature : bytes;
  tpm2_public_key_len : Z;
  tpm2_public_key : bytes;
  event_log_len : Z;
  event_log : string
}.

Definition dummy_event_log : string :=
  "--- BEGIN CHARRA EVENT LOG ----------------
This is a dummy event log.
It is here just for demonstration purposes.
--- END CHARRA EVENT LOG ------------------
".

Section Handler.
Variable coap_pdu_t : Type.
Variable coap_get_data_large : coap_pdu_t -> Z * bytes.
Variable pcr_selection_dto : Type.
Variable unmarshal_attestation_request :
  Z -> bytes -> CHARRA_RC * msg_attestation_request_dto pcr_selection_dto.
(** [sizeof(TPMU_HA)], the size of the largest TPM digest. *)
Variable sizeof_TPMU_HA : Z.
Variable TPML_PCR_SELECTION : Type.
Variable charra_pcr_selections_to_tpm_pcr_selections :
  Z -> list pcr_selection_dto -> CHARRA_RC * TPML_PCR_SELECTION.
Variable Esys_Initialize : TSS2_RC.
(** [charra_load_tpm2_key]: the result code, the handle the call wrote
    through [&sig_key_handle] if it wrote one, and the image of
    [*public_key]. *)
Variable charra_load_tpm2_key :
  Z -> bytes -> CHARRA_RC * option ESYS_TR * bytes.
(** [tpm2_quote]: the return code, [*attest_buf] and the image of
    [*signature]. *)
Variable tpm2_quote :
  ESYS_TR -> TPML_PCR_SELECTION -> TPM2B_DATA ->
  TSS2_RC * TPM2B_ATTEST * bytes.
Variable marshal_attestation_response :
  msg_attestation_response_dto -> Z * bytes.
Variable coap_add_data_large_response : Z -> bytes -> Z.
Variable Esys_FlushContext : ESYS_TR -> TSS2_RC.

Inductive event : Type :=
  | Log (lvl : log_level) (msg : string)
  | Call_charra_load_tpm2_key (written : option ESYS_TR)
  | Call_tpm2_quote (h : ESYS_TR) (pcr_selection : TPML_PCR_SELECTION)
      (qualifying_data : TPM2B_DATA)
  | Set_out_code_CONTENT
  | Call_coap_add_data_large_response (len : Z) (buf : bytes)
  | Call_Esys_FlushContext (h : ESYS_TR)
  | Call_Esys_Finalize
  | Read_indeterminate (var : string).

(** The locals the epilogue reads, and the calls and messages so far
    (oldest first). *)
Record state : Type := mk_state {
  sig_key_handle : ESYS_TR;
  esys_ctx : cptr;
  trace : list event
}.

Definition set_sig_key_handle (v : ESYS_TR) : proc unit :=
  modify (fun s => mk_state v (esys_ctx s) (trace s)).
Definition set_esys_ctx (v : cptr) : proc unit :=
  modify (fun s => mk_state (sig_key_handle s) v (trace s)).
Definition record (e : event) (s : state) : state :=
  mk_state (sig_key_handle s) (esys_ctx s) (trace s ++ [e]).
Definition emit (e : event) : proc unit := modify (record e).
Definition charra_log_info (msg : string) : proc unit :=
  emit (Log INFO msg).
Definition charra_log_error (msg : string) : proc unit :=
  emit (Log ERROR msg).

(** [if (c) { charra_log_error(msg); goto error; }] *)
Definition leave_if (c : bool) (msg : string) : @proc state unit :=
  if c then bind (charra_log_error msg) (fun _ => goto) else ret tt.

Definition entry : state := mk_state ESYS_TR_NONE Indeterminate [].

Local Open Scope proc_scope.

(** Lines 150 to 282: from the first statement to the label.  Error
    messages and the message after a successful quote are recorded, the
    other progress messages are not.  The call of [charra_load_tpm2_key]
    is recorded with what the callee wrote, not with what the handler
    holds afterwards. *)
Definition coap_attest_handler_body (in_pdu : coap_pdu_t)
  : @proc state unit :=
  (* get data *)
  let '(coap_r, data) := coap_get_data_large in_pdu in
  let data_len := Z.of_nat (length data) in
  leave_if (coap_r =? 0) "[attester] Could not get CoAP PDU data." ;;
  (* unmarshal data *)
  let '(charra_r, req) := unmarshal_attestation_request data_len data in
  leave_if (bool_decide (charra_r <> CHARRA_RC_SUCCESS))
    "[attester] Could not parse CBOR data." ;;
  (* nonce *)
  leave_if (nonce_len req >? sizeof_TPMU_HA) "[attester] Nonce too long." ;;
  let qualifying_data : TPM2B_DATA :=
    {| size := uint16 (nonce_len req);
       buffer := take (Z.to_nat (nonce_len req)) (nonce req) |} in
  (* PCR selection *)
  let '(charra_r, pcr_selection) :=
    charra_pcr_selections_to_tpm_pcr_selections (pcr_selections_len req)
      (pcr_selections req) in
  leave_if (bool_decide (charra_r <> CHARRA_RC_SUCCESS))
    "[attester] PCR selection conversion error." ;;
  (* initialize ESAPI *)
  set_esys_ctx NULL ;;
  leave_if (bool_decide (Esys_Initialize <> TSS2_RC_SUCCESS))
    "[attester] Esys_Initialize." ;;
  set_esys_ctx Allocated ;;
  (* load TPM key *)
  let '(charra_r, h, public_key) :=
    charra_load_tpm2_key (sig_key_id_len req) (sig_key_id req) in
  emit (Call_charra_load_tpm2_key h) ;;
  (match h with Some h => set_sig_key_handle h | None => ret tt end) ;;
  s <- get ;;
  leave_if (bool_decide (charra_r <> CHARRA_RC_SUCCESS))
    "[attester] Could not load TPM key." ;;
  (* do the TPM quote *)
  let '(tss_r, attest_buf, signature) :=
    tpm2_quote (sig_key_handle s) pcr_selection qualifying_data in
  emit (Call_tpm2_quote (sig_key_handle s) pcr_selection qualifying_data) ;;
  leave_if (bool_decide (tss_r <> TSS2_RC_SUCCESS))
    "[attester] TPM2 quote." ;;
  charra_log_info "[attester] TPM Quote successful." ;;
  (* prepare response *)
  let res :=
    {| attestation_data_len := size attest_buf;
       attestation_data :=
         take (Z.to_nat (size attest_buf)) (buffer attest_buf);
       tpm2_signature_len := Z.of_nat (length signature);
       tpm2_signature := signature;
       tpm2_public_key_len := Z.of_nat (length public_key);
       tpm2_public_key := public_key;
       event_log_len := Z.of_nat (String.length dummy_event_log) + 1;
       event_log := dummy_event_log |} in
  (* marshal response *)
  let '(res_buf_len, res_buf) := marshal_attestation_response res in
  (* add response data to outgoing PDU and send it *)
  emit Set_out_code_CONTENT ;;
  let coap_r := coap_add_data_large_response res_buf_len res_buf in
  emit (Call_coap_add_data_large_response res_buf_len res_buf) ;;
  if coap_r =? 0
  then charra_log_error
         "[attester] Error invoking coap_add_data_large_response()."
  else ret tt.

(** Lines 284 to 297: the code after the label.  Where [esys_ctx] is
    [Indeterminate] the program tests whatever the local holds and, unless
    that is NULL, calls [Esys_Finalize] on it; the source does not
    determine what happens then.  The model records the read and nothing
    after it: of a run with such a read it says nothing from that event on
    (see [defined]). *)
Definition error_label : @proc state unit :=
  (* flush handles *)
  s <- get ;;
  match sig_key_handle s with
  | ESYS_TR_NONE => ret tt
  | h =>
    emit (Call_Esys_FlushContext h) ;;
    if bool_decide (Esys_FlushContext h <> TSS2_RC_SUCCESS)
    then charra_log_error "[attester] TSS cleanup sig_key_handle failed."
    else ret tt
  end ;;
  (* finalize ESAPI *)
  match esys_ctx s with
  | NULL => ret tt
  | Allocated => emit Call_Esys_Finalize
  | Indeterminate => emit (Read_indeterminate "esys_ctx")
  end.

Definition coap_attest_handler (in_pdu : coap_pdu_t) : state :=
  with_label (coap_attest_handler_body in_pdu) error_label entry.

(** *** What the handler's run says about the request *)

Definition nonce_too_long (s : state) : Prop :=
  In (Log ERROR "[attester] Nonce too long.") (trace s).

Definition quoted_with (qualifying_data : TPM2B_DATA) (s : state) : Prop :=
  exists h sel, In (Call_tpm2_quote h sel qualifying_data) (trace s).

Definition response_sent (s : state) : Prop :=
  exists len buf, In (Call_coap_add_data_large_response len buf) (trace s).

(** A run for which the source determines what the handler does: no
    uninitialised local was read. *)
Definition defined (tr : list event) : Prop :=
  forall var, ~ In (Read_indeterminate var) tr.

(** The handles a TPM holds after the calls of a trace, given those it
    held before: a handle that [charra_load_tpm2_key] wrote is added,
    flushing removes it. *)
Fixpoint outstanding_handles (held : list ESYS_TR) (tr : list event)
  : list ESYS_TR :=
  match tr with
  | [] => held
  | Call_charra_load_tpm2_key (Some h) :: tr =>
    outstanding_handles
      (if bool_decide (h = ESYS_TR_NONE) then held else h :: held) tr
  | Call_Esys_FlushContext h :: tr =>
    outstanding_handles (filter (fun h' => h' <> h) held) tr
  | _ :: tr => outstanding_handles held tr
  end.
End Handler.

Arguments Log {_} _ _.
Arguments Call_charra_load_tpm2_key {_} _.
Arguments Call_tpm2_quote {_} _ _ _.
Arguments Set_out_code_CONTENT {_}.
Arguments Call_coap_add_data_large_response {_} _ _.
Arguments Call_Esys_FlushContext {_} _.
Arguments Call_Esys_Finalize {_}.
Arguments Read_indeterminate {_} _.
Arguments sig_key_handle {_} _.
Arguments esys_ctx {_} _.
Arguments trace {_} _.
Arguments nonce_too_long {_} _.
Arguments quoted_with {_} _ _.
Arguments response_sent {_} _.
Arguments outstanding_handles {_} _ _.
Arguments defined {_} _.

(** *** A test bench for the handler

    The request carries a nonce of [n] bytes; the largest digest has 64
    bytes; reading and decoding the request, converting the PCR selection
    and initialising the TPM stack succeed; loading the key, quoting and
    sending return what the arguments say. *)
Definition bench_request (n : Z) : msg_attestation_request_dto unit :=
  {| sig_key_id_len := 14;
     sig_key_id := [];
     nonce_len := n;
     nonce := replicate (Z.to_nat n) Byte.x2a;
     pcr_selections_len := 1;
     pcr_selections := [tt] |}.

Definition bench (n : Z) (load : CHARRA_RC * option ESYS_TR)
    (quote : TSS2_RC) (send : Z) : state unit :=
  coap_attest_handler unit (fun _ => (1, [Byte.x86])) unit
    (fun _ _ => (CHARRA_RC_SUCCESS, bench_request n))
    64 unit (fun _ _ => (CHARRA_RC_SUCCESS, tt)) TSS2_RC_SUCCESS
    (fun _ _ => (load, [Byte.x00; Byte.x01]))
    (fun _ _ _ =>
       (quote, {| size := 2; buffer := [Byte.xff; Byte.x54] |},
        [Byte.x00; Byte.x16]))
    (fun _ => (3, [Byte.x82; Byte.x82; Byte.x42]))
    (fun _ _ => send) (fun _ => TSS2_RC_SUCCESS) tt.

End Attester.

(** ** src/util/cli/cli_util_verifier.c *)

Module Cli.

Record cli_config_common : Type := mk_common {
  charra_log_level : Z;
  coap_log_level : Z;
  port : Z;
  use_dtls_psk : bool;
  dtls_psk_key : string;
  use_dtls_rpk : bool;
  dtls_rpk_private_key_path : string;
  dtls_rpk_public_key_path : string;
  dtls_rpk_peer_public_key_path : string;
  dtls_rpk_verify_peer_public_key : bool
}.

Record pcr_log_dto : Type := {
  identifier : option string;
  start : Z;
  count : Z
}.

(** What the pointers of [cli_config_verifier] point to.
    [tpm_pcr_selection] has a row of [TPM2_MAX_PCRS] bytes for each of the
    [TPM2_PCR_BANK_COUNT] banks; a missing path is [NULL]. *)
Record cli_config_verifier : Type := mk_verifier {
  dst_host : string;
  timeout : Z;
  attestation_public_key_path : option string;
  reference_pcr_file_path : option string;
  tpm_pcr_selection : list (list Z);
  tpm_pcr_selection_len : list Z;
  dtls_psk_identity : string;
  signature_hash_algorithm : cli_config_signature_hash_algorithm;
  pcr_log_len : Z;
  pcr_logs : list pcr_log_dto
}.

Record cli_config : Type := {
  common_config : cli_config_common;
  verifier_config : cli_config_verifier
}.

Definition with_common (f : cli_config_common -> cli_config_common)
    (c : cli_config) : cli_config :=
  {| common_config := f (common_config c);
     verifier_config := verifier_config c |}.

Definition with_verifier (f : cli_config_verifier -> cli_config_verifier)
    (c : cli_config) : cli_config :=
  {| common_config := common_config c;
     verifier_config := f (verifier_config c) |}.

Definition set_use_dtls_psk (v : bool) : cli_config -> cli_config :=
  with_common (fun c =>
    mk_common (charra_log_level c) (coap_log_level c) (port c) v
      (dtls_psk_key c) (use_dtls_rpk c) (dtls_rpk_private_key_path c)
      (dtls_rpk_public_key_path c) (dtls_rpk_peer_public_key_path c)
      (dtls_rpk_verify_peer_public_key c)).

Definition set_dst_host (v : string) : cli_config -> cli_config :=
  with_verifier (fun c =>
    mk_verifier v (timeout c) (attestation_public_key_path c)
      (reference_pcr_file_path c) (tpm_pcr_selection c)
      (tpm_pcr_selection_len c) (dtls_psk_identity c)
      (signature_hash_algorithm c) (pcr_log_len c) (pcr_logs c)).

Definition set_timeout (v : Z) : cli_config -> cli_config :=
  with_verifier (fun c =>
    mk_verifier (dst_host c) v (attestation_public_key_path c)
      (reference_pcr_file_path c) (tpm_pcr_selection c)
      (tpm_pcr_selection_len c) (dtls_psk_identity c)
      (signature_hash_algorithm c) (pcr_log_len c) (pcr_logs c)).

Definition set_attestation_public_key_path (v : option string)
  : cli_config -> cli_config :=
  with_verifier (fun c =>
    mk_verifier (dst_host c) (timeout c) v
      (reference_pcr_file_path c) (tpm_pcr_selection c)
      (tpm_pcr_selection_len c) (dtls_psk_identity c)
      (signature_hash_algorithm c) (pcr_log_len c) (pcr_logs c)).

Definition set_reference_pcr_file_path (v : option string)
  : cli_config -> cli_config :=
  with_verifier (fun c =>
    mk_verifier (dst_host c) (timeout c) (attestation_public_key_path c)
      v (tpm_pcr_selection c)
      (tpm_pcr_selection_len c) (dtls_psk_identity c)
      (signature_hash_algorithm c) (pcr_log_len c) (pcr_logs c)).

Definition set_tpm_pcr_selection (sel : list (list Z)) (len : list Z)
  : cli_config -> cli_config :=
  with_verifier (fun c =>
    mk_verifier (dst_host c) (timeout c) (attestation_public_key_path c)
      (reference_pcr_file_path c) sel len (dtls_psk_identity c)
      (signature_hash_algorithm c) (pcr_log_len c) (pcr_logs c)).

Definition set_dtls_psk_identity (v : string) : cli_config -> cli_config :=
  with_verifier (fun c =>
    mk_verifier (dst_host c) (timeout c) (attestation_public_key_path c)
      (reference_pcr_file_path c) (tpm_pcr_selection c)
      (tpm_pcr_selection_len c) v
      (signature_hash_algorithm c) (pcr_log_len c) (pcr_logs c)).

Definition set_signature_hash_algorithm
    (v : cli_config_signature_hash_algorithm) : cli_config -> cli_config :=
  with_verifier (fun c =>
    mk_verifier (dst_host c) (timeout c) (attestation_public_key_path c)
      (reference_pcr_file_path c) (tpm_pcr_selection c)
      (tpm_pcr_selection_len c) (dtls_psk_identity c)
      v (pcr_log_len c) (pcr_logs c)).

Definition set_pcr_logs (len : Z) (logs : list pcr_log_dto)
  : cli_config -> cli_config :=
  with_verifier (fun c =>
    mk_verifier (dst_host c) (timeout c) (attestation_public_key_path c)
      (reference_pcr_file_path c) (tpm_pcr_selection c)
      (tpm_pcr_selection_len c) (dtls_psk_identity c)
      (signature_hash_algorithm c) len logs).

(** What [getopt_long] hands to the [switch]: the case its return value
    selects ('i', 'a', 't', '6', 'f', 's', 'g' for the verifier's own
    options; any other value goes to [default]) and [optarg].  The end of
    the options, where [getopt_long] returns -1, is the end of the list. *)
Inductive option_case : Type :=
  | CLI_COMMON_PCR_LOG
  | CLI_VERIFIER_PSK_IDENTITY
  | CLI_VERIFIER_IP
  | CLI_VERIFIER_TIMEOUT
  | CLI_VERIFIER_ATTESTATION_PUBLIC_KEY
  | CLI_VERIFIER_PCR_FILE
  | CLI_VERIFIER_PCR_SELECTION
  | CLI_VERIFIER_HASH_ALGORITHM
  | default_case (identifier : Z).

Record parsed_option : Type := {
  opt_case : option_case;
  optarg : string
}.

(** *** C strings *)

Fixpoint is_delimiter (delim : string) (c : Ascii.ascii) : bool :=
  match delim with
  | EmptyString => false
  | String d rest => Ascii.eqb c d || is_delimiter rest c
  end.

(** [strcspn(s, delim)] splits [s] in front of its first delimiter: the
    part before it and the part from it on. *)
Fixpoint strcspn_split (s delim : string) : string * string :=
  match s with
  | EmptyString => (EmptyString, EmptyString)
  | String c rest =>
    if is_delimiter delim c then (EmptyString, s)
    else let '(tok, tl) := strcspn_split rest delim in (String c tok, tl)
  end.

(** [strspn]: [s] without its leading delimiters. *)
Fixpoint skip_delimiters (s delim : string) : string :=
  match s with
  | EmptyString => EmptyString
  | String c rest =>
    if is_delimiter delim c then skip_delimiters rest delim else s
  end.

(** The C library's [strtok], on the string that is left: the next token
    and what is left after it, or [None] for [NULL]. *)
Definition strtok (s delim : string) : option (string * string) :=
  match skip_delimiters s delim with
  | EmptyString => None
  | s' =>
    let '(tok, tl) := strcspn_split s' delim in
    Some (tok, match tl with EmptyString => tl | String _ tl' => tl' end)
  end.

(** [charra_cli_verifier_strtok], lines 354 to 382: as [strtok], but
    leading delimiters are not skipped, so tokens can be empty. *)
Definition charra_cli_verifier_strtok (str delim : string)
  : option (string * string) :=
  match str with
  | EmptyString => None
  | _ =>
    let '(tok, tl) := strcspn_split str delim in
    Some (tok, match tl with EmptyString => tl | String _ tl' => tl' end)
  end.

Definition uint8 (z : Z) : Z := z mod 256.
Definition uint32 (z : Z) : Z := z mod 4294967296.

(** *** What the parser calls and does not define

    The helpers of cli_util_common.c and io_util.c, the C library's
    [strtoul] in base 10 (the value and the number of characters it
    consumed, that is [end - optarg]), and the sizes from the headers. *)
Record externals : Type := {
  charra_cli_util_common_parse_option_as_ulong : string -> Z -> option Z;
  charra_cli_util_common_split_option_string :
    string -> option (string * string);
  charra_cli_util_common_parse_command_line_argument :
    Z -> string -> cli_config -> Z * cli_config;
  charra_io_file_exists : string -> CHARRA_RC;
  strtoul : string -> Z * nat;
  TPM2_MAX_PCRS : nat;
  TPM2_PCR_BANK_COUNT : nat;
  SUPPORTED_PCR_LOGS_COUNT : nat
}.

Section Parser.
Variable X : externals.

(** Lines 100 to 115. *)
Definition charra_check_required_options (variables : cli_config) : Z :=
  match reference_pcr_file_path (verifier_config variables) with
  | None => -1
  | Some _ =>
    match attestation_public_key_path (verifier_config variables) with
    | None => -1
    | Some _ => 0
    end
  end.

(** Lines 185 to 203: [Some (start, count)] for 0, [None] for -1. *)
Definition charra_parse_pcr_log_start_count (value : string)
  : option (Z * Z) :=
  match strtok value "," with
  | None => None
  | Some (number1, rest) =>
    match strtok rest "," with
    | None => None
    | Some (number2, _) =>
      match charra_cli_util_common_parse_option_as_ulong X number1 10 with
      | None => None
      | Some start =>
        match charra_cli_util_common_parse_option_as_ulong X number2 10
        with
        | None => None
        | Some count => Some (start, count)
        end
      end
    end
  end.

Definition charra_check_pcr_log_format (format : string) : Z :=
  if String.eqb format "ima" || String.eqb format "tcg-boot" then 0
  else -1.

(** Lines 212 to 233, on the entries from [index] on: the index found
    and whether [*pcr_log_len] was incremented. *)
Fixpoint charra_calculate_index_and_update_length
    (logs : list pcr_log_dto) (identifier : string) (index : nat)
  : nat * bool :=
  match logs with
  | [] => (index, false)
  | l :: logs' =>
    match Cli.identifier l with
    | None => (index, true)
    | Some known =>
      if String.prefix identifier known then (index, false)
      else charra_calculate_index_and_update_length logs' identifier
             (S index)
    end
  end.

(** Lines 235 to 270. *)
Definition charra_cli_verifier_pcr_log (optarg : string)
    (variables : cli_config) : Z * cli_config :=
  match charra_cli_util_common_split_option_string X optarg with
  | None => (-1, variables)
  | Some (format, value) =>
    match charra_parse_pcr_log_start_count value with
    | None => (-1, variables)
    | Some (start, count) =>
      if charra_check_pcr_log_format format =? 0 then
        let v := verifier_config variables in
        let '(index, grown) :=
          charra_calculate_index_and_update_length (pcr_logs v) format 0
        in
        let len := if grown then pcr_log_len v + 1 else pcr_log_len v in
        if (SUPPORTED_PCR_LOGS_COUNT X <=? index)%nat
        then (-1, set_pcr_logs len (pcr_logs v) variables)
        else
          (0, set_pcr_logs len
                (<[index := {| identifier := Some format;
                               start := start; count := count |}]>
                   (pcr_logs v))
                variables)
      else (-1, variables)
    end
  end.

(** Lines 272 to 275. *)
Definition charra_cli_verifier_identity (optarg : string)
    (variables : cli_config) : cli_config :=
  set_dtls_psk_identity optarg (set_use_dtls_psk true variables).

(** Lines 277 to 287. *)
Definition charra_cli_verifier_ip (optarg : string)
    (variables : cli_config) : Z * cli_config :=
  if (15 <? String.length optarg)%nat then (-1, variables)
  else (0, set_dst_host optarg variables).

(** Lines 289 to 301: the timeout is stored before it is checked. *)
Definition charra_cli_verifier_timeout (optarg : string)
    (variables : cli_config) : Z * cli_config :=
  let '(value, consumed) := strtoul X optarg in
  let variables := set_timeout (uint16 value) variables in
  if (timeout (verifier_config variables) =? 0) || (consumed =? 0)%nat
  then (-1, variables)
  else (0, variables).

(** Lines 303 to 313. *)
Definition charra_cli_verifier_attestation_public_key (optarg : string)
    (variables : cli_config) : Z * cli_config :=
  if bool_decide (charra_io_file_exists X optarg <> CHARRA_RC_SUCCESS)
  then (-1, variables)
  else (0, set_attestation_public_key_path (Some optarg) variables).

(** Lines 315 to 352. *)
Definition charra_cli_verifier_pcr_file (optarg : string)
    (variables : cli_config) : Z * cli_config :=
  match strtok optarg ":" with
  | None => (-1, variables)
  | Some (format, rest) =>
    match strtok rest ":" with
    | None => (-1, variables)
    | Some (path, _) =>
      if negb (String.eqb format "yaml") then (-1, variables)
      else if bool_decide (charra_io_file_exists X path = CHARRA_RC_SUCCESS)
      then (0, set_reference_pcr_file_path (Some path) variables)
      else (-1, variables)
    end
  end.

(** Lines 496 to 519. *)
Definition charra_cli_verifier_hash_algorithm (optarg : string)
    (variables : cli_config) : Z * cli_config :=
  if String.eqb optarg "sha1" then
    (0, set_signature_hash_algorithm
          {| mbedtls_hash_algorithm := MBEDTLS_MD_SHA1;
             tpm2_hash_algorithm := TPM2_ALG_SHA1 |} variables)
  else if String.eqb optarg "sha256" then
    (0, set_signature_hash_algorithm
          {| mbedtls_hash_algorithm := MBEDTLS_MD_SHA256;
             tpm2_hash_algorithm := TPM2_ALG_SHA256 |} variables)
  else if String.eqb optarg "sha384" then
    (0, set_signature_hash_algorithm
          {| mbedtls_hash_algorithm := MBEDTLS_MD_SHA384;
             tpm2_hash_algorithm := TPM2_ALG_SHA384 |} variables)
  else if String.eqb optarg "sha512" then
    (0, set_signature_hash_algorithm
          {| mbedtls_hash_algorithm := MBEDTLS_MD_SHA512;
             tpm2_hash_algorithm := TPM2_ALG_SHA512 |} variables)
  else (-1, variables).

(** Lines 399 to 413: the loop that fills the hash set, on the string
    that is left.  Each round consumes a token; [fuel] bounds the number
    of rounds and [None] means it ran out.  The result is the code to
    return (0 to go on) and the hash set. *)
Fixpoint fill_hash_set (fuel : nat) (next_token : string)
    (tpm_pcr_selection_hash_set : list Z) : option (Z * list Z) :=
  match fuel with
  | O => None
  | S fuel =>
    match charra_cli_verifier_strtok next_token "," with
    | None => Some (0, tpm_pcr_selection_hash_set)
    | Some (pcr_token, next_token) =>
      match charra_cli_util_common_parse_option_as_ulong X pcr_token 10
      with
      | None => Some (-1, tpm_pcr_selection_hash_set)
      | Some parse_value =>
        if Z.of_nat (TPM2_MAX_PCRS X) <=? parse_value
        then Some (-1, tpm_pcr_selection_hash_set)
        else
          let pcr := uint8 parse_value in
          fill_hash_set fuel next_token
            (<[Z.to_nat pcr := 1]> tpm_pcr_selection_hash_set)
      end
    end
  end.

(** Lines 416 to 422, one turn of the loop: PCR [i] is appended to the
    bank of length [len] when its bit is set. *)
Definition add_sorted_step (tpm_pcr_selection_hash_set : list Z)
    (acc : list Z * Z) (i : nat) : list Z * Z :=
  let '(bank, len) := acc in
  if (tpm_pcr_selection_hash_set !!! i) =? 0 then (bank, len)
  else (<[Z.to_nat len := Z.of_nat i]> bank, len + 1).

(** Lines 415 to 422: the set bits, in ascending order, written to the
    front of the bank; the bank and the number of entries written. *)
Definition add_sorted (tpm_pcr_selection_hash_set : list Z)
    (tpm_pcr_selection_bank : list Z) : list Z * Z :=
  foldl (add_sorted_step tpm_pcr_selection_hash_set)
    (tpm_pcr_selection_bank, 0) (seq 0 (TPM2_MAX_PCRS X)).

(** Lines 384 to 424: the return code, the bank and its length. *)
Definition charra_cli_verifier_parse_pcr_bank
    (tpm_pcr_selection_bank : list Z) (tpm_pcr_selection_len : Z)
    (pcr_list : string) : Z * list Z * Z :=
  if String.eqb pcr_list "all" then
    (0,
     foldl (fun bank i => <[i := 1]> bank) tpm_pcr_selection_bank
       (seq 0 (TPM2_MAX_PCRS X)),
     Z.of_nat (TPM2_MAX_PCRS X))
  else
    match fill_hash_set (S (String.length pcr_list)) pcr_list
            (replicate (TPM2_MAX_PCRS X) 0)
    with
    | Some (0, hash_set) =>
      let '(bank, len) := add_sorted hash_set tpm_pcr_selection_bank in
      (0, bank, len)
    | _ => (-1, tpm_pcr_selection_bank, tpm_pcr_selection_len)
    end.

(** Lines 426 to 438. *)
Definition charra_cli_verifier_parse_pcr_bank_to_index (pcr_bank : string)
  : Z :=
  if String.eqb pcr_bank "sha1" then 0
  else if String.eqb pcr_bank "sha256" then 1
  else if String.eqb pcr_bank "sha384" then 2
  else if String.eqb pcr_bank "sha512" then 3
  else -1.

(** Lines 440 to 473: the loop over the banks, on the string that is
    left, with [fuel] as in [fill_hash_set]. *)
Fixpoint charra_cli_verifier_parse_pcr_selection (fuel : nat)
    (next_token : string) (variables : cli_config)
  : option (Z * cli_config) :=
  match fuel with
  | O => None
  | S fuel =>
    match charra_cli_verifier_strtok next_token "+" with
    | None => Some (0, variables)
    | Some (bank_token, next_token) =>
      match charra_cli_verifier_strtok bank_token ":" with
      | None => Some (-1, variables)
      | Some (bank_name, pcr_list) =>
        let bank := charra_cli_verifier_parse_pcr_bank_to_index bank_name in
        if (bank <? 0) || (Z.of_nat (TPM2_PCR_BANK_COUNT X) <=? bank)
        then Some (-1, variables)
        else
          let v := verifier_config variables in
          let '(rc, row, len) :=
            charra_cli_verifier_parse_pcr_bank
              (tpm_pcr_selection v !!! Z.to_nat bank)
              (tpm_pcr_selection_len v !!! Z.to_nat bank) pcr_list in
          let variables :=
            set_tpm_pcr_selection
              (<[Z.to_nat bank := row]> (tpm_pcr_selection v))
              (<[Z.to_nat bank := len]> (tpm_pcr_selection_len v))
              variables in
          if rc =? 0
          then charra_cli_verifier_parse_pcr_selection fuel next_token
                 variables
          else Some (-1, variables)
      end
    end
  end.

(** Lines 475 to 494. *)
Definition charra_cli_verifier_pcr_selection (optarg : string)
    (variables : cli_config) : Z * cli_config :=
  let variables :=
    set_tpm_pcr_selection
      (replicate (TPM2_PCR_BANK_COUNT X) (replicate (TPM2_MAX_PCRS X) 0))
      (replicate (TPM2_PCR_BANK_COUNT X) 0) variables in
  match charra_cli_verifier_parse_pcr_selection (S (String.length optarg))
          optarg variables
  with
  | Some (0, variables) => (0, variables)
  | Some (_, variables) => (-1, variables)
  | None => (-1, variables)
  end.

(** The [switch] of lines 528 to 562. *)
Definition parse_option (o : parsed_option) (variables : cli_config)
  : Z * cli_config :=
  match opt_case o with
  | CLI_COMMON_PCR_LOG => charra_cli_verifier_pcr_log (optarg o) variables
  | CLI_VERIFIER_PSK_IDENTITY =>
    (0, charra_cli_verifier_identity (optarg o) variables)
  | CLI_VERIFIER_IP => charra_cli_verifier_ip (optarg o) variables
  | CLI_VERIFIER_TIMEOUT => charra_cli_verifier_timeout (optarg o) variables
  | CLI_VERIFIER_ATTESTATION_PUBLIC_KEY =>
    charra_cli_verifier_attestation_public_key (optarg o) variables
  | CLI_VERIFIER_PCR_FILE =>
    charra_cli_verifier_pcr_file (optarg o) variables
  | CLI_VERIFIER_PCR_SELECTION =>
    charra_cli_verifier_pcr_selection (optarg o) variables
  | CLI_VERIFIER_HASH_ALGORITHM =>
    charra_cli_verifier_hash_algorithm (optarg o) variables
  | default_case identifier =>
    charra_cli_util_common_parse_command_line_argument X identifier
      (optarg o) variables
  end.

(** Lines 521 to 569, on the options [getopt_long] still has to hand
    out: the return code and the configuration. *)
Fixpoint charra_parse_command_line_verifier_arguments
    (argv : list parsed_option) (variables : cli_config)
  : Z * cli_config :=
  match argv with
  | [] => (charra_check_required_options variables, variables)
  | o :: argv =>
    let '(rc, variables) := parse_option o variables in
    if rc =? 0
    then charra_parse_command_line_verifier_arguments argv variables
    else (rc, variables)
  end.

(** The options of [argv] run through the [switch] one after the other:
    the configuration after the last one when each was handled with
    return code 0, [None] when one was not. *)
Fixpoint options_accepted (argv : list parsed_option)
    (variables : cli_config) : option cli_config :=
  match argv with
  | [] => Some variables
  | o :: argv =>
    let '(rc, variables) := parse_option o variables in
    if rc =? 0 then options_accepted argv variables else None
  end.
End Parser.

(** The arguments of [--hash-algorithm] the usage text names. *)
Definition hash_algorithms : list string :=
  ["sha1"; "sha256"; "sha384"; "sha512"].

(** The PCR indices a bank selects: the first [len] entries of its row. *)
Definition pcr_indices (variables : cli_config) (bank : nat) : list Z :=
  take (Z.to_nat (tpm_pcr_selection_len (verifier_config variables) !!! bank))
    (tpm_pcr_selection (verifier_config variables) !!! bank).

End Cli.

(** ** src/verifier.c: [main] *)

Module Main.
Import Cli.

Section Main.
Variable X : externals.
(** [CHARRA_LOG_INFO] and [LOG_INFO] *)
Variable CHARRA_LOG_INFO : Z.
Variable LOG_INFO : Z.

(** Lines 59 to 110: the configuration before the command line is read. *)
Definition initial_config : cli_config :=
  {| common_config :=
       {| charra_log_level := CHARRA_LOG_INFO;
          coap_log_level := LOG_INFO;
          port := 5683;
          use_dtls_psk := false;
          dtls_psk_key := "Charra DTLS Key";
          use_dtls_rpk := false;
          dtls_rpk_private_key_path := "keys/verifier.der";
          dtls_rpk_public_key_path := "keys/verifier.pub.der";
          dtls_rpk_peer_public_key_path := "keys/attester.pub.der";
          dtls_rpk_verify_peer_public_key := true |};
     verifier_config :=
       {| dst_host := "127.0.0.1";
          timeout := 30;
          attestation_public_key_path := None;
          reference_pcr_file_path := None;
          tpm_pcr_selection :=
            [ replicate (TPM2_MAX_PCRS X) 0;
              [0; 1; 2; 3; 4; 5; 6; 7; 10]
                ++ replicate (TPM2_MAX_PCRS X - 9) 0;
              replicate (TPM2_MAX_PCRS X) 0;
              replicate (TPM2_MAX_PCRS X) 0 ];
          tpm_pcr_selection_len := [0; 9; 0; 0];
          dtls_psk_identity := "Charra Verifier";
          signature_hash_algorithm :=
            {| mbedtls_hash_algorithm := MBEDTLS_MD_SHA256;
               tpm2_hash_algorithm := TPM2_ALG_SHA256 |};
          pcr_log_len := 0;
          pcr_logs :=
            replicate (SUPPORTED_PCR_LOGS_COUNT X)
              {| identifier := None; start := 0; count := 0 |} |} |}.

(** Lines 186 to 191: [Some rc] when [main] returns [rc] right after
    parsing, [None] when it goes on to the attestation. *)
Definition main_parse_cli (argv : list parsed_option)
    (variables : cli_config) : option CHARRA_RC * cli_config :=
  let '(rc, variables) :=
    charra_parse_command_line_verifier_arguments X argv variables in
  let result := uint32 rc in
  if negb (result =? 0)
  then (Some (if result =? 1 then CHARRA_RC_SUCCESS
              else CHARRA_RC_CLI_ERROR), variables)
  else (None, variables).
End Main.

(** *** The wait loop, lines 410 to 437

    What one turn of the loop observes: the two operands of the loop
    condition, the value of [attestation_rc] should the loop end there,
    and the return value of [coap_io_process]. *)
Record io_round : Type := {
  processing_response : bool;
  coap_io_pending : bool;
  attestation_rc : CHARRA_RC;
  coap_io_process : Z
}.

Inductive wait_result : Type :=
  | Returned (result : CHARRA_RC)
  | Waiting (response_wait_time : Z).

(** The loop on a sequence of turns, from a given [response_wait_time]
    (a [uint16_t]): [Returned result] when it has set [result] and left,
    [Waiting t] when it would go into a further turn with
    [response_wait_time = t]. *)
Fixpoint wait_for_response (attestation_response_timeout : Z)
    (response_wait_time : Z) (rounds : list io_round) : wait_result :=
  match rounds with
  | [] => Waiting response_wait_time
  | r :: rounds =>
    if negb (processing_response r) && coap_io_pending r then
      let coap_io_process_time := coap_io_process r in
      if coap_io_process_time =? -1 then Returned CHARRA_RC_COAP_ERROR
      else
        let response_wait_time :=
          uint16 (response_wait_time + coap_io_process_time) in
        if attestation_response_timeout * 1000 <=? response_wait_time
        then Returned CHARRA_RC_TIMEOUT
        else
          wait_for_response attestation_response_timeout response_wait_time
            rounds
    else Returned (attestation_rc r)
  end.

(** A turn in which nothing arrives: no response is being processed, I/O
    is pending, and [coap_io_process] returns after [ms] milliseconds. *)
Definition quiet_round (ms : Z) : io_round :=
  {| processing_response := false;
     coap_io_pending := true;
     attestation_rc := CHARRA_RC_ERROR;
     coap_io_process := ms |}.

End Main.

(** *** A test bench for the parser

    Stand-ins for what the parser calls: numbers are plain decimal digit
    strings, every file but ["missing"] exists, the common options are
    [--help] ('h', answered with 1), an unknown option ('?', answered with
    -1) and others that are accepted; 24 PCRs, 4 banks, 2 PCR logs. *)
Module CliBench.
Import Cli.

Definition digit_value (c : Ascii.ascii) : option Z :=
  let n := Z.of_N (Ascii.N_of_ascii c) in
  if (48 <=? n) && (n <=? 57) then Some (n - 48) else None.

(** The value of the leading digits of [s] after the digits worth [acc],
    and how many digits were read. *)
Fixpoint leading_digits (s : string) (acc : Z) : Z * nat :=
  match s with
  | EmptyString => (acc, O)
  | String c s' =>
    match digit_value c with
    | None => (acc, O)
    | Some d => let '(v, n) := leading_digits s' (10 * acc + d) in (v, S n)
    end
  end.

Definition parse_decimal (s : string) (base : Z) : option Z :=
  let '(v, n) := leading_digits s 0 in
  if (n =? 0)%nat || negb (n =? String.length s)%nat then None else Some v.

Definition split_at_colon (s : string) : option (string * string) :=
  match strcspn_split s ":" with
  | (_, EmptyString) => None
  | (format, String _ value) => Some (format, value)
  end.

Definition bench_externals : externals :=
  {| charra_cli_util_common_parse_option_as_ulong := parse_decimal;
     charra_cli_util_common_split_option_string := split_at_colon;
     charra_cli_util_common_parse_command_line_argument :=
       fun identifier _ variables =>
         (if identifier =? 104 then 1
          else if identifier =? 63 then -1 else 0, variables);
     charra_io_file_exists :=
       fun path =>
         if String.eqb path "missing" then CHARRA_RC_ERROR
         else CHARRA_RC_SUCCESS;
     strtoul := fun s => leading_digits s 0;
     TPM2_MAX_PCRS := 24;
     TPM2_PCR_BANK_COUNT := 4;
     SUPPORTED_PCR_LOGS_COUNT := 2 |}.

Definition bench_config : cli_config :=
  Main.initial_config bench_externals 3 6.

Definition opt (c : option_case) (arg : string) : parsed_option :=
  {| opt_case := c; optarg := arg |}.

(** [verifier -f yaml:reference-pcrs.yaml --attestation-public-key=ak.pub] *)
Definition required_options : list parsed_option :=
  [ opt CLI_VERIFIER_PCR_FILE "yaml:reference-pcrs.yaml";
    opt CLI_VERIFIER_ATTESTATION_PUBLIC_KEY "ak.pub" ].

End CliBench.

(** ** Further notions for the properties of the parser *)

Module CliNotions.
Import Cli.

(** The tokens the loops of lines 399 and 451 get from
    [charra_cli_verifier_strtok], one call after the other, from the
    string that is left; [fuel] bounds the number of calls. *)
Fixpoint tokens (fuel : nat) (next_token delim : string) : list string :=
  match fuel with
  | O => []
  | S fuel =>
    match charra_cli_verifier_strtok next_token delim with
    | None => []
    | Some (token, next_token) => token :: tokens fuel next_token delim
    end
  end.

(** The characters of a string. *)
Fixpoint characters (s : string) : list Ascii.ascii :=
  match s with
  | EmptyString => []
  | String c s => c :: characters s
  end.

(** The strings [ts] joined by [sep]. *)
Fixpoint join (sep : string) (ts : list string) : string :=
  match ts with
  | [] => EmptyString
  | [t] => t
  | t :: ts => String.append t (String.append sep (join sep ts))
  end.

(** The table of the PCR selection has the shape of its declaration,
    [uint8_t tpm_pcr_selection[TPM2_PCR_BANK_COUNT][TPM2_MAX_PCRS]] and
    [uint32_t tpm_pcr_selection_len[TPM2_PCR_BANK_COUNT]], and no length
    points past the end of its row. *)
Definition selection_in_bounds (X : externals) (v : cli_config_verifier)
  : Prop :=
  length (tpm_pcr_selection v) = TPM2_PCR_BANK_COUNT X
  /\ length (tpm_pcr_selection_len v) = TPM2_PCR_BANK_COUNT X
  /\ Forall (fun row => length row = TPM2_MAX_PCRS X) (tpm_pcr_selection v)
  /\ Forall (fun len => 0 <= len <= Z.of_nat (TPM2_MAX_PCRS X))
       (tpm_pcr_selection_len v).

(** The PCR logs to request: the entries in use come first, each for one
    of the two formats and no two for the same format, [pcr_log_len]
    counts them, and the entries after them have no identifier. *)
Definition pcr_logs_well_formed (X : externals) (v : cli_config_verifier)
  : Prop :=
  exists used unused : list pcr_log_dto,
    pcr_logs v = used ++ unused
    /\ length (pcr_logs v) = SUPPORTED_PCR_LOGS_COUNT X
    /\ pcr_log_len v = Z.of_nat (length used)
    /\ Forall (fun l => identifier l = Some "ima"
                        \/ identifier l = Some "tcg-boot") used
    /\ NoDup (map identifier used)
    /\ Forall (fun l => identifier l = None) unused.

(** The two identifiers of [signature_hash_algorithm] name the same hash. *)
Definition same_hash (h : cli_config_signature_hash_algorithm) : Prop :=
  match mbedtls_hash_algorithm h, tpm2_hash_algorithm h with
  | MBEDTLS_MD_SHA1, TPM2_ALG_SHA1
  | MBEDTLS_MD_SHA256, TPM2_ALG_SHA256
  | MBEDTLS_MD_SHA384, TPM2_ALG_SHA384
  | MBEDTLS_MD_SHA512, TPM2_ALG_SHA512 => True
  | _, _ => False
  end.

(** What the rest of the verifier relies on: the timeout is a positive
    [uint16_t], the host fits [char dst_host[16]] with its terminator, the
    hash identifiers agree, and the two tables are as above. *)
Definition config_well_formed (X : externals) (variables : cli_config)
  : Prop :=
  let v := verifier_config variables in
  1 <= timeout v <= 65535
  /\ (String.length (dst_host v) <= 15)%nat
  /\ same_hash (signature_hash_algorithm v)
  /\ selection_in_bounds X v
  /\ pcr_logs_well_formed X v.

End CliNotions.

(** ** Further notions for the properties of the verifier's handler *)

Module VerifierNotions.
Import Verifier.

(** The messages of a run, oldest first. *)
Definition logged (tr : list event) : list (log_level * string) :=
  omap (fun e => match e with Log lvl msg => Some (lvl, msg) | _ => None end)
    tr.

(** A test bench as [Verifier.bench], in which every check passes and
    the arguments say what reading the key file, loading the key into
    the TPM and converting it for mbedTLS return. *)
Definition bench_key (file : option unit)
    (load : TSS2_RC * option ESYS_TR) (conversion : CHARRA_RC) : state :=
  coap_attest_handler unit (fun _ => (1, [Byte.x82]))
    (fun _ _ => (CHARRA_RC_SUCCESS, bench_response 4 2))
    2306 1030 TSS2_RC_SUCCESS TSS2_RC_SUCCESS
    unit tt (fun _ => file) (fun _ => load)
    (fun _ => TSS2_RC_SUCCESS)
    (fun _ _ _ _ => (CHARRA_RC_SUCCESS, true))
    unit (fun _ => (conversion, tt)) (fun sig => sig)
    (fun _ _ _ _ _ _ => CHARRA_RC_SUCCESS)
    unit (fun _ _ => (CHARRA_RC_SUCCESS, tt))
    (fun _ => true) (fun _ _ _ => true) (fun _ _ _ _ => CHARRA_RC_SUCCESS)
    bench_globals CHARRA_RC_ERROR tt.

End VerifierNotions.

(** ** src/verifier.c: [create_attestation_request] and the rest of [main] *)

Module VerifierMain.

(** [charra_tap_msg_attestation_request_dto] and the PCR selection in it.
    Of each array the entries in use are kept: the first
    [sig_key_id_len], [nonce_len], [pcrs_len] bytes and the first
    [pcr_selections_len] selections. *)
Record pcr_selection_dto : Type := {
  tcg_hash_alg_id : TPM2_ALG_ID;
  pcrs_len : Z;
  pcrs : list Z
}.

Record charra_tap_msg_attestation_request_dto : Type := {
  tap_spec_version : Z;
  hello : bool;
  sig_key_id_len : Z;
  sig_key_id : bytes;
  nonce_len : Z;
  nonce : bytes;
  pcr_selections_len : Z;
  pcr_selections : list pcr_selection_dto;
  pcr_log_len : Z;
  pcr_logs : list Cli.pcr_log_dto
}.

(** [charra_tap_msg_attestation_request_dto req = {0}] *)
Definition zero_request : charra_tap_msg_attestation_request_dto :=
  {| tap_spec_version := 0;
     hello := false;
     sig_key_id_len := 0;
     sig_key_id := [];
     nonce_len := 0;
     nonce := [];
     pcr_selections_len := 0;
     pcr_selections := [];
     pcr_log_len := 0;
     pcr_logs := [] |}.

Definition USE_TPM_FOR_RANDOM_NONCE_GENERATION : bool := false.
Definition TPM_SIG_KEY_ID_LEN : Z := 14.
Definition TPM_SIG_KEY_ID : string := "PK.RSA.default".

Inductive event : Type :=
  | Log (lvl : log_level) (msg : string)
  | Call_coap_show_tls_version
  | Call_coap_register_response_handler
  | Call_charra_coap_new_client_session_psk (host : string) (port : Z)
      (identity key : string)
  | Call_charra_coap_new_client_session_pki (host : string) (port : Z)
  | Call_charra_coap_new_client_session (host : string) (port : Z)
  | Call_coap_session_set_ack_timeout (seconds : Z)
  | Call_coap_send_large (payload : bytes)
  | Call_charra_free_if_not_null_ex (pointer : string) (value : cptr)
      (release : string)
  | Call_charra_free_if_not_null (pointer : string) (value : cptr)
  | Call_coap_cleanup.

(** [main]'s [result], the pointers its epilogue hands to the release
    macros, the file-scope [last_request], whether the wait loop is still
    running, and the calls and error messages so far (oldest first). *)
Record state : Type := mk_state {
  result : CHARRA_RC;
  coap_context : cptr;
  coap_session : cptr;
  coap_options : cptr;
  req_buf : cptr;
  last_request : charra_tap_msg_attestation_request_dto;
  waiting : bool;
  trace : list event
}.

Definition set_result (v : CHARRA_RC) : proc unit :=
  modify (fun s => mk_state v (coap_context s) (coap_session s)
    (coap_options s) (req_buf s) (last_request s) (waiting s) (trace s)).
Definition set_coap_context (v : cptr) : proc unit :=
  modify (fun s => mk_state (result s) v (coap_session s)
    (coap_options s) (req_buf s) (last_request s) (waiting s) (trace s)).
Definition set_coap_session (v : cptr) : proc unit :=
  modify (fun s => mk_state (result s) (coap_context s) v
    (coap_options s) (req_buf s) (last_request s) (waiting s) (trace s)).
Definition set_coap_options (v : cptr) : proc unit :=
  modify (fun s => mk_state (result s) (coap_context s) (coap_session s)
    v (req_buf s) (last_request s) (waiting s) (trace s)).
Definition set_req_buf (v : cptr) : proc unit :=
  modify (fun s => mk_state (result s) (coap_context s) (coap_session s)
    (coap_options s) v (last_request s) (waiting s) (trace s)).
Definition set_last_request (v : charra_tap_msg_attestation_request_dto)
  : proc unit :=
  modify (fun s => mk_state (result s) (coap_context s) (coap_session s)
    (coap_options s) (req_buf s) v (waiting s) (trace s)).
Definition set_waiting (v : bool) : proc unit :=
  modify (fun s => mk_state (result s) (coap_context s) (coap_session s)
    (coap_options s) (req_buf s) (last_request s) v (trace s)).
Definition record (e : event) (s : state) : state :=
  mk_state (result s) (coap_context s) (coap_session s) (coap_options s)
    (req_buf s) (last_request s) (waiting s) (trace s ++ [e]).
Definition emit (e : event) : proc unit := modify (record e).
Definition charra_log_error (msg : string) : proc unit :=
  emit (Log ERROR msg).

(** [if (c) { ...; goto cleanup; }] *)
Definition leave_if (c : bool) (before : @proc state unit)
  : @proc state unit :=
  if c then bind before (fun _ => goto) else ret tt.

Section Main.
(** [(CHARRA_RC)n]: the code with the numeric value [n].  The header that
    gives the constants of [CHARRA_RC] their values is not among the
    sources. *)
Variable as_CHARRA_RC : Z -> CHARRA_RC.
Variable CHARRA_TAP_SPEC_VERSION : Z.
(** [charra_random_bytes] and [charra_random_bytes_from_tpm]: the result
    code and the bytes written. *)
Variable charra_random_bytes : Z -> CHARRA_RC * bytes.
Variable charra_random_bytes_from_tpm : Z -> CHARRA_RC * bytes.
(** libcoap and CHARRA's wrappers of it; a creator answers whether the
    pointer it returns is not NULL. *)
Variable coap_dtls_is_supported : bool.
Variable charra_coap_new_context : bool.
Variable charra_coap_new_client_session_psk :
  string -> Z -> string -> string -> bool.
Variable charra_coap_setup_dtls_pki_for_rpk :
  string -> string -> string -> bool -> CHARRA_RC.
Variable charra_coap_new_client_session_pki : string -> Z -> bool.
Variable charra_coap_new_client_session : string -> Z -> bool.
Variable coap_encode_var_safe : Z.
(** [charra_tap_marshal_attestation_request]: the result code and the
    buffer, if one was allocated. *)
Variable charra_tap_marshal_attestation_request :
  charra_tap_msg_attestation_request_dto -> CHARRA_RC * option bytes.
(** [coap_insert_optlist] for the options URI_PATH and CONTENT_TYPE: its
    return value; [coap_options] is taken to be non-NULL once an
    insertion has returned 1. *)
Variable coap_insert_optlist_URI_PATH : Z.
Variable coap_insert_optlist_CONTENT_TYPE : Z.
Variable charra_coap_new_request : bytes -> bool.
(** [coap_send_large]: whether the message id it returns is valid. *)
Variable coap_send_large : bytes -> bool.

Local Open Scope proc_scope.

(** Lines 466 to 521: the code returned and the request written to
    [*attestation_request], if any.  [err] is assigned the value of the
    comparison, not the code the random source returned.  The messages
    the function logs are not part of the result. *)
Definition create_attestation_request (variables : Cli.cli_config)
  : CHARRA_RC * option charra_tap_msg_attestation_request_dto :=
  let v := Cli.verifier_config variables in
  let nonce_len := 20 in
  let '(rc, nonce) :=
    if USE_TPM_FOR_RANDOM_NONCE_GENERATION
    then charra_random_bytes_from_tpm nonce_len
    else charra_random_bytes nonce_len in
  if bool_decide (rc <> CHARRA_RC_SUCCESS) then (as_CHARRA_RC 1, None)
  else
    (CHARRA_RC_SUCCESS,
     Some
       {| tap_spec_version := CHARRA_TAP_SPEC_VERSION;
          hello := false;
          sig_key_id_len := TPM_SIG_KEY_ID_LEN;
          sig_key_id :=
            take (Z.to_nat TPM_SIG_KEY_ID_LEN)
              (String.list_byte_of_string TPM_SIG_KEY_ID);
          nonce_len := nonce_len;
          nonce := take (Z.to_nat nonce_len) nonce;
          pcr_selections_len := 1;
          pcr_selections :=
            [ {| tcg_hash_alg_id := TPM2_ALG_SHA256;
                 pcrs_len := Cli.tpm_pcr_selection_len v !!! 1%nat;
                 pcrs :=
                   take (Z.to_nat (Cli.tpm_pcr_selection_len v !!! 1%nat))
                     (Cli.tpm_pcr_selection v !!! 1%nat) |} ];
          pcr_log_len := Cli.pcr_log_len v;
          pcr_logs := Cli.pcr_logs v |}).

(** The state after the command line was parsed: [result] holds the
    parser's 0, the four pointers are NULL (lines 237 to 240). *)
Definition entry : state :=
  mk_state (as_CHARRA_RC 0) NULL NULL NULL NULL zero_request false [].

(** Lines 242 to 437: from the check of the DTLS options to the end of
    the wait loop, of which [rounds] are the turns.  Error messages are
    recorded, progress messages and those of the wait loop are not. *)
Definition main_body (variables : Cli.cli_config)
    (rounds : list Main.io_round) : @proc state unit :=
  let c := Cli.common_config variables in
  let v := Cli.verifier_config variables in
  leave_if (Cli.use_dtls_psk c && Cli.use_dtls_rpk c)
    (charra_log_error
       "[verifier] Configuration enables both DTSL with PSK and DTSL with PKI. Aborting!") ;;
  (if Cli.use_dtls_psk c || Cli.use_dtls_rpk c
   then emit Call_coap_show_tls_version else ret tt) ;;
  leave_if (Cli.use_dtls_psk c && negb coap_dtls_is_supported)
    (charra_log_error
       "[verifier] CoAP does not support DTLS but the configuration enables DTLS. Aborting!") ;;
  (* create CoAP context *)
  leave_if (negb charra_coap_new_context)
    (charra_log_error "[verifier] Cannot create CoAP context." ;;
     set_result CHARRA_RC_COAP_ERROR) ;;
  set_coap_context Allocated ;;
  (* register CoAP response handler *)
  emit Call_coap_register_response_handler ;;
  (if Cli.use_dtls_psk c then
     emit (Call_charra_coap_new_client_session_psk (Cli.dst_host v)
             (Cli.port c) (Cli.dtls_psk_identity v) (Cli.dtls_psk_key c)) ;;
     leave_if
       (negb (charra_coap_new_client_session_psk (Cli.dst_host v)
                (Cli.port c) (Cli.dtls_psk_identity v) (Cli.dtls_psk_key c)))
       (charra_log_error
          "[verifier] Cannot create client session based on DTLS-PSK." ;;
        set_result CHARRA_RC_ERROR)
   else if Cli.use_dtls_rpk c then
     let rc :=
       charra_coap_setup_dtls_pki_for_rpk (Cli.dtls_rpk_private_key_path c)
         (Cli.dtls_rpk_public_key_path c)
         (Cli.dtls_rpk_peer_public_key_path c)
         (Cli.dtls_rpk_verify_peer_public_key c) in
     set_result rc ;;
     leave_if (bool_decide (rc <> CHARRA_RC_SUCCESS))
       (charra_log_error
          "[verifier] Error while setting up DTLS-RPK structure.") ;;
     emit (Call_charra_coap_new_client_session_pki (Cli.dst_host v)
             (Cli.port c)) ;;
     leave_if
       (negb (charra_coap_new_client_session_pki (Cli.dst_host v)
                (Cli.port c)))
       (charra_log_error
          "[verifier] Cannot create client session based on DTLS-RPK." ;;
        set_result CHARRA_RC_ERROR)
   else
     emit (Call_charra_coap_new_client_session (Cli.dst_host v)
             (Cli.port c)) ;;
     leave_if
       (negb (charra_coap_new_client_session (Cli.dst_host v) (Cli.port c)))
       (charra_log_error
          "[verifier] Cannot create client session based on UDP." ;;
        set_result CHARRA_RC_COAP_ERROR)) ;;
  set_coap_session Allocated ;;
  (* create CoAP option for content type *)
  leave_if (coap_encode_var_safe =? 0)
    (charra_log_error "[verifier] Cannot create option for CONTENT_TYPE." ;;
     set_result CHARRA_RC_COAP_ERROR) ;;
  (* create attestation request *)
  let '(rc, written) := create_attestation_request variables in
  let req := default zero_request written in
  set_result rc ;;
  leave_if (bool_decide (rc <> CHARRA_RC_SUCCESS))
    (charra_log_error "[verifier] Cannot create attestation request.") ;;
  set_last_request req ;;
  (* marshal attestation request *)
  let '(rc, buf) := charra_tap_marshal_attestation_request req in
  (match buf with Some _ => set_req_buf Allocated | None => ret tt end) ;;
  set_result rc ;;
  leave_if (bool_decide (rc <> CHARRA_RC_SUCCESS))
    (charra_log_error
       "[verifier] Marshaling attestation request data failed.") ;;
  (* CoAP options *)
  (if coap_insert_optlist_URI_PATH =? 1
   then set_coap_options Allocated else ret tt) ;;
  leave_if (negb (coap_insert_optlist_URI_PATH =? 1))
    (charra_log_error "[verifier] Cannot add CoAP option URI_PATH." ;;
     set_result CHARRA_RC_COAP_ERROR) ;;
  leave_if (negb (coap_insert_optlist_CONTENT_TYPE =? 1))
    (charra_log_error "[verifier] Cannot add CoAP option CONTENT_TYPE." ;;
     set_result CHARRA_RC_COAP_ERROR) ;;
  (* new CoAP request PDU *)
  let payload := default [] buf in
  leave_if (negb (charra_coap_new_request payload))
    (charra_log_error "[verifier] Cannot create request PDU." ;;
     set_result CHARRA_RC_ERROR) ;;
  (* set timeout length *)
  emit (Call_coap_session_set_ack_timeout (Cli.timeout v)) ;;
  (* send CoAP PDU *)
  emit (Call_coap_send_large payload) ;;
  leave_if (negb (coap_send_large payload))
    (charra_log_error "[verifier] Cannot send CoAP message." ;;
     set_result CHARRA_RC_COAP_ERROR) ;;
  (* processing and waiting for response *)
  match Main.wait_for_response (Cli.timeout v) 0 rounds with
  | Main.Returned r => set_result r
  | Main.Waiting _ => set_waiting true
  end.

(** Lines 448 to 457: the code after the label.  The two release macros
    are not among the sources; the calls are recorded with the value of
    the pointer they are given. *)
Definition cleanup : @proc state unit :=
  s <- get ;;
  emit (Call_charra_free_if_not_null_ex "coap_options" (coap_options s)
          "coap_delete_optlist") ;;
  emit (Call_charra_free_if_not_null_ex "coap_session" (coap_session s)
          "coap_session_release") ;;
  emit (Call_charra_free_if_not_null_ex "coap_context" (coap_context s)
          "coap_free_context") ;;
  emit (Call_charra_free_if_not_null "req_buf" (req_buf s)) ;;
  emit Call_coap_cleanup.

(** [main] from line 237 on: the state in which it returns [result], or
    [None] while the wait loop has turns to go. *)
Definition main_after_cli (variables : Cli.cli_config)
    (rounds : list Main.io_round) : option state :=
  let s := at_label (main_body variables rounds entry) in
  if waiting s then None else Some (at_return (cleanup s)).
End Main.

(** *** A test bench for [main]

    The random source returns twenty bytes and every call of libcoap
    succeeds, except that DTLS support and sending are as the arguments
    say; [(CHARRA_RC)0] is taken to be [CHARRA_RC_SUCCESS], a positive
    number a code of its own and a negative one [CHARRA_RC_ERROR]. *)
Definition bench_as_CHARRA_RC (n : Z) : CHARRA_RC :=
  match n with
  | 0 => CHARRA_RC_SUCCESS
  | Z.pos p => CHARRA_RC_other p
  | Z.neg _ => CHARRA_RC_ERROR
  end.

Definition bench (random : CHARRA_RC) (dtls sent : bool)
    (variables : Cli.cli_config) (rounds : list Main.io_round)
  : option state :=
  main_after_cli bench_as_CHARRA_RC 1
    (fun n => (random, replicate (Z.to_nat n) Byte.x2a))
    (fun n => (CHARRA_RC_ERROR, []))
    dtls true (fun _ _ _ _ => true) (fun _ _ _ _ => CHARRA_RC_SUCCESS)
    (fun _ _ => true) (fun _ _ => true) 1
    (fun _ => (CHARRA_RC_SUCCESS, Some [Byte.x8a]))
    1 1 (fun _ => true) (fun _ => sent) variables rounds.

End VerifierMain.

(** * Properties *)


(** ** Symbolic execution of a handler

    [stuck t] is the call result or condition the evaluation of [t] waits
    for: the scrutinee at the head of [t] that is not itself a case
    distinction. *)
Ltac head_of t :=
  lazymatch t with
  | ?f _ => head_of f
  | _ => t
  end.

Ltac stuck t :=
  let h := head_of t in
  lazymatch h with
  | match ?x with _ => _ end => stuck x
  | _ => t
  end.

(** Case analysis on [x], with the comparison or decision it stands for
    as a hypothesis. *)
Ltac split_on x :=
  lazymatch x with
  | bool_decide ?P =>
    destruct (decide P);
    [ rewrite (bool_decide_eq_true_2 P) by assumption
    | rewrite (bool_decide_eq_false_2 P) by assumption ];
    try (exfalso; congruence)
  | (?a >? ?b)%Z => destruct (Z.gtb_spec a b)
  | (?a =? ?b)%Z => destruct (Z.eqb_spec a b)
  | _ => destruct x eqn:?
  end.

(** Membership in an explicit list of calls and messages. *)
Ltac not_in H :=
  cbn [In] in H;
  repeat (destruct H as [H|H]; [discriminate H|]);
  contradiction H.

Ltac is_in := cbn [In]; repeat (first [left; reflexivity | right]).

Module VerifierFacts.
Import Verifier.

Lemma log_result_run ok valid invalid (s : state) :
  log_result ok valid invalid s
  = (Next tt,
     record (Log (if ok then INFO else ERROR)
                 (if ok then valid else invalid)) s).
Proof. destruct ok; reflexivity. Qed.

(** A call of the key manager that succeeds logs nothing. *)
Lemma key_loaded_silently TPM2B_PUBLIC load_file load_external given path
    h key :
  charra_load_external_public_key TPM2B_PUBLIC load_file load_external
    given path = (CHARRA_RC_SUCCESS, h, Some key) ->
  KeyMgr.charra_load_external_public_key TPM2B_PUBLIC load_file
    load_external given path = (CHARRA_RC_SUCCESS, h, Some key, []).
Proof.
  unfold charra_load_external_public_key,
    KeyMgr.charra_load_external_public_key.
  destruct path as [p|]; [|discriminate].
  destruct (negb given); [discriminate|].
  destruct (load_file p) as [k|]; [|discriminate].
  destruct (load_external k) as [r h'].
  destruct (decide (r <> TSS2_RC_SUCCESS)); [discriminate|].
  simpl. intros [= <- <-]. reflexivity.
Qed.

(** Run the body up to the label, then the epilogue, in program order. *)
Ltac reduce :=
  cbv beta iota zeta delta
    [coap_attest_handler with_label coap_attest_handler_body
     charra_load_external_public_key
     KeyMgr.charra_load_external_public_key entry leave_if log_errors
     fold_right charra_log_info charra_log_error emit record set_attestation_rc
     set_processing_response set_sig_key_handle set_validation set_res
     set_esys_ctx set_tcti_ctx bind ret goto get modify fst snd
     attestation_rc processing_response sig_key_handle validation res
     esys_ctx tcti_ctx trace negb from_option id app].

Ltac step_in marker :=
  match goal with
  | |- context [marker state ?b] =>
    let x := stuck b in
    lazymatch x with
    | (_, _) => fail
    | log_result _ _ _ _ => rewrite log_result_run
    | _ => split_on x
    end
  end.

Ltac run_body := reduce; repeat (step_in (@at_label); reduce).

Ltac run_cleanup :=
  cbv beta iota delta [at_label snd cleanup];
  reduce; repeat (step_in (@at_return); reduce);
  cbv beta iota delta [at_return snd].

Ltac run_all := run_body; run_cleanup.

Section Facts.
Variable coap_pdu_t : Type.
Variable coap_get_data_large : coap_pdu_t -> Z * bytes.
Variable charra_tap_unmarshal_attestation_response :
  Z -> bytes -> CHARRA_RC * charra_tap_msg_attestation_response_dto.
Variable sizeof_TPM2B_ATTEST : Z.
Variable sizeof_TPMT_SIGNATURE : Z.
Variable Tss2_TctiLdr_Initialize : TSS2_RC.
Variable Esys_Initialize : TSS2_RC.
Variable TPM2B_PUBLIC : Type.
Variable TPM2B_PUBLIC_zero : TPM2B_PUBLIC.
Variable tpm2_load_external_public_key_from_path :
  string -> option TPM2B_PUBLIC.
Variable Esys_LoadExternal : TPM2B_PUBLIC -> TSS2_RC * option ESYS_TR.
Variable Esys_FlushContext : ESYS_TR -> TSS2_RC.
Variable charra_verify_tpm2_quote_signature_with_tpm :
  ESYS_TR -> TPM2_ALG_ID -> TPM2B_ATTEST -> bytes -> CHARRA_RC * bool.
Variable mbedtls_rsa_context : Type.
Variable charra_crypto_tpm_pub_key_to_mbedtls_pub_key :
  TPM2B_PUBLIC -> CHARRA_RC * mbedtls_rsa_context.
Variable rsapss_sig_buffer : bytes -> bytes.
Variable TPMS_ATTEST : Type.
Variable charra_unmarshal_tpm2_quote : Z -> bytes -> CHARRA_RC * TPMS_ATTEST.
Variable charra_verify_tpm2_magic : TPMS_ATTEST -> bool.
Variable charra_verify_tpm2_quote_qualifying_data :
  Z -> bytes -> TPMS_ATTEST -> bool.
Variable charra_check_pcr_digest_against_reference :
  option string -> list Z -> Z -> TPMS_ATTEST -> CHARRA_RC.

Local Abbreviation handler sw :=
  (coap_attest_handler coap_pdu_t coap_get_data_large
    charra_tap_unmarshal_attestation_response sizeof_TPM2B_ATTEST
    sizeof_TPMT_SIGNATURE Tss2_TctiLdr_Initialize Esys_Initialize
    TPM2B_PUBLIC TPM2B_PUBLIC_zero tpm2_load_external_public_key_from_path
    Esys_LoadExternal Esys_FlushContext
    charra_verify_tpm2_quote_signature_with_tpm mbedtls_rsa_context
    charra_crypto_tpm_pub_key_to_mbedtls_pub_key rsapss_sig_buffer sw
    TPMS_ATTEST charra_unmarshal_tpm2_quote charra_verify_tpm2_magic
    charra_verify_tpm2_quote_qualifying_data
    charra_check_pcr_digest_against_reference).

(** The epilogue leaves [attestation_rc] alone. *)
Lemma cleanup_attestation_rc s :
  attestation_rc (at_return (cleanup Esys_FlushContext s))
  = attestation_rc s.
Proof.
  destruct s as [rc p h v r e t tr].
  cbv beta iota delta [cleanup]. reduce.
  destruct r, h, v, e, t; reduce; try reflexivity;
    case_bool_decide; reflexivity.
Qed.

(** Whatever the mbedTLS check answers, the handler leaves the same
    [attestation_rc]. *)
Lemma software_path_independent sw1 sw2 g rc received :
  attestation_rc (handler sw1 g rc received)
  = attestation_rc (handler sw2 g rc received).
Proof.
  unfold coap_attest_handler, with_label.
  rewrite !cleanup_attestation_rc.
  run_body; reflexivity.
Qed.

(** Nor does the result of the magic check reach [attestation_rc]. *)
Lemma magic_result_ignored magic1 magic2 sw g rc received :
  attestation_rc
    (coap_attest_handler coap_pdu_t coap_get_data_large
       charra_tap_unmarshal_attestation_response sizeof_TPM2B_ATTEST
       sizeof_TPMT_SIGNATURE Tss2_TctiLdr_Initialize Esys_Initialize
       TPM2B_PUBLIC TPM2B_PUBLIC_zero tpm2_load_external_public_key_from_path
       Esys_LoadExternal Esys_FlushContext
       charra_verify_tpm2_quote_signature_with_tpm mbedtls_rsa_context
       charra_crypto_tpm_pub_key_to_mbedtls_pub_key rsapss_sig_buffer sw
       TPMS_ATTEST charra_unmarshal_tpm2_quote magic1
       charra_verify_tpm2_quote_qualifying_data
       charra_check_pcr_digest_against_reference g rc received)
  = attestation_rc
      (coap_attest_handler coap_pdu_t coap_get_data_large
         charra_tap_unmarshal_attestation_response sizeof_TPM2B_ATTEST
         sizeof_TPMT_SIGNATURE Tss2_TctiLdr_Initialize Esys_Initialize
         TPM2B_PUBLIC TPM2B_PUBLIC_zero
         tpm2_load_external_public_key_from_path
         Esys_LoadExternal Esys_FlushContext
         charra_verify_tpm2_quote_signature_with_tpm mbedtls_rsa_context
         charra_crypto_tpm_pub_key_to_mbedtls_pub_key rsapss_sig_buffer sw
         TPMS_ATTEST charra_unmarshal_tpm2_quote magic2
         charra_verify_tpm2_quote_qualifying_data
         charra_check_pcr_digest_against_reference g rc received).
Proof.
  unfold coap_attest_handler, with_label.
  rewrite !cleanup_attestation_rc.
  run_body; reflexivity.
Qed.

(** C2: the outcome of the mbedTLS signature check never reaches the
    verdict.  Whatever [charra_crypto_rsa_verify_signature] answers, the
    handler leaves the same [attestation_rc]; and in a run that gets as
    far as the verdict (data received and decoded, lengths in range, TPM
    stack initialised, key loaded and converted, quote unmarshalled)
    [attestation_rc] is [CHARRA_RC_SUCCESS] exactly when the TPM accepts
    the signature, the nonce matches and the PCR digest matches a
    reference, and [CHARRA_RC_VERIFICATION_FAILED] otherwise. *)
Theorem software_signature_check_is_advisory
    sw g rc0 received coap_r data res h key attest_struct
    (Hdata : coap_get_data_large received = (coap_r, data))
    (Hcoap : coap_r <> 0)
    (Hres : charra_tap_unmarshal_attestation_response
              (Z.of_nat (length data)) data = (CHARRA_RC_SUCCESS, res))
    (Hattest_len :
       attestation_data_len (tpm2_quote res) <= sizeof_TPM2B_ATTEST)
    (Hsig_len :
       tpm2_signature_len (tpm2_quote res) <= sizeof_TPMT_SIGNATURE)
    (Htcti : Tss2_TctiLdr_Initialize = TSS2_RC_SUCCESS)
    (Hesys : Esys_Initialize = TSS2_RC_SUCCESS)
    (Hkey : charra_load_external_public_key TPM2B_PUBLIC
              tpm2_load_external_public_key_from_path Esys_LoadExternal
              true (attestation_public_key_path g)
            = (CHARRA_RC_SUCCESS, h, Some key))
    (Hconv : (charra_crypto_tpm_pub_key_to_mbedtls_pub_key key).1
             = CHARRA_RC_SUCCESS)
    (Hquote : charra_unmarshal_tpm2_quote
                (attestation_data_len (tpm2_quote res))
                (attestation_data (tpm2_quote res))
              = (CHARRA_RC_SUCCESS, attest_struct)) :
  (forall sw',
     attestation_rc (handler sw' g rc0 received)
     = attestation_rc (handler sw g rc0 received))
  /\ attestation_rc (handler sw g rc0 received)
     = if bool_decide
            ((charra_verify_tpm2_quote_signature_with_tpm
                (default ESYS_TR_NONE h)
                (tpm2_hash_algorithm (signature_hash_algorithm g))
                (prepare_attest (tpm2_quote res))
                (prepare_signature sizeof_TPMT_SIGNATURE (tpm2_quote res))).1
             = CHARRA_RC_SUCCESS)
          && charra_verify_tpm2_quote_qualifying_data
               (last_request_nonce_len g) (last_request_nonce g)
               attest_struct
          && bool_decide
               (charra_check_pcr_digest_against_reference
                  (reference_pcr_file_path g)
                  (tpm_pcr_selection g !!! 1%nat)
                  (tpm_pcr_selection_len g !!! 1%nat) attest_struct
                = CHARRA_RC_SUCCESS)
       then CHARRA_RC_SUCCESS
       else CHARRA_RC_VERIFICATION_FAILED.
Proof.
  split; [intros sw'; apply software_path_independent|].
  unfold coap_attest_handler, with_label.
  rewrite cleanup_attestation_rc.
  apply key_loaded_silently in Hkey.
  unfold coap_attest_handler_body.
  rewrite Hdata, Hres, Htcti, Hesys, Hkey.
  destruct (charra_crypto_tpm_pub_key_to_mbedtls_pub_key key)
    as [rc_conv ctx] eqn:Econv.
  simpl in Hconv; subst rc_conv.
  destruct h as [h|]; reduce; rewrite ?Econv, Hquote;
    run_body; cbv beta iota delta [at_label snd];
    first [reflexivity | lia].
Qed.

End Facts.

(** A run in which the mbedTLS check fails and everything else succeeds
    attests. *)
Lemma software_signature_check_is_advisory_witness :
  attestation_rc
    (bench 4 2 CHARRA_RC_SUCCESS CHARRA_RC_ERROR true true CHARRA_RC_SUCCESS)
  = CHARRA_RC_SUCCESS.
Proof.
  refine (proj2
    (software_signature_check_is_advisory unit (fun _ => (1, [Byte.x82]))
       (fun _ _ => (CHARRA_RC_SUCCESS, bench_response 4 2))
       2306 1030 TSS2_RC_SUCCESS TSS2_RC_SUCCESS
       unit tt (fun _ => Some tt)
       (fun _ => (TSS2_RC_SUCCESS, Some (ESYS_TR_object 1)))
       (fun _ => TSS2_RC_SUCCESS)
       (fun _ _ _ _ => (CHARRA_RC_SUCCESS, true))
       unit (fun _ => (CHARRA_RC_SUCCESS, tt)) (fun sig => sig)
       unit (fun _ _ => (CHARRA_RC_SUCCESS, tt))
       (fun _ => true) (fun _ _ _ => true) (fun _ _ _ _ => CHARRA_RC_SUCCESS)
       (fun _ _ _ _ _ _ => CHARRA_RC_ERROR)
       bench_globals CHARRA_RC_ERROR tt
       1 [Byte.x82] (bench_response 4 2) (Some (ESYS_TR_object 1)) tt tt
       _ _ _ _ _ _ _ _ _ _)); simpl; first [reflexivity | lia].
Defined.

(** C1 (the handler departs from it): a response whose TPM magic check
    fails while signature, nonce and PCR digest pass.  The handler logs
    that the magic is not valid and still sets [attestation_rc] to
    [CHARRA_RC_SUCCESS]: the magic result is computed and never enters the
    verdict. *)
Theorem tpm_magic_failure_still_attests :
  let s :=
    bench 4 2 CHARRA_RC_SUCCESS CHARRA_RC_SUCCESS false true
      CHARRA_RC_SUCCESS in
  attestation_rc s = CHARRA_RC_SUCCESS
  /\ In (Log ERROR
           "[verifier]     => TPM2 magic is NOT valid! This might be a bogus TPM2 Quote!")
        (trace s)
  /\ In (Log INFO "[verifier] |   ATTESTATION SUCCESSFUL   |") (trace s).
Proof. vm_compute. intuition. Qed.

(** For contrast: a failing nonce or PCR check does fail the run. *)
Example nonce_failure_fails :
  attestation_rc
    (bench 4 2 CHARRA_RC_SUCCESS CHARRA_RC_SUCCESS true false
       CHARRA_RC_SUCCESS)
  = CHARRA_RC_VERIFICATION_FAILED.
Proof. reflexivity. Qed.

(** C9 (the handler departs from it): the check of the attestation
    data's length compares with [sizeof(TPM2B_ATTEST)], the size of the
    whole structure, while the copy goes to [attest.attestationData], the
    array that follows the two bytes of [size] in it.  A response that
    declares [sizeof(TPM2B_ATTEST)] bytes passes the check, no error is
    reported, the copy writes two bytes past the end of the array, and
    the run ends with [CHARRA_RC_SUCCESS].  A response that declares one
    byte less still overflows, by one byte; two bytes less fit. *)
Theorem attestation_data_copy_overflows :
  let run n :=
    bench n 2 CHARRA_RC_SUCCESS CHARRA_RC_SUCCESS true true
      CHARRA_RC_SUCCESS in
  capacity 2306 1030 "attest.attestationData" = 2304
  /\ overflows 2306 1030 (trace (run 2306))
     = [("attest.attestationData", 2306)]
  /\ (forall msg, ~ In (Log ERROR msg) (trace (run 2306)))
  /\ attestation_rc (run 2306) = CHARRA_RC_SUCCESS
  /\ overflows 2306 1030 (trace (run 2305))
     = [("attest.attestationData", 2305)]
  /\ overflows 2306 1030 (trace (run 2304)) = [].
Proof.
  vm_compute. repeat split. intros msg Hin. not_in Hin.
Qed.

(** For contrast: the signature is copied over a whole [TPMT_SIGNATURE],
    and its check compares with the size of that. *)
Example signature_copy_fits :
  overflows 2306 1030
    (trace (bench 4 1030 CHARRA_RC_SUCCESS CHARRA_RC_SUCCESS true true
              CHARRA_RC_SUCCESS))
  = [].
Proof. reflexivity. Qed.
End VerifierFacts.

Module AttesterFacts.
Import Attester.

Ltac reduce :=
  cbv beta iota zeta delta
    [coap_attest_handler with_label coap_attest_handler_body
     entry leave_if charra_log_info charra_log_error emit record
     set_sig_key_handle set_esys_ctx bind ret goto get modify fst snd
     sig_key_handle esys_ctx trace app].

Ltac step_in marker :=
  match goal with
  | |- context [marker (state _) ?b] =>
    let x := stuck b in
    lazymatch x with
    | (_, _) => fail
    | _ => split_on x
    end
  end.

Ltac run_body := reduce; repeat (step_in (@at_label); reduce).

Ltac run_cleanup :=
  cbv beta iota delta [at_label snd error_label];
  reduce; repeat (step_in (@at_return); reduce);
  cbv beta iota delta [at_return snd].

Ltac run_all := run_body; run_cleanup.

(** A handle that was loaded and not flushed stays with the TPM. *)
Example outstanding_handles_counts :
  outstanding_handles (TPML_PCR_SELECTION:=unit) []
    [Call_charra_load_tpm2_key (Some (ESYS_TR_object 7));
     Call_Esys_Finalize]
  = [ESYS_TR_object 7].
Proof. reflexivity. Qed.

Section Facts.
Variable coap_pdu_t : Type.
Variable coap_get_data_large : coap_pdu_t -> Z * bytes.
Variable pcr_selection_dto : Type.
Variable unmarshal_attestation_request :
  Z -> bytes -> CHARRA_RC * msg_attestation_request_dto pcr_selection_dto.
Variable sizeof_TPMU_HA : Z.
Variable TPML_PCR_SELECTION : Type.
Variable charra_pcr_selections_to_tpm_pcr_selections :
  Z -> list pcr_selection_dto -> CHARRA_RC * TPML_PCR_SELECTION.
Variable Esys_Initialize : TSS2_RC.
Variable charra_load_tpm2_key :
  Z -> bytes -> CHARRA_RC * option ESYS_TR * bytes.
Variable tpm2_quote :
  ESYS_TR -> TPML_PCR_SELECTION -> TPM2B_DATA ->
  TSS2_RC * TPM2B_ATTEST * bytes.
Variable marshal_attestation_response :
  msg_attestation_response_dto -> Z * bytes.
Variable coap_add_data_large_response : Z -> bytes -> Z.
Variable Esys_FlushContext : ESYS_TR -> TSS2_RC.

Local Abbreviation handler :=
  (coap_attest_handler coap_pdu_t coap_get_data_large pcr_selection_dto
    unmarshal_attestation_request sizeof_TPMU_HA TPML_PCR_SELECTION
    charra_pcr_selections_to_tpm_pcr_selections Esys_Initialize
    charra_load_tpm2_key tpm2_quote marshal_attestation_response
    coap_add_data_large_response Esys_FlushContext).

(** C6: whatever the calls return (no data, decode failure, nonce too
    long, key not loaded, quote failure, send failure or success), the
    handler ends with no handle left in the TPM.  A handle that
    [charra_load_tpm2_key] wrote, whether it then reported success or
    not, is passed to [Esys_FlushContext] after the label every path
    reaches. *)
Theorem loaded_key_handle_is_flushed in_pdu :
  let s := handler in_pdu in
  let data := coap_get_data_large in_pdu in
  let req :=
    (unmarshal_attestation_request (Z.of_nat (length data.2)) data.2).2 in
  let loaded :=
    charra_load_tpm2_key (sig_key_id_len req) (sig_key_id req) in
  outstanding_handles [] (trace s) = []
  /\ (forall written,
        In (Call_charra_load_tpm2_key written) (trace s) ->
        written = loaded.1.2
        /\ forall h,
             written = Some (ESYS_TR_object h) ->
             In (Call_Esys_FlushContext (ESYS_TR_object h)) (trace s)).
Proof.
  run_all.
  all: split;
    [ cbn [outstanding_handles]; rewrite ?bool_decide_eq_false_2 by done;
      cbn [outstanding_handles filter list_filter];
      rewrite ?decide_False by (intros Hne; apply Hne; reflexivity);
      reflexivity
    | ].
  all: intros written Hin; cbn [In] in Hin;
    repeat (destruct Hin as [Hin|Hin];
            [first [discriminate Hin | injection Hin as <-]|]);
    try contradiction.
  all: split; [reflexivity|]; intros h' Hh;
    first [discriminate Hh | injection Hh as <-; is_in].
Qed.

(** C7: the nonce check rejects exactly the nonces longer than
    [sizeof(TPMU_HA)].  For a request that was received and decoded:
    the handler reports "Nonce too long." if and only if
    [nonce_len > sizeof(TPMU_HA)], and then neither quotes nor answers;
    otherwise, when converting the PCR selection, initialising the TPM
    stack, loading the key and quoting succeed, it quotes with the nonce
    as qualifying data and sends the response. *)
Theorem nonce_rejected_iff_longer_than_max_digest
    in_pdu coap_r data req
    (Hdata : coap_get_data_large in_pdu = (coap_r, data))
    (Hcoap : coap_r <> 0)
    (Hreq : unmarshal_attestation_request (Z.of_nat (length data)) data
            = (CHARRA_RC_SUCCESS, req)) :
  let s := handler in_pdu in
  let qualifying_data :=
    {| size := uint16 (nonce_len req);
       buffer := take (Z.to_nat (nonce_len req)) (nonce req) |} in
  (nonce_too_long s <-> nonce_len req > sizeof_TPMU_HA)
  /\ (nonce_len req > sizeof_TPMU_HA ->
      trace s = [Log ERROR "[attester] Nonce too long.";
                 Read_indeterminate "esys_ctx"])
  /\ (nonce_len req <= sizeof_TPMU_HA ->
      (charra_pcr_selections_to_tpm_pcr_selections
         (pcr_selections_len req) (pcr_selections req)).1
      = CHARRA_RC_SUCCESS ->
      Esys_Initialize = TSS2_RC_SUCCESS ->
      (charra_load_tpm2_key (sig_key_id_len req) (sig_key_id req)).1.1
      = CHARRA_RC_SUCCESS ->
      (forall h sel q, (tpm2_quote h sel q).1.1 = TSS2_RC_SUCCESS) ->
      quoted_with qualifying_data s /\ response_sent s).
Proof.
  unfold nonce_too_long, quoted_with, response_sent.
  cbv zeta. reduce. rewrite Hdata. reduce.
  destruct (Z.eqb_spec coap_r 0) as [|_]; [contradiction|].
  reduce. rewrite Hreq. run_all.
  all: split; [split; [intros Hin | intros Hgt] | split; [intros Hgt |]];
    try lia; try reflexivity; try (exfalso; not_in Hin); try is_in.
  all: intros _ Hsel Hesys Hload Hquote; simpl in Hsel, Hload;
    try congruence;
    try match goal with
        | H : tpm2_quote ?h ?sel ?q = _ |- _ =>
          specialize (Hquote h sel q); rewrite H in Hquote;
          simpl in Hquote
        end;
    try congruence.
  all: split; eexists _, _; is_in.
Qed.

(** C3 as the handler has it: there is no lower bound on the nonce
    length.  A decoded request with [nonce_len = 0] passes the nonce
    check whenever [0 <= sizeof(TPMU_HA)]; when the later steps succeed
    it is quoted with empty qualifying data and answered. *)
Theorem zero_length_nonce_is_quoted
    in_pdu coap_r data req
    (Hdata : coap_get_data_large in_pdu = (coap_r, data))
    (Hcoap : coap_r <> 0)
    (Hreq : unmarshal_attestation_request (Z.of_nat (length data)) data
            = (CHARRA_RC_SUCCESS, req))
    (Hzero : nonce_len req = 0)
    (Hmax : 0 <= sizeof_TPMU_HA)
    (Hsel : (charra_pcr_selections_to_tpm_pcr_selections
               (pcr_selections_len req) (pcr_selections req)).1
            = CHARRA_RC_SUCCESS)
    (Hesys : Esys_Initialize = TSS2_RC_SUCCESS)
    (Hload : (charra_load_tpm2_key (sig_key_id_len req)
                (sig_key_id req)).1.1 = CHARRA_RC_SUCCESS)
    (Hquote : forall h sel q, (tpm2_quote h sel q).1.1 = TSS2_RC_SUCCESS) :
  let s := handler in_pdu in
  ~ nonce_too_long s
  /\ quoted_with {| size := 0; buffer := [] |} s
  /\ response_sent s.
Proof.
  unfold nonce_too_long, quoted_with, response_sent.
  cbv zeta. reduce. rewrite Hdata. reduce.
  destruct (Z.eqb_spec coap_r 0) as [|_]; [contradiction|].
  reduce. rewrite Hreq. run_all.
  all: rewrite ?Hzero in *; simpl in Hsel, Hload; try lia;
    try congruence;
    try match goal with
        | H : tpm2_quote ?h ?sel ?q = _ |- _ =>
          specialize (Hquote h sel q); rewrite H in Hquote;
          simpl in Hquote
        end;
    try congruence.
  all: split; [intros Hin; not_in Hin | split; eexists _, _; is_in].
Qed.
End Facts.

(** On the test bench with a digest size of 64: a nonce of 64 bytes is
    quoted and answered, one of 65 bytes is rejected. *)
Lemma nonce_rejected_iff_longer_than_max_digest_witness :
  let ok := (CHARRA_RC_SUCCESS, Some (ESYS_TR_object 7)) in
  (~ nonce_too_long (bench 64 ok TSS2_RC_SUCCESS 1)
   /\ quoted_with {| size := 64; buffer := replicate 64 Byte.x2a |}
        (bench 64 ok TSS2_RC_SUCCESS 1)
   /\ response_sent (bench 64 ok TSS2_RC_SUCCESS 1))
  /\ nonce_too_long (bench 65 ok TSS2_RC_SUCCESS 1).
Proof.
  intros ok.
  pose (at_bench := fun n =>
    nonce_rejected_iff_longer_than_max_digest unit
      (fun _ => (1, [Byte.x86])) unit
      (fun _ _ => (CHARRA_RC_SUCCESS, bench_request n)) 64 unit
      (fun _ _ => (CHARRA_RC_SUCCESS, tt)) TSS2_RC_SUCCESS
      (fun _ _ => (ok, [Byte.x00; Byte.x01]))
      (fun _ _ _ =>
         (TSS2_RC_SUCCESS, {| size := 2; buffer := [Byte.xff; Byte.x54] |},
          [Byte.x00; Byte.x16]))
      (fun _ => (3, [Byte.x82; Byte.x82; Byte.x42]))
      (fun _ _ => 1) (fun _ => TSS2_RC_SUCCESS) tt
      1 [Byte.x86] (bench_request n) eq_refl ltac:(lia) eq_refl).
  split.
  - destruct (at_bench 64) as (Hiff & _ & Hok). split.
    + intros Hlong. apply Hiff in Hlong. simpl in Hlong. lia.
    + apply Hok; simpl; first [lia | reflexivity | intros; reflexivity].
  - destruct (at_bench 65) as (Hiff & _ & _).
    apply Hiff. simpl. lia.
Defined.

(** C3 as stated fails: on the test bench a request with an empty nonce
    is quoted, with empty qualifying data, and answered; no error is
    reported. *)
Lemma zero_length_nonce_accepted :
  let s :=
    bench 0 (CHARRA_RC_SUCCESS, Some (ESYS_TR_object 7)) TSS2_RC_SUCCESS 1 in
  quoted_with {| size := 0; buffer := [] |} s
  /\ response_sent s
  /\ forall msg, ~ In (Log ERROR msg) (trace s).
Proof.
  vm_compute. split; [|split].
  - eexists _, _. is_in.
  - eexists _, _. is_in.
  - intros msg Hin. not_in Hin.
Qed.

Lemma zero_length_nonce_is_quoted_witness :
  let s :=
    bench 0 (CHARRA_RC_SUCCESS, Some (ESYS_TR_object 7)) TSS2_RC_SUCCESS 1 in
  ~ nonce_too_long s
  /\ quoted_with {| size := 0; buffer := [] |} s
  /\ response_sent s.
Proof.
  refine
    (zero_length_nonce_is_quoted unit
       (fun _ => (1, [Byte.x86])) unit
       (fun _ _ => (CHARRA_RC_SUCCESS, bench_request 0)) 64 unit
       (fun _ _ => (CHARRA_RC_SUCCESS, tt)) TSS2_RC_SUCCESS
       (fun _ _ =>
          ((CHARRA_RC_SUCCESS, Some (ESYS_TR_object 7)),
           [Byte.x00; Byte.x01]))
       (fun _ _ _ =>
          (TSS2_RC_SUCCESS, {| size := 2; buffer := [Byte.xff; Byte.x54] |},
           [Byte.x00; Byte.x16]))
       (fun _ => (3, [Byte.x82; Byte.x82; Byte.x42]))
       (fun _ _ => 1) (fun _ => TSS2_RC_SUCCESS) tt
       1 [Byte.x86] (bench_request 0) eq_refl _ eq_refl eq_refl _
       eq_refl eq_refl eq_refl (fun _ _ _ => eq_refl)); lia.
Defined.

(** A run in which loading the key fails after the handle was written:
    the handle is flushed all the same. *)
Example flushed_after_failed_load :
  outstanding_handles []
    (trace (bench 20 (CHARRA_RC_ERROR, Some (ESYS_TR_object 7))
              TSS2_RC_SUCCESS 1))
  = [].
Proof. reflexivity. Qed.
End AttesterFacts.

Module CliFacts.
Import Cli.

Section Facts.
Variable X : externals.

(** Options that are accepted are passed over by the loop. *)
Lemma parse_after_accepted pre rest variables variables1 :
  options_accepted X pre variables = Some variables1 ->
  charra_parse_command_line_verifier_arguments X (pre ++ rest) variables
  = charra_parse_command_line_verifier_arguments X rest variables1.
Proof.
  revert variables.
  induction pre as [|o pre IH]; intros variables Hacc; simpl in *.
  - congruence.
  - destruct (parse_option X o variables) as [rc v].
    destruct (rc =? 0); [apply IH; exact Hacc | discriminate].
Qed.

(** The loop returns 0 only through the check of the required
    options. *)
Lemma parse_success_checked argv variables variables' :
  charra_parse_command_line_verifier_arguments X argv variables
  = (0, variables') ->
  charra_check_required_options variables' = 0.
Proof.
  revert variables.
  induction argv as [|o argv IH]; intros variables Hparse; simpl in *.
  - congruence.
  - destruct (parse_option X o variables) as [rc v].
    destruct (Z.eqb_spec rc 0); [eapply IH; eassumption | congruence].
Qed.

Lemma check_required_options_spec variables :
  charra_check_required_options variables = 0
  <-> is_Some (reference_pcr_file_path (verifier_config variables))
      /\ is_Some (attestation_public_key_path (verifier_config variables)).
Proof.
  unfold charra_check_required_options.
  destruct (reference_pcr_file_path _), (attestation_public_key_path _);
    split; intros H; try discriminate; try reflexivity;
    try (split; eexists; reflexivity);
    destruct H as [[? ?] [? ?]]; discriminate.
Qed.

Lemma check_required_options_missing variables :
  reference_pcr_file_path (verifier_config variables) = None
  \/ attestation_public_key_path (verifier_config variables) = None ->
  charra_check_required_options variables = -1.
Proof.
  unfold charra_check_required_options.
  intros [-> | ->]; [reflexivity|].
  destruct (reference_pcr_file_path _); reflexivity.
Qed.

(** C10: parsing returns 0 only with both paths set.  If the parser
    returns 0 then reference PCR file path and attestation public-key
    path are both non-NULL; and if every option is accepted and one of
    the two is still NULL when the options run out, the parser returns
    -1 and [main] returns [CHARRA_RC_CLI_ERROR] before it does anything
    else. *)
Theorem parse_requires_both_paths argv variables :
  (forall variables',
     charra_parse_command_line_verifier_arguments X argv variables
  = (0, variables') ->
     is_Some (reference_pcr_file_path (verifier_config variables'))
     /\ is_Some (attestation_public_key_path (verifier_config variables')))
  /\ (forall variables1,
        options_accepted X argv variables = Some variables1 ->
        reference_pcr_file_path (verifier_config variables1) = None
        \/ attestation_public_key_path (verifier_config variables1) = None ->
        charra_parse_command_line_verifier_arguments X argv variables
        = (-1, variables1)
        /\ Main.main_parse_cli X argv variables
           = (Some CHARRA_RC_CLI_ERROR, variables1)).
Proof.
  split.
  - intros variables' Hparse.
    apply check_required_options_spec.
    eapply parse_success_checked; eassumption.
  - intros variables1 Hacc Hmissing.
    assert (Hparse : charra_parse_command_line_verifier_arguments X argv
                       variables = (-1, variables1)).
    { rewrite <- (app_nil_r argv).
      rewrite (parse_after_accepted _ _ _ _ Hacc). simpl.
      rewrite check_required_options_missing by assumption. reflexivity. }
    split; [exact Hparse|].
    unfold Main.main_parse_cli. rewrite Hparse. reflexivity.
Qed.

Lemma hash_algorithm_result optarg variables :
  (In optarg hash_algorithms
   /\ (charra_cli_verifier_hash_algorithm optarg variables).1 = 0)
  \/ (~ In optarg hash_algorithms
      /\ charra_cli_verifier_hash_algorithm optarg variables
         = (-1, variables)).
Proof.
  unfold charra_cli_verifier_hash_algorithm, hash_algorithms.
  destruct (String.eqb_spec optarg "sha1");
    [left; split; [subst; is_in | reflexivity]|].
  destruct (String.eqb_spec optarg "sha256");
    [left; split; [subst; is_in | reflexivity]|].
  destruct (String.eqb_spec optarg "sha384");
    [left; split; [subst; is_in | reflexivity]|].
  destruct (String.eqb_spec optarg "sha512");
    [left; split; [subst; is_in | reflexivity]|].
  right; split; [|reflexivity].
  simpl. intros [?|[?|[?|[?|[]]]]]; congruence.
Qed.

(** C8: [--hash-algorithm] takes sha1, sha256, sha384 and sha512 and
    nothing else.  The option's handler returns 0 exactly for these four
    strings; for any other string it returns -1, and when the parser
    reaches such an option (the options before it were accepted) it
    returns -1 and [main] returns [CHARRA_RC_CLI_ERROR]. *)
Theorem hash_algorithm_accepts_exactly_four optarg :
  (forall variables,
     (charra_cli_verifier_hash_algorithm optarg variables).1 = 0
     <-> In optarg hash_algorithms)
  /\ (~ In optarg hash_algorithms ->
      forall pre post variables variables1,
        options_accepted X pre variables = Some variables1 ->
        let argv :=
          pre ++ {| opt_case := CLI_VERIFIER_HASH_ALGORITHM;
                    optarg := optarg |} :: post in
        charra_parse_command_line_verifier_arguments X argv variables
        = (-1, variables1)
        /\ Main.main_parse_cli X argv variables
           = (Some CHARRA_RC_CLI_ERROR, variables1)).
Proof.
  split.
  - intros variables.
    destruct (hash_algorithm_result optarg variables) as [[Hin H]|[Hn H]].
    + split; intros _; assumption.
    + rewrite H. simpl. split; [discriminate | intros Hin; contradiction].
  - intros Hn pre post variables variables1 Hacc argv.
    assert (Hparse : charra_parse_command_line_verifier_arguments X argv
                       variables = (-1, variables1)).
    { subst argv. rewrite (parse_after_accepted _ _ _ _ Hacc).
      simpl. unfold parse_option. simpl.
      destruct (hash_algorithm_result optarg variables1)
        as [[Hin _]|[_ ->]]; [contradiction | reflexivity]. }
    split; [exact Hparse|].
    unfold Main.main_parse_cli. rewrite Hparse. reflexivity.
Qed.
End Facts.

(** *** The required options come from the command line

    Provided the parser of the common options leaves the two paths alone,
    only [--pcr-file] sets the reference PCR file path and only
    [--attestation-public-key] sets the attestation public-key path. *)
Section Given.
Variable X : externals.
Hypothesis common_keeps_reference_path : forall identifier arg variables,
  reference_pcr_file_path
    (verifier_config
       (charra_cli_util_common_parse_command_line_argument X identifier arg
          variables).2)
  = reference_pcr_file_path (verifier_config variables).
Hypothesis common_keeps_public_key_path : forall identifier arg variables,
  attestation_public_key_path
    (verifier_config
       (charra_cli_util_common_parse_command_line_argument X identifier arg
          variables).2)
  = attestation_public_key_path (verifier_config variables).

Lemma parse_pcr_selection_keeps_paths
    fuel next_token variables rc variables' :
  charra_cli_verifier_parse_pcr_selection X fuel next_token variables
  = Some (rc, variables') ->
  reference_pcr_file_path (verifier_config variables')
  = reference_pcr_file_path (verifier_config variables)
  /\ attestation_public_key_path (verifier_config variables')
     = attestation_public_key_path (verifier_config variables).
Proof.
  revert next_token variables.
  induction fuel as [|fuel IH]; intros next_token variables; simpl;
    [discriminate|].
  destruct (charra_cli_verifier_strtok next_token "+") as [[tok rest]|];
    [|intros [= <- <-]; split; reflexivity].
  destruct (charra_cli_verifier_strtok tok ":") as [[name pcr_list]|];
    [|intros [= <- <-]; split; reflexivity].
  destruct (_ || _); [intros [= <- <-]; split; reflexivity|].
  destruct (charra_cli_verifier_parse_pcr_bank _ _ _ _) as [[rc' row] len].
  destruct (rc' =? 0).
  - intros H. apply IH in H. exact H.
  - intros [= <- <-]. split; reflexivity.
Qed.

Lemma parse_option_keeps_paths o variables :
  (opt_case o <> CLI_VERIFIER_PCR_FILE ->
   reference_pcr_file_path (verifier_config (parse_option X o variables).2)
   = reference_pcr_file_path (verifier_config variables))
  /\ (opt_case o <> CLI_VERIFIER_ATTESTATION_PUBLIC_KEY ->
      attestation_public_key_path
        (verifier_config (parse_option X o variables).2)
      = attestation_public_key_path (verifier_config variables)).
Proof.
  unfold parse_option. destruct (opt_case o) eqn:Hcase.
  - unfold charra_cli_verifier_pcr_log.
    repeat case_match; split; reflexivity.
  - split; reflexivity.
  - unfold charra_cli_verifier_ip. case_match; split; reflexivity.
  - unfold charra_cli_verifier_timeout.
    repeat case_match; split; reflexivity.
  - unfold charra_cli_verifier_attestation_public_key.
    case_match; split; intros; try reflexivity; congruence.
  - unfold charra_cli_verifier_pcr_file.
    repeat case_match; split; intros; try reflexivity; congruence.
  - unfold charra_cli_verifier_pcr_selection.
    destruct (charra_cli_verifier_parse_pcr_selection _ _ _ _)
      as [[rc v]|] eqn:Hsel; [|split; reflexivity].
    apply parse_pcr_selection_keeps_paths in Hsel.
    destruct rc; simpl; split; intros; apply Hsel.
  - unfold charra_cli_verifier_hash_algorithm.
    repeat case_match; split; reflexivity.
  - split; intros _;
      [apply common_keeps_reference_path
      | apply common_keeps_public_key_path].
Qed.

(** A successful parse that started without the two paths has seen both
    options. *)
Lemma required_options_were_given argv variables variables' :
  charra_parse_command_line_verifier_arguments X argv variables
  = (0, variables') ->
  (reference_pcr_file_path (verifier_config variables) = None ->
   exists o, In o argv /\ opt_case o = CLI_VERIFIER_PCR_FILE)
  /\ (attestation_public_key_path (verifier_config variables) = None ->
      exists o,
        In o argv /\ opt_case o = CLI_VERIFIER_ATTESTATION_PUBLIC_KEY).
Proof.
  revert variables.
  induction argv as [|o argv IH]; intros variables Hparse; simpl in Hparse.
  - injection Hparse as Hcheck <-.
    apply check_required_options_spec in Hcheck.
    destruct Hcheck as [[p Hp] [k Hk]].
    split; intros Hnone; congruence.
  - pose proof (parse_option_keeps_paths o variables) as [Href Hkey].
    destruct (parse_option X o variables) as [rc v]; simpl in *.
    destruct (Z.eqb_spec rc 0); [|congruence].
    destruct (IH _ Hparse) as [IHref IHkey]. split; intros Hnone.
    + destruct (opt_case o) eqn:Hcase;
        try (destruct IHref as (o' & Hin & Ho');
             [rewrite Href by discriminate; exact Hnone
             | exists o'; split; [right; exact Hin | exact Ho']]).
      exists o. split; [left; reflexivity | exact Hcase].
    + destruct (opt_case o) eqn:Hcase;
        try (destruct IHkey as (o' & Hin & Ho');
             [rewrite Hkey by discriminate; exact Hnone
             | exists o'; split; [right; exact Hin | exact Ho']]).
      exists o. split; [left; reflexivity | exact Hcase].
Qed.
End Given.

(** On the test bench the hypotheses hold, and a parse that succeeds has
    seen [--pcr-file]. *)
Example required_options_were_given_on_bench :
  exists o,
    In o CliBench.required_options /\ opt_case o = CLI_VERIFIER_PCR_FILE.
Proof.
  apply (required_options_were_given CliBench.bench_externals
           (fun _ _ _ => eq_refl) (fun _ _ _ => eq_refl)
           CliBench.required_options CliBench.bench_config _ eq_refl).
  reflexivity.
Qed.

(** [--hash-algorithm=sha3_256] after the two required options. *)
Lemma hash_algorithm_accepts_exactly_four_witness :
  (Main.main_parse_cli CliBench.bench_externals
     (CliBench.required_options
        ++ [CliBench.opt CLI_VERIFIER_HASH_ALGORITHM "sha3_256"])
     CliBench.bench_config).1
  = Some CHARRA_RC_CLI_ERROR.
Proof.
  assert (Hnot : ~ In "sha3_256" hash_algorithms).
  { intros Hin. not_in Hin. }
  destruct (proj2 (hash_algorithm_accepts_exactly_four
                     CliBench.bench_externals "sha3_256")
              Hnot CliBench.required_options [] CliBench.bench_config _
              eq_refl) as [_ Hmain].
  exact (f_equal fst Hmain).
Defined.

(** Only the reference PCR file is given: the parser fails.  Both
    required options are given: it succeeds with both paths set. *)
Lemma parse_requires_both_paths_witness :
  (Main.main_parse_cli CliBench.bench_externals
     [CliBench.opt CLI_VERIFIER_PCR_FILE "yaml:reference-pcrs.yaml"]
     CliBench.bench_config).1
  = Some CHARRA_RC_CLI_ERROR
  /\ is_Some
       (attestation_public_key_path
          (verifier_config
             (charra_parse_command_line_verifier_arguments
                CliBench.bench_externals CliBench.required_options
                CliBench.bench_config).2)).
Proof.
  split.
  - destruct (proj2 (parse_requires_both_paths CliBench.bench_externals
                       [CliBench.opt CLI_VERIFIER_PCR_FILE
                          "yaml:reference-pcrs.yaml"]
                       CliBench.bench_config)
                _ eq_refl (or_intror eq_refl)) as [_ Hmain].
    exact (f_equal fst Hmain).
  - apply (proj1 (parse_requires_both_paths CliBench.bench_externals
                    CliBench.required_options CliBench.bench_config)
             _ eq_refl).
Defined.
End CliFacts.

Module PcrSelectionFacts.
Import Cli.

Lemma StronglySorted_snoc (l : list Z) (x : Z) :
  StronglySorted Z.lt l -> Forall (fun y => y < x) l ->
  StronglySorted Z.lt (l ++ [x]).
Proof.
  induction 1 as [|y l Hs IH Hy]; intros Hall; simpl.
  - repeat constructor.
  - inversion Hall; subst. constructor.
    + apply IH; assumption.
    + apply Forall_app; split; [assumption | repeat constructor; assumption].
Qed.

Lemma StronglySorted_lt_NoDup (l : list Z) :
  StronglySorted Z.lt l -> NoDup l.
Proof.
  induction 1 as [|y l Hs IH Hy]; constructor; [|assumption].
  intros Hin. apply list_elem_of_In in Hin.
  rewrite List.Forall_forall in Hy.
  specialize (Hy y Hin). lia.
Qed.

(** What [strtok]-style splitting leaves is shorter than what it got. *)
Lemma strcspn_split_length s delim :
  (String.length (strcspn_split s delim).1
   + String.length (strcspn_split s delim).2 = String.length s)%nat.
Proof.
  induction s as [|c s IH]; simpl; [reflexivity|].
  destruct (is_delimiter delim c); simpl; [reflexivity|].
  destruct (strcspn_split s delim) as [tok tl]; simpl in *. lia.
Qed.

Lemma charra_cli_verifier_strtok_shorter str delim tok rest :
  charra_cli_verifier_strtok str delim = Some (tok, rest) ->
  (String.length rest < String.length str)%nat.
Proof.
  unfold charra_cli_verifier_strtok.
  destruct str as [|c str]; [discriminate|].
  pose proof (strcspn_split_length (String c str) delim) as Hlen.
  destruct (strcspn_split (String c str) delim) as [tok' tl].
  intros [= <- <-]. simpl in Hlen.
  destruct tl as [|d tl]; simpl in *; lia.
Qed.

Section Facts.
Variable X : externals.

(** The loop over the PCR tokens ends before its fuel does. *)
Lemma fill_hash_set_total fuel next_token hash_set :
  (String.length next_token < fuel)%nat ->
  is_Some (fill_hash_set X fuel next_token hash_set).
Proof.
  revert next_token hash_set.
  induction fuel as [|fuel IH]; intros next_token hash_set Hlt; [lia|].
  simpl.
  destruct (charra_cli_verifier_strtok next_token ",")
    as [[tok rest]|] eqn:Htok; [|eexists; reflexivity].
  apply charra_cli_verifier_strtok_shorter in Htok.
  destruct (charra_cli_util_common_parse_option_as_ulong X tok 10);
    [|eexists; reflexivity].
  destruct (_ <=? _); [eexists; reflexivity|].
  apply IH. lia.
Qed.

(** So does the loop over the banks. *)
Lemma parse_pcr_selection_total fuel next_token variables :
  (String.length next_token < fuel)%nat ->
  is_Some
    (charra_cli_verifier_parse_pcr_selection X fuel next_token variables).
Proof.
  revert next_token variables.
  induction fuel as [|fuel IH]; intros next_token variables Hlt; [lia|].
  simpl.
  destruct (charra_cli_verifier_strtok next_token "+")
    as [[tok rest]|] eqn:Htok; [|eexists; reflexivity].
  apply charra_cli_verifier_strtok_shorter in Htok.
  destruct (charra_cli_verifier_strtok tok ":") as [[name pcr_list]|];
    [|eexists; reflexivity].
  destruct (_ || _); [eexists; reflexivity|].
  destruct (charra_cli_verifier_parse_pcr_bank _ _ _ _) as [[rc row] len].
  destruct (rc =? 0); [|eexists; reflexivity].
  apply IH. lia.
Qed.

(** The hash set keeps its size. *)
Lemma fill_hash_set_length fuel next_token hash_set rc hash_set' :
  fill_hash_set X fuel next_token hash_set = Some (rc, hash_set') ->
  length hash_set' = length hash_set.
Proof.
  revert next_token hash_set.
  induction fuel as [|fuel IH]; intros next_token hash_set; simpl;
    [discriminate|].
  destruct (charra_cli_verifier_strtok next_token ",") as [[tok rest]|];
    [|intros [= <- <-]; reflexivity].
  destruct (charra_cli_util_common_parse_option_as_ulong X tok 10);
    [|intros [= <- <-]; reflexivity].
  destruct (_ <=? _); [intros [= <- <-]; reflexivity|].
  intros H. apply IH in H. rewrite H. apply length_insert.
Qed.

Lemma add_sorted_prefix hash_set bank n :
  (n <= length bank)%nat ->
  let '(b, l) := foldl (add_sorted_step hash_set) (bank, 0) (seq 0 n) in
  0 <= l <= Z.of_nat n
  /\ length b = length bank
  /\ StronglySorted Z.lt (take (Z.to_nat l) b)
  /\ Forall (fun i => 0 <= i < Z.of_nat n) (take (Z.to_nat l) b).
Proof.
  induction n as [|n IH]; intros Hn.
  - simpl. repeat split; try lia; constructor.
  - rewrite seq_S, foldl_app. simpl.
    destruct (foldl _ _ (seq 0 n)) as [b l].
    destruct IH as (Hl & Hlen & Hsorted & Hall); [lia|].
    unfold add_sorted_step at 1.
    destruct (_ =? 0).
    + repeat split; try lia; try assumption.
      eapply List.Forall_impl; [|exact Hall]. simpl; intros; lia.
    + assert (Hlt : (Z.to_nat l < length b)%nat) by lia.
      replace (Z.to_nat (l + 1)) with (S (Z.to_nat l)) by lia.
      rewrite (take_S_r _ _ (Z.of_nat n))
        by (apply list_lookup_insert_eq; exact Hlt).
      rewrite take_insert_ge by lia.
      repeat split; try lia.
      * rewrite length_insert. exact Hlen.
      * apply StronglySorted_snoc; [assumption|].
        eapply List.Forall_impl; [|exact Hall]. simpl; intros; lia.
      * apply Forall_app; split.
        -- eapply List.Forall_impl; [|exact Hall]. simpl; intros; lia.
        -- repeat constructor; lia.
Qed.

(** The path for an explicit list of PCRs stores them sorted, without
    duplicates and below [TPM2_MAX_PCRS]. *)
Lemma parse_pcr_bank_listed_sorted bank len pcr_list bank' len' :
  pcr_list <> "all" ->
  (TPM2_MAX_PCRS X <= length bank)%nat ->
  charra_cli_verifier_parse_pcr_bank X bank len pcr_list
  = (0, bank', len') ->
  let l := take (Z.to_nat len') bank' in
  StronglySorted Z.lt l
  /\ NoDup l
  /\ Forall (fun i => 0 <= i < Z.of_nat (TPM2_MAX_PCRS X)) l.
Proof.
  intros Hnot Hlen. unfold charra_cli_verifier_parse_pcr_bank.
  destruct (String.eqb_spec pcr_list "all"); [contradiction|].
  destruct (fill_hash_set X _ pcr_list _) as [[rc hash_set]|];
    [|discriminate].
  destruct rc; try discriminate.
  pose proof (add_sorted_prefix hash_set bank (TPM2_MAX_PCRS X) Hlen)
    as Hprefix.
  fold (add_sorted X hash_set bank) in Hprefix.
  destruct (add_sorted X hash_set bank) as [b l].
  intros Heq; injection Heq as <- <-.
  destruct Hprefix as (_ & _ & Hsorted & Hall).
  split; [assumption|]. split; [|assumption].
  apply StronglySorted_lt_NoDup; assumption.
Qed.

(** The path for "all": every entry of the bank is set to 1. *)
Lemma fill_with_true (bank : list Z) n :
  (n <= length bank)%nat ->
  foldl (fun bank i => <[i := 1]> bank) bank (seq 0 n)
  = replicate n 1 ++ drop n bank.
Proof.
  induction n as [|n IH]; intros Hn.
  - simpl. rewrite drop_0. reflexivity.
  - rewrite seq_S, foldl_app, IH by lia. simpl.
    rewrite insert_app_r_alt by (rewrite length_replicate; lia).
    rewrite length_replicate, Nat.sub_diag.
    destruct (drop n bank) as [|x tl] eqn:Hdrop.
    + apply (f_equal length) in Hdrop. rewrite length_drop in Hdrop.
      simpl in Hdrop. lia.
    + simpl.
      replace (drop (S n) bank) with tl.
      * clear. induction n as [|n IHn]; simpl;
          [reflexivity | rewrite IHn; reflexivity].
      * replace (S n) with (n + 1)%nat by lia.
        rewrite <- drop_drop, Hdrop. reflexivity.
Qed.

Lemma parse_pcr_bank_all bank len :
  length bank = TPM2_MAX_PCRS X ->
  charra_cli_verifier_parse_pcr_bank X bank len "all"
  = (0, replicate (TPM2_MAX_PCRS X) 1, Z.of_nat (TPM2_MAX_PCRS X)).
Proof.
  intros Hlen. unfold charra_cli_verifier_parse_pcr_bank. simpl.
  rewrite fill_with_true by lia.
  rewrite <- Hlen, drop_all, app_nil_r. reflexivity.
Qed.
End Facts.

(** C5 (the parser departs from it): [--pcr-selection=sha256:all] is
    accepted, and the sha256 bank then lists 24 times the index 1 instead
    of the indices 0 to 23: the loop for "all" stores [true] in every
    entry.  The list has duplicates. *)
Theorem pcr_selection_all_stores_ones :
  let r :=
    charra_cli_verifier_pcr_selection CliBench.bench_externals "sha256:all"
      CliBench.bench_config in
  r.1 = 0
  /\ pcr_indices r.2 1 = replicate 24 1
  /\ ~ NoDup (pcr_indices r.2 1).
Proof.
  vm_compute. split; [reflexivity|]. split; [reflexivity|].
  intros Hnodup. inversion Hnodup as [|x l Hnotin _]; subst.
  apply Hnotin. left.
Qed.

(** For contrast, an explicit list is stored sorted and without
    duplicates. *)
Example pcr_selection_listed :
  let r :=
    charra_cli_verifier_pcr_selection CliBench.bench_externals
      "sha256:3,1,2,1+sha1:23,0" CliBench.bench_config in
  r.1 = 0 /\ pcr_indices r.2 1 = [1; 2; 3] /\ pcr_indices r.2 0 = [0; 23].
Proof. vm_compute. repeat split. Qed.
End PcrSelectionFacts.

Module MainFacts.
Import Cli Main.

Lemma uint16_range z : 0 <= uint16 z < 65536.
Proof. unfold uint16. apply Z.mod_pos_bound. lia. Qed.

(** From 66 seconds on the threshold in milliseconds is beyond what the
    16-bit [response_wait_time] can hold. *)
Lemma timeout_out_of_reach T times t0 :
  66 <= T ->
  wait_for_response T t0 (map quiet_round times)
  <> Returned CHARRA_RC_TIMEOUT.
Proof.
  intros HT. revert t0.
  induction times as [|ms times IH]; intros t0; simpl; [discriminate|].
  destruct (ms =? -1); [discriminate|].
  pose proof (uint16_range (t0 + ms)) as Hrange.
  destruct (Z.leb_spec (T * 1000) (uint16 (t0 + ms))); [lia|].
  apply IH.
Qed.

(** C4 (the loop departs from it): [--timeout=66] is accepted, and after
    33 turns of 2000 ms without a response, 66 seconds in all, the loop
    is still waiting, with [response_wait_time] wrapped around to 464;
    whatever the turns take, it never returns [CHARRA_RC_TIMEOUT]. *)
Theorem timeout_66_never_fires :
  (let r :=
     charra_cli_verifier_timeout CliBench.bench_externals "66"
       CliBench.bench_config in
   r.1 = 0 /\ timeout (verifier_config r.2) = 66)
  /\ wait_for_response 66 0 (map quiet_round (replicate 33 2000))
     = Waiting 464
  /\ forall times t0,
       wait_for_response 66 t0 (map quiet_round times)
       <> Returned CHARRA_RC_TIMEOUT.
Proof.
  split; [vm_compute; split; reflexivity|].
  split; [vm_compute; reflexivity|].
  intros times t0. apply timeout_out_of_reach. lia.
Qed.

(** For contrast, the default of 30 seconds does fire. *)
Example timeout_30_fires :
  wait_for_response 30 0 (map quiet_round (replicate 15 2000))
  = Returned CHARRA_RC_TIMEOUT.
Proof. reflexivity. Qed.
End MainFacts.

(** ** The tokenizer of the PCR selection *)

Module StrtokFacts.
Import Cli CliNotions.

Lemma strcspn_split_spec s delim :
  let '(tok, tl) := strcspn_split s delim in
  s = String.append tok tl
  /\ Forall (fun c => is_delimiter delim c = false) (characters tok)
  /\ match tl with
     | EmptyString => True
     | String d _ => is_delimiter delim d = true
     end.
Proof.
  induction s as [|c s IH]; simpl.
  - repeat split; constructor.
  - destruct (is_delimiter delim c) eqn:Hc.
    + repeat split; [constructor | exact Hc].
    + destruct (strcspn_split s delim) as [tok tl].
      destruct IH as (-> & Hall & Htl). simpl.
      repeat split; [constructor; assumption | exact Htl].
Qed.

(** X1: what [charra_cli_verifier_strtok] hands back is the input cut at
    its first delimiter. *)
Theorem charra_cli_verifier_strtok_cuts_at_first_delimiter str delim :
  match charra_cli_verifier_strtok str delim with
  | None => str = EmptyString
  | Some (token, next_token) =>
    str <> EmptyString
    /\ Forall (fun c => is_delimiter delim c = false) (characters token)
    /\ (str = token /\ next_token = EmptyString
        \/ exists d,
             is_delimiter delim d = true
             /\ str = String.append token (String d next_token))
  end.
Proof.
  unfold charra_cli_verifier_strtok.
  destruct str as [|c str]; [reflexivity|].
  pose proof (strcspn_split_spec (String c str) delim) as Hspec.
  destruct (strcspn_split (String c str) delim) as [tok tl].
  destruct Hspec as (Heq & Hall & Htl).
  split; [discriminate|]. split; [exact Hall|].
  destruct tl as [|d tl].
  - left. split; [|reflexivity]. rewrite Heq.
    clear. induction tok as [|a tok IH]; [reflexivity|].
    change (String a (String.append tok EmptyString) = String a tok).
    f_equal. exact IH.
  - right. exists d. split; assumption.
Qed.
End StrtokFacts.

Module TokensFacts.
Import Cli CliNotions.

Lemma append_cons a s t :
  String.append (String a s) t = String a (String.append s t).
Proof. reflexivity. Qed.

Lemma append_nil_r s : String.append s EmptyString = s.
Proof.
  induction s as [|a s IH]; [reflexivity|].
  rewrite append_cons, IH. reflexivity.
Qed.

Lemma append_assoc s t u :
  String.append (String.append s t) u = String.append s (String.append t u).
Proof.
  induction s as [|a s IH]; [reflexivity|].
  rewrite !append_cons, IH. reflexivity.
Qed.

Lemma tokens_nil fuel s delim :
  (String.length s < fuel)%nat ->
  tokens fuel s delim = [] -> s = EmptyString.
Proof.
  destruct fuel as [|fuel]; [lia|]. intros _. simpl.
  destruct s as [|c s]; [reflexivity|].
  unfold charra_cli_verifier_strtok.
  destruct (strcspn_split (String c s) delim). discriminate.
Qed.

Lemma join_cons sep t ts :
  ts <> [] ->
  join sep (t :: ts) = String.append t (String.append sep (join sep ts)).
Proof. destruct ts; [contradiction | reflexivity]. Qed.

(** X2: the tokens the two loops of the PCR selection see are the pieces
    of the string between the delimiters.  Joined by the delimiter they
    give the string back, up to one delimiter at its end, which produces
    no token; no token contains the delimiter. *)
Theorem tokens_are_the_pieces_between_delimiters d s :
  let delim := String d EmptyString in
  let ts := tokens (S (String.length s)) s delim in
  (s = join delim ts \/ s = String.append (join delim ts) delim)
  /\ Forall (fun t => ~ In d (characters t)) ts.
Proof.
  intros delim.
  assert (Hgen : forall fuel s, (String.length s < fuel)%nat ->
    let ts := tokens fuel s delim in
    (s = join delim ts \/ s = String.append (join delim ts) delim)
    /\ Forall (fun t => ~ In d (characters t)) ts).
  { clear s. induction fuel as [|fuel IH]; intros s Hlt; [lia|].
    simpl.
    destruct (charra_cli_verifier_strtok s delim) as [[tok rest]|] eqn:Htok.
    - pose proof (PcrSelectionFacts.charra_cli_verifier_strtok_shorter
                    _ _ _ _ Htok) as Hshort.
      unfold charra_cli_verifier_strtok in Htok.
      destruct s as [|c s]; [discriminate|].
      pose proof (StrtokFacts.strcspn_split_spec (String c s) delim) as Hspec.
      destruct (strcspn_split (String c s) delim) as [tok' tl].
      injection Htok as -> <-.
      destruct Hspec as (Heq & Hall & Htl).
      assert (Htok_free : ~ In d (characters tok)).
      { intros Hin. rewrite List.Forall_forall in Hall.
        specialize (Hall d Hin). simpl in Hall.
        rewrite Ascii.eqb_refl in Hall. discriminate. }
      destruct tl as [|d' rest].
      + destruct fuel; simpl; (split; [left|repeat constructor; assumption]);
          rewrite Heq, append_nil_r; reflexivity.
      + simpl in Htl. rewrite orb_false_r in Htl.
        apply Ascii.eqb_eq in Htl. subst d'.
        destruct (IH rest) as [Hjoin Hfree]; [simpl in *; lia|].
        split; [|constructor; assumption].
        destruct (tokens fuel rest delim) as [|t ts'] eqn:Hts.
        * apply tokens_nil in Hts; [|simpl in *; lia]. subst rest.
          right. rewrite Heq. reflexivity.
        * rewrite join_cons by discriminate.
          rewrite Heq.
          change (String d rest) with (String.append delim rest).
          destruct Hjoin as [Hj|Hj]; [left|right]; rewrite Hj at 1;
            rewrite ?append_assoc; reflexivity.
    - unfold charra_cli_verifier_strtok in Htok.
      destruct s as [|c s]; [|destruct (strcspn_split _ _); discriminate].
      split; [left; reflexivity | constructor]. }
  intros ts. apply Hgen. lia.
Qed.
End TokensFacts.

(** ** The PCR list of one bank *)

Module PcrBankFacts.
Import Cli CliNotions.

Section Facts.
Variable X : externals.
(** [parse_value] is a [uint64_t], the loop counters are [uint8_t]. *)
Hypothesis parse_value_unsigned : forall s base v,
  charra_cli_util_common_parse_option_as_ulong X s base = Some v -> 0 <= v.
Hypothesis max_pcrs_fits_uint8 : (TPM2_MAX_PCRS X <= 255)%nat.

(** A token that names a PCR the TPM has. *)
Local Abbreviation names_a_pcr t :=
  (exists v,
     charra_cli_util_common_parse_option_as_ulong X t 10 = Some v
     /\ v < Z.of_nat (TPM2_MAX_PCRS X)).

Lemma fill_hash_set_spec fuel next_token hash_set rc hash_set' :
  fill_hash_set X fuel next_token hash_set = Some (rc, hash_set') ->
  length hash_set = TPM2_MAX_PCRS X ->
  let toks := tokens fuel next_token "," in
  (Forall (fun t => names_a_pcr t) toks ->
   rc = 0
   /\ forall i, (i < TPM2_MAX_PCRS X)%nat ->
        hash_set' !!! i <> 0
        <-> hash_set !!! i <> 0
            \/ exists t,
                 In t toks
                 /\ charra_cli_util_common_parse_option_as_ulong X t 10
                    = Some (Z.of_nat i))
  /\ (~ Forall (fun t => names_a_pcr t) toks -> rc = -1).
Proof.
  revert next_token hash_set.
  induction fuel as [|fuel IH]; intros next_token hash_set; simpl;
    [discriminate|].
  destruct (charra_cli_verifier_strtok next_token ",") as [[tok rest]|].
  2:{ intros [= <- <-] _. split.
      - intros _. split; [reflexivity|]. intros i _. split.
        + intros H; left; exact H.
        + intros [H|(t & [] & _)]; exact H.
      - intros Hn. exfalso. apply Hn. constructor. }
  destruct (charra_cli_util_common_parse_option_as_ulong X tok 10)
    as [v|] eqn:Hparse.
  2:{ intros [= <- <-] _. split.
      - intros Hall. inversion Hall as [|? ? (v & Hv & _) _]; subst.
        congruence.
      - reflexivity. }
  destruct (Z.leb_spec (Z.of_nat (TPM2_MAX_PCRS X)) v) as [Hge|Hlt].
  { intros [= <- <-] _. split.
    - intros Hall. inversion Hall as [|? ? (v' & Hv' & Hlt') _]; subst.
      assert (v' = v) by congruence. lia.
    - reflexivity. }
  intros Hfill Hlen.
  pose proof (parse_value_unsigned _ _ _ Hparse) as Hpos.
  assert (Hpcr : Z.to_nat (uint8 v) = Z.to_nat v).
  { unfold uint8. rewrite Z.mod_small by lia. reflexivity. }
  rewrite Hpcr in Hfill.
  apply IH in Hfill; [|rewrite length_insert; exact Hlen].
  destruct Hfill as [Hgood Hbad]. split.
  - intros Hall. inversion Hall as [|? ? _ Hall']; subst.
    destruct (Hgood Hall') as [-> Hbits]. split; [reflexivity|].
    intros i Hi. rewrite (Hbits i Hi).
    destruct (decide (i = Z.to_nat v)) as [->|Hne].
    + rewrite list_lookup_total_insert_eq by lia. split.
      * intros _. right. exists tok. split; [left; reflexivity|].
        rewrite Hparse. f_equal. lia.
      * intros _. left. discriminate.
    + rewrite list_lookup_total_insert_ne by congruence. split.
      * intros [H|(t & Hin & Ht)]; [left; exact H|].
        right. exists t. split; [right; exact Hin | exact Ht].
      * intros [H|(t & [<-|Hin] & Ht)]; [left; exact H | |].
        -- exfalso. apply Hne. assert (v = Z.of_nat i) by congruence. lia.
        -- right. exists t. split; assumption.
  - intros Hn. apply Hbad. intros Hall'. apply Hn.
    constructor; [|exact Hall']. exists v. split; [exact Hparse | exact Hlt].
Qed.

Lemma add_sorted_members hash_set bank n :
  (n <= length bank)%nat ->
  let '(b, l) := foldl (add_sorted_step hash_set) (bank, 0) (seq 0 n) in
  0 <= l <= Z.of_nat n
  /\ length b = length bank
  /\ drop (Z.to_nat l) b = drop (Z.to_nat l) bank
  /\ forall x, In x (take (Z.to_nat l) b)
       <-> exists i, (i < n)%nat /\ x = Z.of_nat i /\ hash_set !!! i <> 0.
Proof.
  induction n as [|n IH]; intros Hn.
  - simpl. split; [lia|]. split; [reflexivity|]. split; [reflexivity|].
    intros x. split; [intros [] | intros (i & Hi & _); lia].
  - rewrite seq_S, foldl_app. simpl.
    destruct (foldl _ _ (seq 0 n)) as [b l].
    destruct IH as (Hl & Hlen & Hdrop & Hmem); [lia|].
    unfold add_sorted_step at 1.
    destruct (Z.eqb_spec (hash_set !!! n) 0) as [Hz|Hnz].
    + split; [lia|]. split; [exact Hlen|]. split; [exact Hdrop|].
      intros x. split.
      * intros Hin. apply Hmem in Hin. destruct Hin as (i & Hi & Hx & Hb).
        exists i. split; [lia|]. split; assumption.
      * intros (i & Hi & Hx & Hb). apply Hmem. exists i.
        split; [|split; assumption].
        destruct (decide (i = n)) as [->|]; [contradiction | lia].
    + assert (Hlt : (Z.to_nat l < length b)%nat) by lia.
      replace (Z.to_nat (l + 1)) with (S (Z.to_nat l)) by lia.
      rewrite (take_S_r _ _ (Z.of_nat n))
        by (apply list_lookup_insert_eq; exact Hlt).
      rewrite take_insert_ge by lia.
      split; [lia|]. split; [rewrite length_insert; exact Hlen|].
      split.
      * rewrite drop_insert_lt by lia.
        replace (S (Z.to_nat l)) with (Z.to_nat l + 1)%nat by lia.
        rewrite <- !drop_drop, Hdrop. reflexivity.
      * intros x. split.
        -- intros Hin. apply in_app_or in Hin.
           destruct Hin as [Hin|[<-|[]]].
           ++ apply Hmem in Hin. destruct Hin as (i & Hi & Hx & Hb).
              exists i. split; [lia|]. split; assumption.
           ++ exists n. split; [lia|]. split; [reflexivity | exact Hnz].
        -- intros (i & Hi & Hx & Hb). apply in_or_app.
           destruct (decide (i = n)) as [->|].
           ++ right. left. symmetry. exact Hx.
           ++ left. apply Hmem. exists i. split; [lia|]. split; assumption.
Qed.

(** X3: an explicit PCR list is stored as the sorted set of the numbers
    it names.  When every token between the commas parses to a number
    below [TPM2_MAX_PCRS] the function returns 0, the first
    [*tpm_pcr_selection_len] entries of the bank are strictly ascending
    and hold exactly the numbers the tokens name, and the entries after
    them keep what they held; otherwise it returns -1 and leaves bank and
    length as they were. *)
Theorem parse_pcr_bank_stores_the_sorted_set bank len pcr_list
    (Hlist : pcr_list <> "all")
    (Hbank : (TPM2_MAX_PCRS X <= length bank)%nat) :
  let toks := tokens (S (String.length pcr_list)) pcr_list "," in
  let '(rc, bank', len') :=
    charra_cli_verifier_parse_pcr_bank X bank len pcr_list in
  let l := take (Z.to_nat len') bank' in
  (Forall (fun t => names_a_pcr t) toks ->
   rc = 0
   /\ StronglySorted Z.lt l
   /\ (forall i, In i l
         <-> exists t,
               In t toks
               /\ charra_cli_util_common_parse_option_as_ulong X t 10
                  = Some i)
   /\ bank' = l ++ drop (length l) bank)
  /\ (~ Forall (fun t => names_a_pcr t) toks ->
      rc = -1 /\ bank' = bank /\ len' = len).
Proof.
  intros toks. unfold charra_cli_verifier_parse_pcr_bank.
  destruct (String.eqb_spec pcr_list "all"); [contradiction|].
  destruct (PcrSelectionFacts.fill_hash_set_total X
              (S (String.length pcr_list)) pcr_list
              (replicate (TPM2_MAX_PCRS X) 0)) as [[rc hash_set] Hfill];
    [lia|].
  rewrite Hfill.
  apply fill_hash_set_spec in Hfill; [|apply length_replicate].
  fold toks in Hfill. destruct Hfill as [Hgood Hbad].
  destruct rc as [|p|p].
  - pose proof (add_sorted_members hash_set bank (TPM2_MAX_PCRS X) Hbank)
      as Hm.
    pose proof (PcrSelectionFacts.add_sorted_prefix hash_set bank
                  (TPM2_MAX_PCRS X) Hbank) as Hp.
    fold (add_sorted X hash_set bank) in Hm, Hp.
    destruct (add_sorted X hash_set bank) as [b l].
    destruct Hm as (Hl & Hlen & Hdrop & Hmem).
    destruct Hp as (_ & _ & Hsorted & _).
    split; [|intros Hn; specialize (Hbad Hn); discriminate].
    intros Hall. destruct (Hgood Hall) as [_ Hbits].
    split; [reflexivity|]. split; [exact Hsorted|]. split.
    + intros i. rewrite Hmem. split.
      * intros (k & Hk & -> & Hbit). apply Hbits in Hbit; [|exact Hk].
        destruct Hbit as [Hz|Ht]; [|exact Ht].
        rewrite lookup_total_replicate_2 in Hz by exact Hk.
        contradiction.
      * intros (t & Hin & Ht).
        rewrite List.Forall_forall in Hall.
        destruct (Hall t Hin) as (v & Hv & Hlt).
        assert (v = i) by congruence. subst v.
        pose proof (parse_value_unsigned _ _ _ Ht) as Hpos.
        exists (Z.to_nat i). split; [lia|]. split; [lia|].
        apply Hbits; [lia|]. right. exists t. split; [exact Hin|].
        rewrite Ht. f_equal. lia.
    + rewrite length_take, Nat.min_l by lia.
      rewrite <- Hdrop. symmetry. apply take_drop.
  - split; intros H;
      [destruct (Hgood H) as [? _] | specialize (Hbad H)]; discriminate.
  - split; intros H; [destruct (Hgood H) as [? _]; discriminate|].
    repeat split.
Qed.
End Facts.

Lemma parse_decimal_unsigned s base v :
  CliBench.parse_decimal s base = Some v -> 0 <= v.
Proof.
  unfold CliBench.parse_decimal.
  assert (Hacc : forall s acc, 0 <= acc ->
            0 <= (CliBench.leading_digits s acc).1).
  { clear. induction s as [|c s IH]; intros acc Hacc; simpl; [exact Hacc|].
    unfold CliBench.digit_value.
    destruct (_ && _) eqn:Hd; [|exact Hacc].
    specialize (IH (10 * acc + (Z.of_N (Ascii.N_of_ascii c) - 48))).
    destruct (CliBench.leading_digits s _) as [v' n']. simpl in *.
    apply IH. lia. }
  specialize (Hacc s 0).
  destruct (CliBench.leading_digits s 0) as [v' n'].
  destruct (_ || _); [discriminate|]. intros [= <-]. apply Hacc. lia.
Qed.

(** On the test bench: the list [3,1,2,1] is accepted and stored in
    ascending order. *)
Lemma parse_pcr_bank_stores_the_sorted_set_witness :
  let r :=
    charra_cli_verifier_parse_pcr_bank CliBench.bench_externals
      (replicate 24 0) 0 "3,1,2,1" in
  r.1.1 = 0 /\ StronglySorted Z.lt (take (Z.to_nat r.2) r.1.2).
Proof.
  intros r.
  pose proof (parse_pcr_bank_stores_the_sorted_set CliBench.bench_externals
                parse_decimal_unsigned ltac:(simpl; lia) (replicate 24 0) 0
                "3,1,2,1" ltac:(discriminate) ltac:(simpl; lia)) as H.
  cbv zeta in H. fold r in H.
  destruct r as [[rc bank'] len'].
  destruct H as [Hgood _].
  destruct Hgood as (Hrc & Hsorted & _).
  { replace (tokens _ _ _) with ["3"; "1"; "2"; "1"]%string
      by (vm_compute; reflexivity).
    repeat (constructor; [eexists; split; reflexivity|]). constructor. }
  split; assumption.
Defined.
End PcrBankFacts.

(** ** The PCR selection as a whole *)

Module PcrTableFacts.
Import Cli CliNotions.

Section Facts.
Variable X : externals.

Lemma parse_pcr_bank_in_bounds bank len pcr_list :
  length bank = TPM2_MAX_PCRS X ->
  0 <= len <= Z.of_nat (TPM2_MAX_PCRS X) ->
  let '(rc, bank', len') :=
    charra_cli_verifier_parse_pcr_bank X bank len pcr_list in
  (rc = 0 \/ rc = -1)
  /\ length bank' = TPM2_MAX_PCRS X
  /\ 0 <= len' <= Z.of_nat (TPM2_MAX_PCRS X).
Proof.
  intros Hbank Hlen. unfold charra_cli_verifier_parse_pcr_bank.
  destruct (String.eqb pcr_list "all").
  - rewrite PcrSelectionFacts.fill_with_true by lia.
    rewrite <- Hbank at 2. rewrite drop_all, app_nil_r, length_replicate.
    split; [left; reflexivity|]. split; [reflexivity | lia].
  - destruct (fill_hash_set X _ pcr_list _) as [[rc hash_set]|];
      [|split; [right; reflexivity | split; assumption]].
    destruct rc; try (split; [right; reflexivity | split; assumption]).
    pose proof (PcrSelectionFacts.add_sorted_prefix hash_set bank
                  (TPM2_MAX_PCRS X) ltac:(lia)) as Hp.
    fold (add_sorted X hash_set bank) in Hp.
    destruct (add_sorted X hash_set bank) as [b l].
    destruct Hp as (Hl & Hb & _).
    split; [left; reflexivity|]. split; [congruence | exact Hl].
Qed.

Lemma parse_pcr_selection_in_bounds fuel next_token variables rc variables' :
  charra_cli_verifier_parse_pcr_selection X fuel next_token variables
  = Some (rc, variables') ->
  selection_in_bounds X (verifier_config variables) ->
  (rc = 0 \/ rc = -1)
  /\ selection_in_bounds X (verifier_config variables').
Proof.
  revert next_token variables.
  induction fuel as [|fuel IH]; intros next_token variables; simpl;
    [discriminate|].
  destruct (charra_cli_verifier_strtok next_token "+") as [[tok rest]|];
    [|intros [= <- <-] H; split; [left; reflexivity | exact H]].
  destruct (charra_cli_verifier_strtok tok ":") as [[name pcr_list]|];
    [|intros [= <- <-] H; split; [right; reflexivity | exact H]].
  set (bank := charra_cli_verifier_parse_pcr_bank_to_index name).
  destruct (Z.ltb_spec bank 0) as [Hneg|Hpos]; simpl;
    [intros [= <- <-] H; split; [right; reflexivity | exact H]|].
  destruct (Z.leb_spec (Z.of_nat (TPM2_PCR_BANK_COUNT X)) bank)
    as [Hge|Hlt];
    [intros [= <- <-] H; split; [right; reflexivity | exact H]|].
  intros Hrun (Hsel & Hlens & Hrows & Hlen).
  assert (Hrow : length (tpm_pcr_selection (verifier_config variables)
                           !!! Z.to_nat bank) = TPM2_MAX_PCRS X).
  { destruct (lookup_lt_is_Some_2 (tpm_pcr_selection
                (verifier_config variables)) (Z.to_nat bank)) as [row Hr];
      [lia|].
    rewrite (list_lookup_total_correct _ _ _ Hr).
    rewrite Forall_lookup in Hrows. exact (Hrows _ _ Hr). }
  assert (Hl : 0 <= tpm_pcr_selection_len (verifier_config variables)
                      !!! Z.to_nat bank <= Z.of_nat (TPM2_MAX_PCRS X)).
  { destruct (lookup_lt_is_Some_2 (tpm_pcr_selection_len
                (verifier_config variables)) (Z.to_nat bank)) as [l Hr];
      [lia|].
    rewrite (list_lookup_total_correct _ _ _ Hr).
    rewrite Forall_lookup in Hlen. exact (Hlen _ _ Hr). }
  pose proof (parse_pcr_bank_in_bounds _ _ pcr_list Hrow Hl) as Hbank.
  destruct (charra_cli_verifier_parse_pcr_bank X _ _ pcr_list)
    as [[rc' row'] len'].
  destruct Hbank as (Hrc & Hrow' & Hlen').
  assert (Hnew : selection_in_bounds X
            (verifier_config
               (set_tpm_pcr_selection
                  (<[Z.to_nat bank := row']>
                     (tpm_pcr_selection (verifier_config variables)))
                  (<[Z.to_nat bank := len']>
                     (tpm_pcr_selection_len (verifier_config variables)))
                  variables))).
  { unfold selection_in_bounds. simpl. rewrite !length_insert.
    split; [exact Hsel|]. split; [exact Hlens|].
    split; apply Forall_insert; assumption. }
  destruct (rc' =? 0).
  - eapply IH; eassumption.
  - injection Hrun as <- <-. split; [right; reflexivity | exact Hnew].
Qed.

Lemma set_tpm_pcr_selection_same variables :
  set_tpm_pcr_selection (tpm_pcr_selection (verifier_config variables))
    (tpm_pcr_selection_len (verifier_config variables)) variables
  = variables.
Proof. destruct variables as [c []]. reflexivity. Qed.

Lemma parse_pcr_selection_frame fuel next_token variables rc variables' :
  charra_cli_verifier_parse_pcr_selection X fuel next_token variables
  = Some (rc, variables') ->
  exists sel len, variables' = set_tpm_pcr_selection sel len variables.
Proof.
  revert next_token variables.
  induction fuel as [|fuel IH]; intros next_token variables; simpl;
    [discriminate|].
  assert (Hsame : exists sel len,
            variables = set_tpm_pcr_selection sel len variables).
  { eexists _, _. symmetry. apply set_tpm_pcr_selection_same. }
  destruct (charra_cli_verifier_strtok next_token "+") as [[tok rest]|];
    [|intros [= <- <-]; exact Hsame].
  destruct (charra_cli_verifier_strtok tok ":") as [[name pcr_list]|];
    [|intros [= <- <-]; exact Hsame].
  destruct (_ || _); [intros [= <- <-]; exact Hsame|].
  destruct (charra_cli_verifier_parse_pcr_bank X _ _ pcr_list)
    as [[rc' row'] len'].
  destruct (rc' =? 0).
  - intros Hrun. apply IH in Hrun. destruct Hrun as (sel & len & ->).
    eexists _, _. reflexivity.
  - intros [= <- <-]. eexists _, _. reflexivity.
Qed.

(** A bank that no entry of the argument names is not written. *)
Lemma parse_pcr_selection_other_banks
    fuel next_token variables rc variables' (b : nat) :
  charra_cli_verifier_parse_pcr_selection X fuel next_token variables
  = Some (rc, variables') ->
  (forall bank_token bank_name pcr_list,
     In bank_token (tokens fuel next_token "+") ->
     charra_cli_verifier_strtok bank_token ":" = Some (bank_name, pcr_list) ->
     charra_cli_verifier_parse_pcr_bank_to_index bank_name <> Z.of_nat b) ->
  tpm_pcr_selection (verifier_config variables') !! b
  = tpm_pcr_selection (verifier_config variables) !! b
  /\ tpm_pcr_selection_len (verifier_config variables') !! b
     = tpm_pcr_selection_len (verifier_config variables) !! b.
Proof.
  revert next_token variables.
  induction fuel as [|fuel IH]; intros next_token variables; simpl;
    [discriminate|].
  destruct (charra_cli_verifier_strtok next_token "+") as [[tok rest]|];
    [|intros [= <- <-] _; split; reflexivity].
  destruct (charra_cli_verifier_strtok tok ":") as [[name pcr_list]|] eqn:Htok;
    [|intros [= <- <-] _; split; reflexivity].
  set (bank := charra_cli_verifier_parse_pcr_bank_to_index name).
  destruct (Z.ltb_spec bank 0) as [Hneg|Hpos]; simpl;
    [intros [= <- <-] _; split; reflexivity|].
  destruct (_ <=? _); [intros [= <- <-] _; split; reflexivity|].
  destruct (charra_cli_verifier_parse_pcr_bank X _ _ pcr_list)
    as [[rc' row'] len'].
  intros Hrun Hother.
  assert (Hne : Z.to_nat bank <> b).
  { specialize (Hother tok name pcr_list (or_introl eq_refl) Htok).
    fold bank in Hother. lia. }
  assert (Hstep :
    tpm_pcr_selection (verifier_config
      (set_tpm_pcr_selection
         (<[Z.to_nat bank := row']>
            (tpm_pcr_selection (verifier_config variables)))
         (<[Z.to_nat bank := len']>
            (tpm_pcr_selection_len (verifier_config variables)))
         variables)) !! b
    = tpm_pcr_selection (verifier_config variables) !! b
    /\ tpm_pcr_selection_len (verifier_config
         (set_tpm_pcr_selection
            (<[Z.to_nat bank := row']>
               (tpm_pcr_selection (verifier_config variables)))
            (<[Z.to_nat bank := len']>
               (tpm_pcr_selection_len (verifier_config variables)))
            variables)) !! b
       = tpm_pcr_selection_len (verifier_config variables) !! b).
  { simpl. split; apply list_lookup_insert_ne; exact Hne. }
  destruct (rc' =? 0).
  - apply IH in Hrun.
    + destruct Hrun as [-> ->]. exact Hstep.
    + intros t n l Hin. apply Hother. right. exact Hin.
  - injection Hrun as <- <-. exact Hstep.
Qed.


(** X5: a bank that no entry of the argument names ends up empty.
    [--pcr-selection] first clears the whole table, the default selection
    of the sha256 bank included, and then writes only the banks its
    entries name: for any other bank the length is 0 and the row is all
    zeros. *)
Theorem pcr_selection_clears_unnamed_banks optarg variables (b : nat)
    (Hbank : (b < TPM2_PCR_BANK_COUNT X)%nat)
    (Hunnamed : forall bank_token bank_name pcr_list,
       In bank_token (tokens (S (String.length optarg)) optarg "+") ->
       charra_cli_verifier_strtok bank_token ":"
       = Some (bank_name, pcr_list) ->
       charra_cli_verifier_parse_pcr_bank_to_index bank_name
       <> Z.of_nat b) :
  let r := charra_cli_verifier_pcr_selection X optarg variables in
  tpm_pcr_selection (verifier_config r.2) !! b
  = Some (replicate (TPM2_MAX_PCRS X) 0)
  /\ tpm_pcr_selection_len (verifier_config r.2) !! b = Some 0
  /\ pcr_indices r.2 b = [].
Proof.
  unfold charra_cli_verifier_pcr_selection.
  set (cleared := set_tpm_pcr_selection _ _ variables).
  destruct (PcrSelectionFacts.parse_pcr_selection_total X
              (S (String.length optarg)) optarg cleared)
    as [[rc variables'] Hrun]; [lia|].
  rewrite Hrun.
  destruct (parse_pcr_selection_other_banks _ _ _ _ _ b Hrun Hunnamed)
    as [Hsel Hlen].
  simpl in Hsel, Hlen.
  rewrite lookup_replicate_2 in Hsel by exact Hbank.
  rewrite lookup_replicate_2 in Hlen by exact Hbank.
  assert (Hgoal :
    tpm_pcr_selection (verifier_config variables') !! b
    = Some (replicate (TPM2_MAX_PCRS X) 0)
    /\ tpm_pcr_selection_len (verifier_config variables') !! b = Some 0
    /\ pcr_indices variables' b = []).
  { split; [exact Hsel|]. split; [exact Hlen|].
    unfold pcr_indices.
    rewrite (list_lookup_total_correct _ _ _ Hlen). reflexivity. }
  destruct rc; exact Hgoal.
Qed.
End Facts.

(** On the test bench: after [--pcr-selection=sha1:1,2] the sha256 bank,
    which held the default 0 to 7 and 10, is empty. *)
Lemma pcr_selection_clears_unnamed_banks_witness :
  pcr_indices CliBench.bench_config 1 = [0; 1; 2; 3; 4; 5; 6; 7; 10]
  /\ pcr_indices
       (charra_cli_verifier_pcr_selection CliBench.bench_externals
          "sha1:1,2" CliBench.bench_config).2 1
     = [].
Proof.
  split; [reflexivity|].
  refine (proj2 (proj2
    (pcr_selection_clears_unnamed_banks CliBench.bench_externals
       "sha1:1,2" CliBench.bench_config 1 _ _))).
  - simpl. lia.
  - replace (tokens _ _ _) with ["sha1:1,2"]%string
      by (vm_compute; reflexivity).
    intros bank_token bank_name pcr_list [<-|[]] [= <- _]. discriminate.
Defined.
End PcrTableFacts.

(** ** The options with a single value *)

Module OptionFacts.
Import Cli CliNotions.

Lemma skip_delimiters_spec s delim :
  match skip_delimiters s delim with
  | EmptyString => True
  | String c _ => is_delimiter delim c = false
  end.
Proof.
  induction s as [|c s IH]; simpl; [exact I|].
  destruct (is_delimiter delim c) eqn:Hc; [exact IH | exact Hc].
Qed.

(** A token of the C library's [strtok] is not empty and holds no
    delimiter. *)
Lemma strtok_token s delim tok rest :
  strtok s delim = Some (tok, rest) ->
  tok <> EmptyString
  /\ Forall (fun c => is_delimiter delim c = false) (characters tok).
Proof.
  unfold strtok.
  pose proof (skip_delimiters_spec s delim) as Hskip.
  destruct (skip_delimiters s delim) as [|c s']; [discriminate|].
  pose proof (StrtokFacts.strcspn_split_spec (String c s') delim) as Hspec.
  simpl in Hspec |- *. rewrite Hskip in Hspec |- *.
  destruct (strcspn_split s' delim) as [tok' tl].
  intros [= <- <-]. destruct Hspec as (_ & Hall & _).
  split; [discriminate | exact Hall].
Qed.

Lemma strcspn_split_app a b delim :
  Forall (fun c => is_delimiter delim c = false) (characters a) ->
  match b with
  | EmptyString => True
  | String d _ => is_delimiter delim d = true
  end ->
  strcspn_split (String.append a b) delim = (a, b).
Proof.
  induction a as [|c a IH]; intros Hall Hb.
  - destruct b as [|d b]; [reflexivity|]. simpl. rewrite Hb. reflexivity.
  - inversion Hall as [|? ? Hc Hall']; subst.
    rewrite TokensFacts.append_cons. simpl. rewrite Hc.
    rewrite IH by assumption. reflexivity.
Qed.

Lemma strtok_app tok rest delim :
  tok <> EmptyString ->
  Forall (fun c => is_delimiter delim c = false) (characters tok) ->
  match rest with
  | EmptyString => True
  | String d _ => is_delimiter delim d = true
  end ->
  strtok (String.append tok rest) delim
  = Some (tok, match rest with
               | EmptyString => rest
               | String _ rest' => rest'
               end).
Proof.
  intros Hne Hall Hrest.
  pose proof (strcspn_split_app tok rest delim Hall Hrest) as Hsplit.
  destruct tok as [|c tok]; [contradiction|].
  inversion Hall as [|? ? Hc _]; subst.
  unfold strtok. rewrite TokensFacts.append_cons in Hsplit |- *.
  cbn [skip_delimiters]. rewrite Hc, Hsplit. reflexivity.
Qed.

Lemma strtok_yaml s : strtok (String.append "yaml:" s) ":" = Some ("yaml", s).
Proof. reflexivity. Qed.

Section Facts.
Variable X : externals.

(** X6: [--pcr-file] takes [yaml:PATH] for an existing file and stores
    the path up to its first colon.  If the handler returns 0, the
    stored path is not empty, holds no colon and names a file that
    exists; if it does not, it returns -1 and the configuration is
    untouched.  For an argument [yaml:PATH] or [yaml:PATH:...], where
    PATH is not empty and holds no colon, the handler accepts exactly
    when the file PATH exists, and then stores PATH: what follows a
    second colon is dropped. *)
Theorem pcr_file_stores_the_path_up_to_a_colon optarg variables :
  let r := charra_cli_verifier_pcr_file X optarg variables in
  let colon_free path :=
    Forall (fun c => is_delimiter ":" c = false) (characters path) in
  (r.1 = 0 ->
   exists path,
     r.2 = set_reference_pcr_file_path (Some path) variables
     /\ path <> EmptyString
     /\ colon_free path
     /\ charra_io_file_exists X path = CHARRA_RC_SUCCESS)
  /\ (r.1 <> 0 -> r = (-1, variables))
  /\ (forall path rest,
        optarg = String.append "yaml:" (String.append path rest) ->
        path <> EmptyString ->
        colon_free path ->
        rest = EmptyString
        \/ (exists rest', rest = String.append ":" rest') ->
        r = if bool_decide (charra_io_file_exists X path = CHARRA_RC_SUCCESS)
            then (0, set_reference_pcr_file_path (Some path) variables)
            else (-1, variables)).
Proof.
  cbv zeta. split; [|split].
  - unfold charra_cli_verifier_pcr_file.
    destruct (strtok optarg ":") as [[format rest]|]; [|discriminate].
    destruct (strtok rest ":") as [[path rest']|] eqn:Hpath; [|discriminate].
    destruct (negb _); [discriminate|].
    case_bool_decide as Hexists; [|discriminate].
    intros _. exists path. apply strtok_token in Hpath.
    destruct Hpath as [Hne Hall].
    split; [reflexivity|]. split; [exact Hne|].
    split; [exact Hall | exact Hexists].
  - unfold charra_cli_verifier_pcr_file.
    repeat case_match; simpl; intros Hrc; try reflexivity; contradiction.
  - intros path rest -> Hne Hcolon Hrest.
    unfold charra_cli_verifier_pcr_file.
    rewrite strtok_yaml, strtok_app;
      [reflexivity | exact Hne | exact Hcolon |].
    destruct Hrest as [->|[rest' ->]]; [exact I | reflexivity].
Qed.
End Facts.
End OptionFacts.

(** ** The PCR logs to request *)

Module PcrLogFacts.
Import Cli CliNotions.

Local Abbreviation known_format l :=
  (identifier l = Some "ima" \/ identifier l = Some "tcg-boot").

Lemma check_pcr_log_format_spec format :
  charra_check_pcr_log_format format = 0
  <-> format = "ima" \/ format = "tcg-boot".
Proof.
  unfold charra_check_pcr_log_format.
  destruct (String.eqb_spec format "ima") as [->|Hi];
    [split; [left; reflexivity | reflexivity]|].
  destruct (String.eqb_spec format "tcg-boot") as [->|Ht];
    [split; [right; reflexivity | reflexivity]|].
  simpl. split; [discriminate | intros [?|?]; contradiction].
Qed.

(** Neither format is the beginning of the other. *)
Lemma prefix_of_known_format format known :
  format = "ima" \/ format = "tcg-boot" ->
  Some known = Some "ima" \/ Some known = Some "tcg-boot" ->
  String.prefix format known = true <-> format = known.
Proof.
  intros [->| ->] [[= ->]|[= ->]]; split; intros H;
    first [reflexivity | discriminate].
Qed.

Lemma calculate_index_spec used unused format index :
  Forall (fun l => known_format l) used ->
  Forall (fun l => identifier l = None) unused ->
  format = "ima" \/ format = "tcg-boot" ->
  let '(found, grown) :=
    charra_calculate_index_and_update_length (used ++ unused) format index
  in
  (exists i l,
     used !! i = Some l /\ identifier l = Some format
     /\ found = (index + i)%nat /\ grown = false)
  \/ (~ In (Some format) (map identifier used)
      /\ found = (index + length used)%nat
      /\ grown = match unused with [] => false | _ => true end).
Proof.
  intros Hused Hunused Hformat. revert index.
  induction Hused as [|l used Hl Hused IH]; intros index; simpl.
  - destruct Hunused as [|u unused Hu _]; simpl; [|rewrite Hu]; right;
      (split; [intros []|]); (split; [lia | reflexivity]).
  - destruct (identifier l) as [known|] eqn:Hid;
      [|destruct Hl; discriminate].
    pose proof (prefix_of_known_format format known Hformat Hl) as Hprefix.
    destruct (String.prefix format known) eqn:Hp.
    + left. exists O, l. simpl. split; [reflexivity|].
      split; [|split; [lia | reflexivity]].
      rewrite Hid. f_equal. symmetry. apply Hprefix. reflexivity.
    + specialize (IH (S index)).
      destruct (charra_calculate_index_and_update_length _ _ _)
        as [found grown].
      destruct IH as [(i & l' & Hi & Hl' & -> & ->)|(Hnot & -> & ->)].
      * left. exists (S i), l'. simpl.
        split; [exact Hi|]. split; [exact Hl'|]. split; [lia | reflexivity].
      * right. split; [|split; [lia | reflexivity]].
        intros [Heq|Hin]; [|contradiction].
        injection Heq as ->.
        assert (false = true) by (apply Hprefix; reflexivity).
        discriminate.
Qed.

(** Entries for two formats, no two for the same: at most one is for a
    format other than a given one. *)
Lemma at_most_one_other used format :
  Forall (fun l => known_format l) used ->
  NoDup (map identifier used) ->
  format = "ima" \/ format = "tcg-boot" ->
  ~ In (Some format) (map identifier used) ->
  (length used <= 1)%nat.
Proof.
  intros Hused Hnodup Hformat Hnot.
  destruct used as [|a [|b used]]; simpl; try lia.
  exfalso.
  inversion Hused as [|? ? Ha Hused']; subst.
  inversion Hused' as [|? ? Hb _]; subst.
  simpl in Hnodup, Hnot.
  inversion Hnodup as [|? ? Hab _]; subst.
  apply Hab. rewrite list_elem_of_In. left.
  destruct Hformat as [->| ->], Ha as [Ha|Ha], Hb as [Hb|Hb];
    rewrite Ha, Hb in *; first [reflexivity | exfalso; apply Hnot; auto].
Qed.

Section Facts.
Variable X : externals.
Hypothesis two_formats : (2 <= SUPPORTED_PCR_LOGS_COUNT X)%nat.

Lemma pcr_log_spec optarg variables :
  pcr_logs_well_formed X (verifier_config variables) ->
  let r := charra_cli_verifier_pcr_log X optarg variables in
  (r.1 <> 0 /\ r = (-1, variables))
  \/ (r.1 = 0
      /\ pcr_logs_well_formed X (verifier_config r.2)
      /\ exists format value start count index,
           charra_cli_util_common_split_option_string X optarg
           = Some (format, value)
           /\ (format = "ima" \/ format = "tcg-boot")
           /\ charra_parse_pcr_log_start_count X value = Some (start, count)
           /\ (Z.of_nat index < pcr_log_len (verifier_config r.2))
           /\ pcr_logs (verifier_config r.2) !! index
              = Some {| identifier := Some format;
                        start := start; count := count |}
           /\ r.2 = set_pcr_logs (pcr_log_len (verifier_config r.2))
                      (<[index := {| identifier := Some format;
                                     start := start; count := count |}]>
                         (pcr_logs (verifier_config variables)))
                      variables
           /\ ((exists l,
                  pcr_logs (verifier_config variables) !! index = Some l
                  /\ identifier l = Some format)
               /\ pcr_log_len (verifier_config r.2)
                  = pcr_log_len (verifier_config variables)
               \/ Forall (fun l => identifier l <> Some format)
                    (pcr_logs (verifier_config variables))
                  /\ Z.of_nat index
                     = pcr_log_len (verifier_config variables)
                  /\ (exists l,
                        pcr_logs (verifier_config variables) !! index
                        = Some l
                        /\ identifier l = None)
                  /\ pcr_log_len (verifier_config r.2)
                     = pcr_log_len (verifier_config variables) + 1)).
Proof.
  intros (used & unused & Hlogs & Hlen & Hcount & Hused & Hnodup & Hunused).
  cbv zeta. unfold charra_cli_verifier_pcr_log.
  destruct (charra_cli_util_common_split_option_string X optarg)
    as [[format value]|]; [|left; split; [discriminate | reflexivity]].
  destruct (charra_parse_pcr_log_start_count X value) as [[start count]|]
    eqn:Hparse; [|left; split; [discriminate | reflexivity]].
  destruct (Z.eqb_spec (charra_check_pcr_log_format format) 0) as [Hf|Hf];
    [|left; split; [discriminate | reflexivity]].
  apply check_pcr_log_format_spec in Hf.
  pose proof (calculate_index_spec used unused format 0 Hused Hunused Hf)
    as Hcalc.
  rewrite Hlogs.
  destruct (charra_calculate_index_and_update_length (used ++ unused)
              format 0) as [found grown].
  set (entry := {| identifier := Some format;
                   start := start; count := count |}).
  assert (Htotal : (length used + length unused
                    = SUPPORTED_PCR_LOGS_COUNT X)%nat).
  { rewrite <- Hlen, Hlogs, length_app. reflexivity. }
  destruct Hcalc as [(i & l & Hi & Hl & -> & ->)|(Hnot & -> & ->)].
  - (* the format has an entry: it is overridden *)
    pose proof (lookup_lt_Some _ _ _ Hi) as Hlt.
    destruct (Nat.leb_spec (SUPPORTED_PCR_LOGS_COUNT X) (0 + i)); [lia|].
    right. split; [reflexivity|]. simpl. split.
    + exists (<[i := entry]> used), unused.
      rewrite insert_app_l by exact Hlt.
      simpl. rewrite length_app, !length_insert.
      split; [reflexivity|]. split; [exact Htotal|].
      split; [exact Hcount|].
      split; [apply Forall_insert; [exact Hused|]; destruct Hf as [->| ->];
              [left | right]; reflexivity|].
      split; [|exact Hunused].
      replace (map identifier (<[i := entry]> used))
        with (map identifier used); [exact Hnodup|].
      rewrite list_fmap_insert. symmetry. apply list_insert_id.
      rewrite list_lookup_fmap, Hi. simpl. f_equal. exact Hl.
    + exists format, value, start, count, i.
      split; [reflexivity|]. split; [exact Hf|]. split; [exact Hparse|].
      split; [lia|].
      split; [apply list_lookup_insert_eq; rewrite length_app; lia|].
      split; [reflexivity|].
      left. split; [|reflexivity].
      exists l. split; [|exact Hl].
      apply lookup_app_l_Some. exact Hi.
  - (* the format is new *)
    pose proof (at_most_one_other used format Hused Hnodup Hf Hnot) as Hone.
    destruct unused as [|u unused]; [simpl in Htotal; lia|].
    simpl in Htotal.
    destruct (Nat.leb_spec (SUPPORTED_PCR_LOGS_COUNT X) (0 + length used));
      [lia|].
    right. split; [reflexivity|]. simpl. split.
    + exists (used ++ [entry]), unused.
      rewrite insert_app_r_alt by lia.
      rewrite Nat.sub_diag. simpl.
      rewrite <- app_assoc. simpl.
      rewrite !length_app. simpl.
      split; [reflexivity|]. split; [lia|]. split; [lia|].
      split; [apply Forall_app; split; [exact Hused|];
              constructor; [|constructor]; destruct Hf as [->| ->];
              [left | right]; reflexivity|].
      split; [|inversion Hunused; assumption].
      rewrite map_app. simpl. apply list.NoDup_app. split; [exact Hnodup|].
      split; [|apply NoDup_singleton].
      intros x Hx Hx'. apply list_elem_of_In in Hx.
      apply list_elem_of_singleton in Hx'. subst x. contradiction.
    + exists format, value, start, count, (length used).
      split; [reflexivity|]. split; [exact Hf|]. split; [exact Hparse|].
      split; [lia|].
      split; [apply list_lookup_insert_eq; rewrite length_app; simpl; lia|].
      split; [reflexivity|].
      right. split; [|split; [lia|split; [|lia]]].
      * apply Forall_app. split.
        -- rewrite List.Forall_forall. intros l Hin Hl. apply Hnot.
           rewrite <- Hl. apply in_map. exact Hin.
        -- eapply List.Forall_impl; [|exact Hunused].
           intros l Hl. simpl in Hl. rewrite Hl. discriminate.
      * exists u. split.
        -- rewrite lookup_app_r by lia. rewrite Nat.sub_diag. reflexivity.
        -- inversion Hunused; assumption.
Qed.

(** X7: [--pcr-log] keeps the table of the PCR logs well formed and
    never runs past its end.  From a well-formed table with room for
    the two formats the handler either returns -1 and leaves the
    configuration untouched, or returns 0: then the argument was
    [FORMAT:START,COUNT] with FORMAT ima or tcg-boot, and START and
    COUNT were written to the entry for that format and nowhere else.
    That entry is the one the table had for the format, and
    [pcr_log_len] is unchanged; or, when the table had none, the first
    free entry, the one at [pcr_log_len], and [pcr_log_len] grows by
    one.  The table is well formed again. *)
Theorem pcr_log_overrides_or_appends optarg variables
    (Hwf : pcr_logs_well_formed X (verifier_config variables)) :
  let r := charra_cli_verifier_pcr_log X optarg variables in
  (r.1 <> 0 -> r = (-1, variables))
  /\ (r.1 = 0 ->
      pcr_logs_well_formed X (verifier_config r.2)
      /\ exists format value start count index,
           charra_cli_util_common_split_option_string X optarg
           = Some (format, value)
           /\ (format = "ima" \/ format = "tcg-boot")
           /\ charra_parse_pcr_log_start_count X value = Some (start, count)
           /\ (Z.of_nat index < pcr_log_len (verifier_config r.2))
           /\ pcr_logs (verifier_config r.2) !! index
              = Some {| identifier := Some format;
                        start := start; count := count |}
           /\ r.2 = set_pcr_logs (pcr_log_len (verifier_config r.2))
                      (<[index := {| identifier := Some format;
                                     start := start; count := count |}]>
                         (pcr_logs (verifier_config variables)))
                      variables
           /\ ((exists l,
                  pcr_logs (verifier_config variables) !! index = Some l
                  /\ identifier l = Some format)
               /\ pcr_log_len (verifier_config r.2)
                  = pcr_log_len (verifier_config variables)
               \/ Forall (fun l => identifier l <> Some format)
                    (pcr_logs (verifier_config variables))
                  /\ Z.of_nat index
                     = pcr_log_len (verifier_config variables)
                  /\ (exists l,
                        pcr_logs (verifier_config variables) !! index
                        = Some l
                        /\ identifier l = None)
                  /\ pcr_log_len (verifier_config r.2)
                     = pcr_log_len (verifier_config variables) + 1)).
Proof.
  cbv zeta.
  destruct (pcr_log_spec optarg variables Hwf) as [[Hrc Hr]|[Hrc Hr]].
  - split; [intros _; exact Hr | intros H; contradiction].
  - split; [intros H; contradiction | intros _; exact Hr].
Qed.
End Facts.

Lemma bench_pcr_logs_well_formed :
  pcr_logs_well_formed CliBench.bench_externals
    (verifier_config CliBench.bench_config).
Proof.
  exists [], (pcr_logs (verifier_config CliBench.bench_config)).
  split; [reflexivity|]. split; [reflexivity|]. split; [reflexivity|].
  split; [constructor|]. split; [constructor|].
  repeat constructor.
Qed.

(** On the test bench: [--pcr-log=ima:1,5] on the initial configuration
    is accepted and appends: the table had no entry for ima, and
    [pcr_log_len] grows from 0 to 1. *)
Lemma pcr_log_overrides_or_appends_witness :
  let r :=
    charra_cli_verifier_pcr_log CliBench.bench_externals "ima:1,5"
      CliBench.bench_config in
  r.1 = 0
  /\ pcr_logs_well_formed CliBench.bench_externals (verifier_config r.2)
  /\ pcr_log_len (verifier_config r.2) = 1.
Proof.
  intros r.
  pose proof (pcr_log_overrides_or_appends CliBench.bench_externals
                ltac:(simpl; lia) "ima:1,5" CliBench.bench_config
                bench_pcr_logs_well_formed) as [_ Hok].
  split; [reflexivity|].
  destruct (Hok eq_refl) as [Hwf _].
  split; [exact Hwf | reflexivity].
Defined.

(** A second option for another format is appended after the first, and
    a third for the first format overrides its entry. *)
Example pcr_log_appends_then_overrides :
  let X := CliBench.bench_externals in
  let after args :=
    foldl (fun variables arg => (charra_cli_verifier_pcr_log X arg variables).2)
      CliBench.bench_config args in
  let logs args := pcr_logs (verifier_config (after args)) in
  logs ["tcg-boot:2,3"; "ima:1,5"]
  = [ {| identifier := Some "tcg-boot"; start := 2; count := 3 |};
      {| identifier := Some "ima"; start := 1; count := 5 |} ]
  /\ logs ["tcg-boot:2,3"; "ima:1,5"; "tcg-boot:7,0"]
     = [ {| identifier := Some "tcg-boot"; start := 7; count := 0 |};
         {| identifier := Some "ima"; start := 1; count := 5 |} ]
  /\ pcr_log_len
       (verifier_config (after ["tcg-boot:2,3"; "ima:1,5"; "tcg-boot:7,0"]))
     = 2.
Proof. vm_compute. repeat split. Qed.
End PcrLogFacts.

(** ** The configuration after the command line *)

Module ConfigFacts.
Import Cli CliNotions.

(** The configuration [main] starts from is well formed when there are
    four banks and at least nine PCRs. *)
Lemma initial_config_well_formed X charra_log_info coap_log_info :
  TPM2_PCR_BANK_COUNT X = 4%nat -> (9 <= TPM2_MAX_PCRS X)%nat ->
  config_well_formed X (Main.initial_config X charra_log_info coap_log_info).
Proof.
  intros Hbanks Hmax.
  split; [simpl; lia|]. split; [simpl; lia|]. split; [exact I|].
  split.
  - unfold selection_in_bounds. simpl. rewrite Hbanks.
    split; [reflexivity|]. split; [reflexivity|]. split.
    + repeat (constructor; [simpl; rewrite ?length_replicate; lia|]).
      constructor.
    + repeat (constructor; [lia|]). constructor.
  - exists [], (replicate (SUPPORTED_PCR_LOGS_COUNT X)
                  {| identifier := None; start := 0; count := 0 |}).
    split; [reflexivity|]. split; [apply length_replicate|].
    split; [reflexivity|]. split; [constructor|]. split; [constructor|].
    apply Forall_replicate. reflexivity.
Qed.

Section Facts.
Variable X : externals.
Hypothesis two_formats : (2 <= SUPPORTED_PCR_LOGS_COUNT X)%nat.
(** The parser of the common options is not among the sources; it is
    taken to keep a well-formed configuration well formed. *)
Hypothesis common_keeps_well_formed : forall identifier arg variables,
  config_well_formed X variables ->
  config_well_formed X
    (charra_cli_util_common_parse_command_line_argument X identifier arg
       variables).2.

Lemma parse_option_keeps_well_formed o variables :
  config_well_formed X variables ->
  (parse_option X o variables).1 = 0 ->
  config_well_formed X (parse_option X o variables).2.
Proof.
  intros Hwf. pose proof Hwf as (Htimeout & Hhost & Hhash & Hsel & Hlogs).
  unfold parse_option. destruct (opt_case o).
  - destruct (PcrLogFacts.pcr_log_spec X two_formats (optarg o) variables
                Hlogs) as [[Hrc _]|(_ & Hlogs' & Hr)];
      [intros; contradiction|].
    intros _.
    destruct Hr as (? & ? & ? & ? & ? & _ & _ & _ & _ & _ & Hr & _).
    split; [|split; [|split; [|split; [|exact Hlogs']]]];
      rewrite Hr; assumption.
  - intros _. exact Hwf.
  - unfold charra_cli_verifier_ip.
    destruct (Nat.ltb_spec 15 (String.length (optarg o)));
      [discriminate|].
    intros _. split; [exact Htimeout|]. split; [simpl; lia|].
    split; [exact Hhash|]. split; [exact Hsel | exact Hlogs].
  - unfold charra_cli_verifier_timeout.
    destruct (strtoul X (optarg o)) as [value consumed]. simpl.
    destruct (Z.eqb_spec (uint16 value) 0); [discriminate|].
    destruct (consumed =? 0)%nat; [discriminate|].
    intros _. split.
    + simpl. pose proof (MainFacts.uint16_range value). lia.
    + split; [exact Hhost|]. split; [exact Hhash|].
      split; [exact Hsel | exact Hlogs].
  - unfold charra_cli_verifier_attestation_public_key.
    case_bool_decide; [discriminate|]. intros _. exact Hwf.
  - unfold charra_cli_verifier_pcr_file.
    repeat case_match; try discriminate; intros _; exact Hwf.
  - unfold charra_cli_verifier_pcr_selection.
    set (cleared := set_tpm_pcr_selection _ _ variables).
    assert (Hcleared : selection_in_bounds X (verifier_config cleared)).
    { unfold selection_in_bounds. simpl. rewrite !length_replicate.
      split; [reflexivity|]. split; [reflexivity|].
      split; apply Forall_replicate; [apply length_replicate | lia]. }
    destruct (charra_cli_verifier_parse_pcr_selection X _ _ cleared)
      as [[rc variables']|] eqn:Hrun; [|discriminate].
    destruct (PcrTableFacts.parse_pcr_selection_in_bounds X _ _ _ _ _
                Hrun Hcleared) as [_ Hshape].
    destruct (PcrTableFacts.parse_pcr_selection_frame X _ _ _ _ _ Hrun)
      as (sel & len & ->).
    destruct rc; try discriminate. intros _.
    split; [exact Htimeout|]. split; [exact Hhost|].
    split; [exact Hhash|]. split; [exact Hshape | exact Hlogs].
  - unfold charra_cli_verifier_hash_algorithm.
    repeat case_match; try discriminate; intros _;
      (split; [exact Htimeout|]); (split; [exact Hhost|]);
      (split; [exact I|]); (split; [exact Hsel | exact Hlogs]).
  - intros _. apply common_keeps_well_formed. exact Hwf.
Qed.

(** X8: a command line that is accepted leaves a well-formed
    configuration.  When the parser returns 0 on a well-formed
    configuration (such as the one [main] starts from when there are four
    banks and at least nine PCRs), the one it leaves is well formed: the
    timeout is between 1 and 65535, the host has at most 15 characters,
    the mbedTLS and TPM hash identifiers name the same hash, the PCR
    selection and the PCR logs are within their tables. *)
Theorem accepted_command_line_is_well_formed :
  (forall charra_log_info coap_log_info,
     TPM2_PCR_BANK_COUNT X = 4%nat -> (9 <= TPM2_MAX_PCRS X)%nat ->
     config_well_formed X (Main.initial_config X charra_log_info coap_log_info))
  /\ (forall argv variables variables',
        config_well_formed X variables ->
        charra_parse_command_line_verifier_arguments X argv variables
        = (0, variables') ->
        config_well_formed X variables').
Proof.
  split.
  - intros l1 l2 Hbanks Hmax. apply initial_config_well_formed; assumption.
  - induction argv as [|o argv IH]; intros variables variables' Hwf; simpl.
    + intros [= _ <-]. exact Hwf.
    + pose proof (parse_option_keeps_well_formed o variables Hwf) as Hstep.
      destruct (parse_option X o variables) as [rc v]. simpl in Hstep.
      destruct (Z.eqb_spec rc 0) as [->|Hne]; [|congruence].
      apply IH. apply Hstep. reflexivity.
Qed.
End Facts.

(** On the test bench: timeout, host, hash algorithm, PCR selection and a
    PCR log given on the command line, with the two required options. *)
Lemma accepted_command_line_is_well_formed_witness :
  let argv :=
    CliBench.required_options
    ++ [ CliBench.opt CLI_VERIFIER_TIMEOUT "60";
         CliBench.opt CLI_VERIFIER_IP "192.168.100.200";
         CliBench.opt CLI_VERIFIER_HASH_ALGORITHM "sha384";
         CliBench.opt CLI_VERIFIER_PCR_SELECTION "sha256:0,7+sha1:all";
         CliBench.opt CLI_COMMON_PCR_LOG "tcg-boot:1,0" ] in
  let r :=
    charra_parse_command_line_verifier_arguments CliBench.bench_externals
      argv CliBench.bench_config in
  r.1 = 0 /\ config_well_formed CliBench.bench_externals r.2.
Proof.
  intros argv r.
  assert (Hrun : r = (0, r.2)) by (vm_compute; reflexivity).
  split; [exact (f_equal fst Hrun)|].
  destruct (accepted_command_line_is_well_formed CliBench.bench_externals
              ltac:(simpl; lia) (fun _ _ variables Hwf => Hwf))
    as [Hinit Hparse].
  apply (Hparse argv CliBench.bench_config r.2);
    [apply Hinit; simpl; lia | exact Hrun].
Defined.
End ConfigFacts.

(** ** The first option that is not accepted *)

Module ParseLoopFacts.
Import Cli.

Section Facts.
Variable X : externals.

(** X9: the first option whose handler does not return 0 ends the
    parsing.  The parser returns that handler's code with the
    configuration as the handler left it: the options after it are not
    looked at and the required options are not checked.  [main] then
    returns [CHARRA_RC_SUCCESS] if the code (an [int]) is 1, as after
    [--help], and [CHARRA_RC_CLI_ERROR] otherwise. *)
Theorem first_rejected_option_ends_parsing
    pre o post variables variables1 rc variables2
    (Hpre : options_accepted X pre variables = Some variables1)
    (Ho : parse_option X o variables1 = (rc, variables2))
    (Hrc : rc <> 0)
    (Hint : - 2 ^ 31 <= rc < 2 ^ 31) :
  charra_parse_command_line_verifier_arguments X (pre ++ o :: post) variables
  = (rc, variables2)
  /\ Main.main_parse_cli X (pre ++ o :: post) variables
     = (Some (if rc =? 1 then CHARRA_RC_SUCCESS else CHARRA_RC_CLI_ERROR),
        variables2).
Proof.
  assert (Hparse : charra_parse_command_line_verifier_arguments X
                     (pre ++ o :: post) variables = (rc, variables2)).
  { rewrite (CliFacts.parse_after_accepted X _ _ _ _ Hpre). simpl.
    rewrite Ho. destruct (Z.eqb_spec rc 0); [contradiction | reflexivity]. }
  split; [exact Hparse|].
  unfold Main.main_parse_cli. rewrite Hparse. unfold uint32.
  destruct (Z.eqb_spec rc 1) as [->|Hne]; [reflexivity|].
  destruct (Z.eqb_spec (rc mod 4294967296) 0) as [Hz|Hnz].
  - exfalso. apply Z.mod_divide in Hz; [|lia].
    destruct Hz as [k Hk]. lia.
  - simpl. destruct (Z.eqb_spec (rc mod 4294967296) 1) as [Ho'|]; [|reflexivity].
    exfalso.
    destruct (Z.leb_spec 0 rc).
    + rewrite Z.mod_small in Ho' by lia. contradiction.
    + assert (H1 : (rc + 4294967296) mod 4294967296 = rc + 4294967296)
        by (apply Z.mod_small; lia).
      replace (rc + 4294967296) with (rc + 1 * 4294967296) in H1 at 1 by lia.
      rewrite Z.mod_add in H1 by lia. lia.
Qed.
End Facts.

(** On the test bench: [--help] in front of anything, with the required
    options missing, makes [main] return [CHARRA_RC_SUCCESS]. *)
Lemma first_rejected_option_ends_parsing_witness :
  (Main.main_parse_cli CliBench.bench_externals
     [ CliBench.opt (default_case 104) EmptyString;
       CliBench.opt CLI_VERIFIER_HASH_ALGORITHM "md5" ]
     CliBench.bench_config).1
  = Some CHARRA_RC_SUCCESS.
Proof.
  exact (f_equal fst (proj2
    (first_rejected_option_ends_parsing CliBench.bench_externals
       [] (CliBench.opt (default_case 104) EmptyString)
       [CliBench.opt CLI_VERIFIER_HASH_ALGORITHM "md5"]
       CliBench.bench_config CliBench.bench_config 1 CliBench.bench_config
       eq_refl eq_refl ltac:(discriminate) ltac:(lia)))).
Defined.
End ParseLoopFacts.

(** ** The wait loop within the range of its counter *)

Module WaitFacts.
Import Main.

(** X10: as long as the counter cannot wrap around, the wait loop times
    out when it should.  Let the timeout be [T] seconds and let every
    turn in which nothing arrives take between 0 and [M] milliseconds,
    with [T * 1000 + M <= 65536].  Then the loop keeps waiting, with
    [response_wait_time] the time spent so far, while that time is below
    [T * 1000], and returns [CHARRA_RC_TIMEOUT] once it is not. *)
Theorem timeout_fires_within_range T M times t0
    (HT : 0 <= T)
    (Hrange : T * 1000 + M <= 65536)
    (Htimes : Forall (fun ms => 0 <= ms <= M) times)
    (Ht0 : 0 <= t0 < T * 1000) :
  wait_for_response T t0 (map quiet_round times)
  = if T * 1000 <=? t0 + foldr Z.add 0 times
    then Returned CHARRA_RC_TIMEOUT
    else Waiting (t0 + foldr Z.add 0 times).
Proof.
  revert t0 Ht0.
  induction Htimes as [|ms times Hms Htimes IH]; intros t0 Ht0; simpl.
  - rewrite Z.add_0_r. destruct (Z.leb_spec (T * 1000) t0); [lia|].
    reflexivity.
  - destruct (Z.eqb_spec ms (-1)); [lia|].
    assert (Hsum : 0 <= foldr Z.add 0 times).
    { clear -Htimes. induction Htimes; simpl; lia. }
    unfold uint16. rewrite Z.mod_small by lia.
    destruct (Z.leb_spec (T * 1000) (t0 + ms)) as [Hfire|Hwait].
    + destruct (Z.leb_spec (T * 1000) (t0 + (ms + foldr Z.add 0 times)));
        [reflexivity | lia].
    + rewrite IH by lia. rewrite Z.add_assoc. reflexivity.
Qed.

(** The default of 30 seconds with turns of 2000 ms: still waiting after
    14 turns, timed out after 15. *)
Lemma timeout_fires_within_range_witness :
  wait_for_response 30 0 (map quiet_round (replicate 14 2000))
  = Waiting 28000
  /\ wait_for_response 30 0 (map quiet_round (replicate 15 2000))
     = Returned CHARRA_RC_TIMEOUT.
Proof.
  split.
  - apply (timeout_fires_within_range 30 2000 (replicate 14 2000) 0);
      [lia | lia | repeat constructor; lia | lia].
  - apply (timeout_fires_within_range 30 2000 (replicate 15 2000) 0);
      [lia | lia | repeat constructor; lia | lia].
Defined.
End WaitFacts.

(** ** The verifier's handler on all of its paths *)

Module VerifierPaths.
Import Verifier VerifierFacts.

(** [x = y] from the negative condition of a guard that was not taken. *)
Ltac stable :=
  match goal with
  | H : ~ (?x <> ?y) |- ?x = ?y =>
    destruct (decide (x = y)); [assumption | contradiction]
  end.

(** A path whose conditions contradict each other or what is assumed. *)
Ltac impossible :=
  solve
    [ contradiction
    | lia
    | exfalso;
      match goal with
      | H : ~ (_ <> _) |- _ => apply H; discriminate
      end ].

(** As [run_body] and [run_all], leaving impossible paths at once. *)
Ltac run_body_on_path :=
  reduce; repeat (step_in (@at_label); try impossible; reduce).

Ltac run_on_path := run_body_on_path; run_cleanup.

(** The conditions under which a path got as far as it did. *)
Ltac reached :=
  repeat split; first [assumption | lia | stable | reflexivity].

Ltac unfold_cleanup :=
  cbv beta iota zeta delta
    [cleanup bind ret get modify emit record charra_log_error
     set_processing_response at_return snd fst trace res sig_key_handle
     validation esys_ctx tcti_ctx processing_response attestation_rc].

Section Facts.
Variable coap_pdu_t : Type.
Variable coap_get_data_large : coap_pdu_t -> Z * bytes.
Variable charra_tap_unmarshal_attestation_response :
  Z -> bytes -> CHARRA_RC * charra_tap_msg_attestation_response_dto.
Variable sizeof_TPM2B_ATTEST : Z.
Variable sizeof_TPMT_SIGNATURE : Z.
Variable Tss2_TctiLdr_Initialize : TSS2_RC.
Variable Esys_Initialize : TSS2_RC.
Variable TPM2B_PUBLIC : Type.
Variable TPM2B_PUBLIC_zero : TPM2B_PUBLIC.
Variable tpm2_load_external_public_key_from_path :
  string -> option TPM2B_PUBLIC.
Variable Esys_LoadExternal : TPM2B_PUBLIC -> TSS2_RC * option ESYS_TR.
Variable Esys_FlushContext : ESYS_TR -> TSS2_RC.
Variable charra_verify_tpm2_quote_signature_with_tpm :
  ESYS_TR -> TPM2_ALG_ID -> TPM2B_ATTEST -> bytes -> CHARRA_RC * bool.
Variable mbedtls_rsa_context : Type.
Variable charra_crypto_tpm_pub_key_to_mbedtls_pub_key :
  TPM2B_PUBLIC -> CHARRA_RC * mbedtls_rsa_context.
Variable rsapss_sig_buffer : bytes -> bytes.
Variable charra_crypto_rsa_verify_signature :
  mbedtls_rsa_context -> mbedtls_md_type_t -> bytes -> Z -> bytes ->
  TPM2B_PUBLIC -> CHARRA_RC.
Variable TPMS_ATTEST : Type.
Variable charra_unmarshal_tpm2_quote : Z -> bytes -> CHARRA_RC * TPMS_ATTEST.
Variable charra_verify_tpm2_magic : TPMS_ATTEST -> bool.
Variable charra_verify_tpm2_quote_qualifying_data :
  Z -> bytes -> TPMS_ATTEST -> bool.
Variable charra_check_pcr_digest_against_reference :
  option string -> list Z -> Z -> TPMS_ATTEST -> CHARRA_RC.

Local Abbreviation handler :=
  (coap_attest_handler coap_pdu_t coap_get_data_large
    charra_tap_unmarshal_attestation_response sizeof_TPM2B_ATTEST
    sizeof_TPMT_SIGNATURE Tss2_TctiLdr_Initialize Esys_Initialize
    TPM2B_PUBLIC TPM2B_PUBLIC_zero tpm2_load_external_public_key_from_path
    Esys_LoadExternal Esys_FlushContext
    charra_verify_tpm2_quote_signature_with_tpm mbedtls_rsa_context
    charra_crypto_tpm_pub_key_to_mbedtls_pub_key rsapss_sig_buffer
    charra_crypto_rsa_verify_signature
    TPMS_ATTEST charra_unmarshal_tpm2_quote charra_verify_tpm2_magic
    charra_verify_tpm2_quote_qualifying_data
    charra_check_pcr_digest_against_reference).

(** What the body records: messages, copies and the release of the
    mbedTLS key; the calls of the epilogue are not among them. *)
Local Abbreviation body_event :=
  (fun e : event =>
     match e with
     | Log _ _ | Memcpy _ _ | Call_mbedtls_rsa_free => True
     | _ => False
     end).

Local Abbreviation load_key g :=
  (charra_load_external_public_key TPM2B_PUBLIC
     tpm2_load_external_public_key_from_path Esys_LoadExternal true
     (attestation_public_key_path g)).


(** The epilogue, from any state at the label: what it adds to the
    trace. *)
Lemma cleanup_trace s :
  trace (at_return (cleanup Esys_FlushContext s))
  = trace s
    ++ match res s with
       | Some r => [Free_pcr_logs (pcr_log_len r)]
       | None => [Read_indeterminate "res"]
       end
    ++ match sig_key_handle s with
       | ESYS_TR_NONE => []
       | h =>
         Call_Esys_FlushContext h
         :: (if bool_decide (Esys_FlushContext h <> TSS2_RC_SUCCESS)
             then [Log ERROR "[verifier] TSS cleanup sig_key_handle failed."]
             else [])
       end
    ++ match validation s with
       | NULL => []
       | Allocated => [Call_Esys_Free]
       | Indeterminate => [Read_indeterminate "validation"]
       end
    ++ match esys_ctx s with
       | NULL => []
       | Allocated => [Call_Esys_Finalize]
       | Indeterminate => [Read_indeterminate "esys_ctx"]
       end
    ++ match tcti_ctx s with
       | NULL => []
       | Allocated => [Call_Tss2_TctiLdr_Finalize]
       | Indeterminate => [Read_indeterminate "tcti_ctx"]
       end.
Proof.
  destruct s as [rc p h v r e t tr].
  destruct r, h, v, e, t; unfold_cleanup; try case_bool_decide;
    unfold_cleanup; rewrite <- ?app_assoc; reflexivity.
Qed.


(** The state in which the body reaches the label. *)
Lemma body_state g rc0 received sl :
  at_label
    (coap_attest_handler_body coap_pdu_t coap_get_data_large
       charra_tap_unmarshal_attestation_response sizeof_TPM2B_ATTEST
       sizeof_TPMT_SIGNATURE Tss2_TctiLdr_Initialize Esys_Initialize
       TPM2B_PUBLIC TPM2B_PUBLIC_zero
       tpm2_load_external_public_key_from_path Esys_LoadExternal
       charra_verify_tpm2_quote_signature_with_tpm mbedtls_rsa_context
       charra_crypto_tpm_pub_key_to_mbedtls_pub_key rsapss_sig_buffer
       charra_crypto_rsa_verify_signature TPMS_ATTEST
       charra_unmarshal_tpm2_quote charra_verify_tpm2_magic
       charra_verify_tpm2_quote_qualifying_data
       charra_check_pcr_digest_against_reference g received
       (entry rc0 false)) = sl ->
  let data := coap_get_data_large received in
  let decoded :=
    charra_tap_unmarshal_attestation_response
      (Z.of_nat (length data.2)) data.2 in
  let q := tpm2_quote decoded.2 in
  let reached :=
    data.1 <> 0 /\ decoded.1 = CHARRA_RC_SUCCESS
    /\ attestation_data_len q <= sizeof_TPM2B_ATTEST
    /\ tpm2_signature_len q <= sizeof_TPMT_SIGNATURE in
  Forall body_event (trace sl)
  /\ (res sl = None <-> data.1 = 0)
  /\ (esys_ctx sl = Indeterminate <-> ~ reached)
  /\ (esys_ctx sl = Allocated
      <-> reached /\ Tss2_TctiLdr_Initialize = TSS2_RC_SUCCESS
          /\ Esys_Initialize = TSS2_RC_SUCCESS)
  /\ (tcti_ctx sl = Indeterminate <-> ~ reached)
  /\ (tcti_ctx sl = Allocated
      <-> reached /\ Tss2_TctiLdr_Initialize = TSS2_RC_SUCCESS)
  /\ validation sl <> Indeterminate
  /\ (sig_key_handle sl <> ESYS_TR_NONE -> esys_ctx sl = Allocated).
Proof.
  run_body; cbv beta iota delta [at_label snd]; intros <-;
    cbv beta iota delta
      [trace res esys_ctx tcti_ctx validation sig_key_handle].
  all: split; [repeat constructor|].
  all: repeat split; intros.
  all: first
    [ reflexivity
    | assumption
    | contradiction
    | lia
    | stable
    | exfalso;
      match goal with
      | Hn : ~ _ |- False => apply Hn; reached
      end
    | destruct_and?; first [contradiction | lia | congruence]
    | intros Hr; destruct_and?; first [contradiction | lia | congruence] ].
Qed.

(** An event that the body does not record is in the trace only through
    what follows the body. *)
Lemma in_after_body (l r : list event) x :
  Forall body_event l -> ~ body_event x -> In x (l ++ r) <-> In x r.
Proof.
  intros Hall Hx. rewrite in_app_iff. split; [|intros H; right; exact H].
  intros [Hin|Hin]; [|exact Hin].
  rewrite List.Forall_forall in Hall. specialize (Hall x Hin).
  contradiction.
Qed.

(** Membership in one section of the epilogue's calls. *)
Ltac in_section H :=
  lazymatch type of H with
  | In _ (match ?x with _ => _ end) => destruct x
  end;
  cbv zeta in H; try case_bool_decide;
  first [reflexivity | exfalso; not_in H | idtac].

Ltac in_some_section :=
  rewrite !in_app_iff; cbn [In];
  repeat first [left; reflexivity | left; left; reflexivity | right].

(** The calls of the epilogue, by the state at the label. *)
Lemma cleanup_calls sl :
  Forall body_event (trace sl) ->
  let tr := trace (at_return (cleanup Esys_FlushContext sl)) in
  (In Call_Esys_Finalize tr <-> esys_ctx sl = Allocated)
  /\ (In Call_Tss2_TctiLdr_Finalize tr <-> tcti_ctx sl = Allocated)
  /\ (In Call_Esys_Free tr <-> validation sl = Allocated)
  /\ (forall h,
        In (Call_Esys_FlushContext h) tr
        <-> sig_key_handle sl = h /\ h <> ESYS_TR_NONE)
  /\ (In (Read_indeterminate "res") tr <-> res sl = None)
  /\ (In (Read_indeterminate "esys_ctx") tr <-> esys_ctx sl = Indeterminate)
  /\ (In (Read_indeterminate "tcti_ctx") tr <-> tcti_ctx sl = Indeterminate)
  /\ (In (Read_indeterminate "validation") tr
      <-> validation sl = Indeterminate).
Proof.
  intros Hbody. cbv zeta. rewrite cleanup_trace.
  pose proof (fun x r Hx => in_after_body (trace sl) r x Hbody Hx) as Hskip.
  destruct sl as [rc p h v r e t tr].
  cbv beta iota delta
    [trace res sig_key_handle validation esys_ctx tcti_ctx] in *.
  clear Hbody.
  split; [|split; [|split; [|split; [|split; [|split; [|split]]]]]].
  all: try (rename h into h0; intros h).
  all: rewrite Hskip by (intros []); clear Hskip.
  all: split;
    [ intros Hin; rewrite !in_app_iff in Hin;
      destruct Hin as [Hin|[Hin|[Hin|[Hin|Hin]]]]; in_section Hin
    | intros Heq ].
  all: try (cbn [In] in Hin; destruct Hin as [Hin|Hin];
            [ injection Hin as <-; split; [reflexivity | discriminate]
            | exfalso; not_in Hin ]).
  all: lazymatch type of Heq with
       | _ /\ _ => destruct Heq as [<- Hne]; destruct h0; [contradiction|]
       | _ => subst
       end;
       cbv zeta; in_some_section.
Qed.






(** X13: a run that leaves before the locals of the epilogue are
    declared reads them uninitialised.  The epilogue reads [res] (to
    free the PCR logs) without [res] ever having been initialised
    exactly when [coap_get_data_large] returned 0; it tests [esys_ctx]
    and [tcti_ctx] uninitialised exactly when the response was not read,
    not decoded, or failed one of the two length checks.  [validation]
    is always initialised, and [Esys_FlushContext] is only ever called
    with an initialised ESAPI context. *)
Theorem early_exit_reads_uninitialised_locals g rc0 received :
  let s :=
    coap_attest_handler coap_pdu_t coap_get_data_large
      charra_tap_unmarshal_attestation_response sizeof_TPM2B_ATTEST
      sizeof_TPMT_SIGNATURE Tss2_TctiLdr_Initialize Esys_Initialize
      TPM2B_PUBLIC TPM2B_PUBLIC_zero tpm2_load_external_public_key_from_path
      Esys_LoadExternal Esys_FlushContext
      charra_verify_tpm2_quote_signature_with_tpm mbedtls_rsa_context
      charra_crypto_tpm_pub_key_to_mbedtls_pub_key rsapss_sig_buffer
      charra_crypto_rsa_verify_signature
      TPMS_ATTEST charra_unmarshal_tpm2_quote charra_verify_tpm2_magic
      charra_verify_tpm2_quote_qualifying_data
      charra_check_pcr_digest_against_reference
      g rc0 received in
  let data := coap_get_data_large received in
  let decoded :=
    charra_tap_unmarshal_attestation_response
      (Z.of_nat (length data.2)) data.2 in
  let q := tpm2_quote decoded.2 in
  let reached :=
    data.1 <> 0 /\ decoded.1 = CHARRA_RC_SUCCESS
    /\ attestation_data_len q <= sizeof_TPM2B_ATTEST
    /\ tpm2_signature_len q <= sizeof_TPMT_SIGNATURE in
  (In (Read_indeterminate "res") (trace s) <-> data.1 = 0)
  /\ (In (Read_indeterminate "esys_ctx") (trace s) <-> ~ reached)
  /\ (In (Read_indeterminate "tcti_ctx") (trace s) <-> ~ reached)
  /\ ~ In (Read_indeterminate "validation") (trace s)
  /\ (forall h,
        In (Call_Esys_FlushContext h) (trace s) ->
        In Call_Esys_Finalize (trace s)).
Proof.
  cbv zeta. unfold coap_attest_handler, with_label.
  pose proof (body_state g rc0 received _ eq_refl) as Hbody.
  cbv zeta in Hbody.
  set (sl := at_label _) in *.
  destruct Hbody as (Hevents & Hres & Hesys & Hesys' & Htcti & _ & Hval & Hsig).
  destruct (cleanup_calls sl Hevents)
    as (Hfin & _ & _ & Hflush & Hires & Hiesys & Hitcti & Hival).
  cbv zeta in *.
  split; [rewrite Hires; exact Hres|].
  split; [rewrite Hiesys; exact Hesys|].
  split; [rewrite Hitcti; exact Htcti|].
  split; [rewrite Hival; exact Hval|].
  intros h Hin. apply Hflush in Hin. destruct Hin as [Hh Hne].
  apply Hfin. apply Hsig. congruence.
Qed.

(** The message after the TPM's or mbedTLS's signature check. *)
Local Abbreviation signature_message rc :=
  (if bool_decide (rc = CHARRA_RC_SUCCESS) then INFO else ERROR,
   if bool_decide (rc = CHARRA_RC_SUCCESS)
   then "[verifier]     => TPM2 Quote signature is valid!"
   else "[verifier]     => TPM2 Quote signature is NOT valid!").

(** The message of the epilogue, if any. *)
Local Abbreviation flush_message tail :=
  (tail = []
   \/ tail = [(ERROR, "[verifier] TSS cleanup sig_key_handle failed.")]).

(** X14: a failing conversion of the public key for mbedTLS aborts the
    attestation, although the mbedTLS check itself is advisory.  In a
    run that has loaded the key, if
    [charra_crypto_tpm_pub_key_to_mbedtls_pub_key] does not return
    [CHARRA_RC_SUCCESS], the handler ends with that code in
    [attestation_rc], whatever the TPM said about the signature: after
    the message on the TPM's check it reports "mbedTLS RSA error" and
    goes to the epilogue; magic, nonce and PCR digest are not checked
    and no verdict is reported. *)
Theorem failed_key_conversion_aborts
    g rc0 received coap_r data res h key
    (Hdata : coap_get_data_large received = (coap_r, data))
    (Hcoap : coap_r <> 0)
    (Hres : charra_tap_unmarshal_attestation_response
              (Z.of_nat (length data)) data = (CHARRA_RC_SUCCESS, res))
    (Hattest_len :
       attestation_data_len (tpm2_quote res) <= sizeof_TPM2B_ATTEST)
    (Hsig_len :
       tpm2_signature_len (tpm2_quote res) <= sizeof_TPMT_SIGNATURE)
    (Htcti : Tss2_TctiLdr_Initialize = TSS2_RC_SUCCESS)
    (Hesys : Esys_Initialize = TSS2_RC_SUCCESS)
    (Hkey : load_key g = (CHARRA_RC_SUCCESS, h, Some key))
    (Hconv : (charra_crypto_tpm_pub_key_to_mbedtls_pub_key key).1
             <> CHARRA_RC_SUCCESS) :
  let s := handler g rc0 received in
  let tpm_rc :=
    (charra_verify_tpm2_quote_signature_with_tpm
       (default ESYS_TR_NONE h)
       (tpm2_hash_algorithm (signature_hash_algorithm g))
       (prepare_attest (tpm2_quote res))
       (prepare_signature sizeof_TPMT_SIGNATURE (tpm2_quote res))).1 in
  attestation_rc s = (charra_crypto_tpm_pub_key_to_mbedtls_pub_key key).1
  /\ exists tail,
       VerifierNotions.logged (trace s)
       = [ (INFO, "[verifier] External public key loaded.");
           signature_message tpm_rc;
           (ERROR, "[verifier] mbedTLS RSA error") ] ++ tail
       /\ flush_message tail.
Proof.
  cbv zeta. unfold coap_attest_handler, with_label.
  rewrite cleanup_attestation_rc.
  apply key_loaded_silently in Hkey.
  unfold coap_attest_handler_body.
  rewrite Hdata, Hres, Htcti, Hesys, Hkey.
  destruct (charra_crypto_tpm_pub_key_to_mbedtls_pub_key key)
    as [rc_conv ctx] eqn:Econv.
  simpl in Hconv.
  destruct h as [h|]; reduce; rewrite ?Econv; run_on_path.
  all: split; [reflexivity|]; eexists; split;
    [reflexivity | first [left; reflexivity | right; reflexivity]].
Qed.

(** X15: when the attestation key cannot be loaded, nothing is verified.
    In a run that has initialised the TPM stack, if the key path is
    NULL, or the key file cannot be read, or [Esys_LoadExternal] does
    not return [TSS2_RC_SUCCESS], the handler ends with
    [attestation_rc = CHARRA_RC_ERROR] (the key manager maps each of the
    three to that code) and copies nothing; the key manager reports
    which of the three it was, and the handler then that loading the
    key failed. *)
Theorem missing_key_ends_with_error
    g rc0 received coap_r data res
    (Hdata : coap_get_data_large received = (coap_r, data))
    (Hcoap : coap_r <> 0)
    (Hres : charra_tap_unmarshal_attestation_response
              (Z.of_nat (length data)) data = (CHARRA_RC_SUCCESS, res))
    (Hattest_len :
       attestation_data_len (tpm2_quote res) <= sizeof_TPM2B_ATTEST)
    (Hsig_len :
       tpm2_signature_len (tpm2_quote res) <= sizeof_TPMT_SIGNATURE)
    (Htcti : Tss2_TctiLdr_Initialize = TSS2_RC_SUCCESS)
    (Hesys : Esys_Initialize = TSS2_RC_SUCCESS)
    (Hfail :
       match attestation_public_key_path g with
       | None => True
       | Some path =>
         match tpm2_load_external_public_key_from_path path with
         | None => True
         | Some key => (Esys_LoadExternal key).1 <> TSS2_RC_SUCCESS
         end
       end) :
  let s := handler g rc0 received in
  let reason :=
    match attestation_public_key_path g with
    | None => "Invalid path for external public key."
    | Some path =>
      match tpm2_load_external_public_key_from_path path with
      | None => "Loading external public key from file failed."
      | Some _ => "Loading external public key to TPM failed."
      end
    end in
  attestation_rc s = CHARRA_RC_ERROR
  /\ copies (trace s) = []
  /\ exists tail,
       VerifierNotions.logged (trace s)
       = [ (ERROR, reason);
           (ERROR, "[verifier] Loading external public key failed.") ]
         ++ tail
       /\ flush_message tail.
Proof.
  cbv zeta. unfold coap_attest_handler, with_label.
  unfold coap_attest_handler_body,
    KeyMgr.charra_load_external_public_key in *.
  rewrite Hdata, Hres, Htcti, Hesys.
  destruct (attestation_public_key_path g) as [path|];
    [destruct (tpm2_load_external_public_key_from_path path) as [key|];
     [destruct (Esys_LoadExternal key) as [r h]; simpl in Hfail;
      destruct (decide (r <> TSS2_RC_SUCCESS)); [|contradiction];
      destruct h as [h|]|]|];
    run_on_path.
  all: split; [reflexivity|]; split; [reflexivity|]; eexists; split;
    [reflexivity | first [left; reflexivity | right; reflexivity]].
Qed.

(** X16: once the quote is unmarshalled every check is made and
    reported, whatever the ones before it gave.  In a run that gets as
    far as the verdict the messages are, in this order: the key was
    loaded, the result of the TPM's signature check, the result of
    mbedTLS's, of the magic check, of the nonce check, of the PCR digest
    check, and the verdict, which is "successful" exactly when the
    TPM's signature check, the nonce check and the PCR digest check
    passed. *)
Theorem every_check_is_reported
    g rc0 received coap_r data res h key attest_struct
    (Hdata : coap_get_data_large received = (coap_r, data))
    (Hcoap : coap_r <> 0)
    (Hres : charra_tap_unmarshal_attestation_response
              (Z.of_nat (length data)) data = (CHARRA_RC_SUCCESS, res))
    (Hattest_len :
       attestation_data_len (tpm2_quote res) <= sizeof_TPM2B_ATTEST)
    (Hsig_len :
       tpm2_signature_len (tpm2_quote res) <= sizeof_TPMT_SIGNATURE)
    (Htcti : Tss2_TctiLdr_Initialize = TSS2_RC_SUCCESS)
    (Hesys : Esys_Initialize = TSS2_RC_SUCCESS)
    (Hkey : load_key g = (CHARRA_RC_SUCCESS, h, Some key))
    (Hconv : (charra_crypto_tpm_pub_key_to_mbedtls_pub_key key).1
             = CHARRA_RC_SUCCESS)
    (Hquote : charra_unmarshal_tpm2_quote
                (attestation_data_len (tpm2_quote res))
                (attestation_data (tpm2_quote res))
              = (CHARRA_RC_SUCCESS, attest_struct)) :
  let s := handler g rc0 received in
  let signature := prepare_signature sizeof_TPMT_SIGNATURE (tpm2_quote res) in
  let tpm_rc :=
    (charra_verify_tpm2_quote_signature_with_tpm
       (default ESYS_TR_NONE h)
       (tpm2_hash_algorithm (signature_hash_algorithm g))
       (prepare_attest (tpm2_quote res)) signature).1 in
  let mbedtls_rc :=
    charra_crypto_rsa_verify_signature
      (charra_crypto_tpm_pub_key_to_mbedtls_pub_key key).2
      (mbedtls_hash_algorithm (signature_hash_algorithm g))
      (attestation_data (tpm2_quote res))
      (attestation_data_len (tpm2_quote res))
      (rsapss_sig_buffer signature) key in
  let magic := charra_verify_tpm2_magic attest_struct in
  let nonce :=
    charra_verify_tpm2_quote_qualifying_data (last_request_nonce_len g)
      (last_request_nonce g) attest_struct in
  let pcrs :=
    bool_decide
      (charra_check_pcr_digest_against_reference (reference_pcr_file_path g)
         (tpm_pcr_selection g !!! 1%nat) (tpm_pcr_selection_len g !!! 1%nat)
         attest_struct = CHARRA_RC_SUCCESS) in
  exists tail,
    VerifierNotions.logged (trace s)
    = [ (INFO, "[verifier] External public key loaded.");
        signature_message tpm_rc;
        signature_message mbedtls_rc;
        (if magic then INFO else ERROR,
         if magic then "[verifier]     =>  TPM2 magic is valid!"
         else "[verifier]     => TPM2 magic is NOT valid! This might be a bogus TPM2 Quote!");
        (if nonce then INFO else ERROR,
         if nonce
         then "[verifier]     => Qualifying data (nonce) in TPM2 Quote is valid (matches the one sent)!"
         else "[verifier]     => Qualifying data (nonce) in TPM2 Quote is NOT valid (does not match the one sent)!");
        (if pcrs then INFO else ERROR,
         if pcrs then "[verifier]     => PCR composite digest is valid!"
         else "[verifier]     => PCR composite digest is NOT valid! (does not match any of the digests from the set of reference PCRs)");
        (INFO,
         if bool_decide (tpm_rc = CHARRA_RC_SUCCESS) && nonce && pcrs
         then "[verifier] |   ATTESTATION SUCCESSFUL   |"
         else "[verifier] |     ATTESTATION FAILED     |") ] ++ tail
    /\ flush_message tail.
Proof.
  cbv zeta. unfold coap_attest_handler, with_label.
  apply key_loaded_silently in Hkey.
  unfold coap_attest_handler_body.
  rewrite Hdata, Hres, Htcti, Hesys, Hkey.
  destruct (charra_crypto_tpm_pub_key_to_mbedtls_pub_key key)
    as [rc_conv ctx] eqn:Econv.
  simpl in Hconv; subst rc_conv.
  destruct h as [h|]; reduce; rewrite ?Econv, Hquote; run_on_path.
  all: eexists; split;
    [reflexivity | first [left; reflexivity | right; reflexivity]].
Qed.
End Facts.


(** The TPM accepts the signature and the key cannot be converted for
    mbedTLS: the run ends with the conversion's code. *)
Lemma failed_key_conversion_aborts_witness :
  attestation_rc
    (VerifierNotions.bench_key (Some tt)
       (TSS2_RC_SUCCESS, Some (ESYS_TR_object 1)) (CHARRA_RC_other 7))
  = CHARRA_RC_other 7.
Proof.
  refine (proj1
    (failed_key_conversion_aborts
       unit (fun _ => (1, [Byte.x82]))
       (fun _ _ => (CHARRA_RC_SUCCESS, bench_response 4 2))
       2306 1030 TSS2_RC_SUCCESS TSS2_RC_SUCCESS
       unit tt (fun _ => Some tt)
       (fun _ => (TSS2_RC_SUCCESS, Some (ESYS_TR_object 1)))
       (fun _ => TSS2_RC_SUCCESS)
       (fun _ _ _ _ => (CHARRA_RC_SUCCESS, true))
       unit (fun _ => (CHARRA_RC_other 7, tt)) (fun sig => sig)
       (fun _ _ _ _ _ _ => CHARRA_RC_SUCCESS)
       unit (fun _ _ => (CHARRA_RC_SUCCESS, tt))
       (fun _ => true) (fun _ _ _ => true) (fun _ _ _ _ => CHARRA_RC_SUCCESS)
       bench_globals CHARRA_RC_ERROR tt
       1 [Byte.x82] (bench_response 4 2) (Some (ESYS_TR_object 1)) tt
       eq_refl _ eq_refl _ _ eq_refl eq_refl eq_refl _));
    simpl; first [lia | discriminate].
Defined.


(** The key file cannot be read: the key manager says so, the handler
    reports that loading the key failed, and the run ends with
    [CHARRA_RC_ERROR]. *)
Lemma missing_key_ends_with_error_witness :
  let s :=
    VerifierNotions.bench_key None
      (TSS2_RC_SUCCESS, Some (ESYS_TR_object 1)) CHARRA_RC_SUCCESS in
  attestation_rc s = CHARRA_RC_ERROR
  /\ VerifierNotions.logged (trace s)
     = [ (ERROR, "Loading external public key from file failed."%string);
         (ERROR, "[verifier] Loading external public key failed."%string) ].
Proof.
  destruct (missing_key_ends_with_error
       unit (fun _ => (1, [Byte.x82]))
       (fun _ _ => (CHARRA_RC_SUCCESS, bench_response 4 2))
       2306 1030 TSS2_RC_SUCCESS TSS2_RC_SUCCESS
       unit tt (fun _ => None)
       (fun _ => (TSS2_RC_SUCCESS, Some (ESYS_TR_object 1)))
       (fun _ => TSS2_RC_SUCCESS)
       (fun _ _ _ _ => (CHARRA_RC_SUCCESS, true))
       unit (fun _ => (CHARRA_RC_SUCCESS, tt)) (fun sig => sig)
       (fun _ _ _ _ _ _ => CHARRA_RC_SUCCESS)
       unit (fun _ _ => (CHARRA_RC_SUCCESS, tt))
       (fun _ => true) (fun _ _ _ => true) (fun _ _ _ _ => CHARRA_RC_SUCCESS)
       bench_globals CHARRA_RC_ERROR tt
       1 [Byte.x82] (bench_response 4 2)
       eq_refl ltac:(lia) eq_refl ltac:(simpl; lia) ltac:(simpl; lia)
       eq_refl eq_refl I) as (Hrc & _ & _).
  split; [exact Hrc | reflexivity].
Defined.

(** The TPM rejects the signature: the PCR digest is still checked and
    reported before the verdict. *)
Lemma every_check_is_reported_witness :
  let s :=
    bench 4 2 CHARRA_RC_ERROR CHARRA_RC_SUCCESS true true
      CHARRA_RC_SUCCESS in
  In (INFO, "[verifier]     => PCR composite digest is valid!"%string)
    (VerifierNotions.logged (trace s))
  /\ attestation_rc s = CHARRA_RC_VERIFICATION_FAILED.
Proof.
  split; [|reflexivity].
  destruct (every_check_is_reported
       unit (fun _ => (1, [Byte.x82]))
       (fun _ _ => (CHARRA_RC_SUCCESS, bench_response 4 2))
       2306 1030 TSS2_RC_SUCCESS TSS2_RC_SUCCESS
       unit tt (fun _ => Some tt)
       (fun _ => (TSS2_RC_SUCCESS, Some (ESYS_TR_object 1)))
       (fun _ => TSS2_RC_SUCCESS)
       (fun _ _ _ _ => (CHARRA_RC_ERROR, true))
       unit (fun _ => (CHARRA_RC_SUCCESS, tt)) (fun sig => sig)
       (fun _ _ _ _ _ _ => CHARRA_RC_SUCCESS)
       unit (fun _ _ => (CHARRA_RC_SUCCESS, tt))
       (fun _ => true) (fun _ _ _ => true) (fun _ _ _ _ => CHARRA_RC_SUCCESS)
       bench_globals CHARRA_RC_ERROR tt
       1 [Byte.x82] (bench_response 4 2) (Some (ESYS_TR_object 1)) tt tt
       eq_refl ltac:(lia) eq_refl ltac:(simpl; lia) ltac:(simpl; lia)
       eq_refl eq_refl eq_refl eq_refl eq_refl) as (tail & Hlog & _).
  unfold bench. rewrite Hlog. simpl. tauto.
Defined.
End VerifierPaths.

(** ** The attester's handler on all of its paths *)

Module AttesterPaths.
Import Attester AttesterFacts.

(** As [run_all], with the handle that [charra_load_tpm2_key] returns
    read off its result. *)
Ltac reduce_default := reduce; cbv beta iota delta [from_option id].

Ltac run_paths :=
  reduce_default; repeat (step_in (@at_label); reduce_default);
  cbv beta iota delta [at_label snd error_label];
  reduce_default; repeat (step_in (@at_return); reduce_default);
  cbv beta iota delta [at_return snd].

Ltac stable :=
  match goal with
  | H : ~ (?x <> ?y) |- ?x = ?y =>
    destruct (decide (x = y)); [assumption | contradiction]
  end.

(** The condition [H] does not hold on this path. *)
Ltac refuted H :=
  exfalso; destruct_and?; first [contradiction | lia | congruence].

Ltac reached :=
  repeat split; first [assumption | lia | stable | reflexivity].

Section Facts.
Variable coap_pdu_t : Type.
Variable coap_get_data_large : coap_pdu_t -> Z * bytes.
Variable pcr_selection_dto : Type.
Variable unmarshal_attestation_request :
  Z -> bytes -> CHARRA_RC * msg_attestation_request_dto pcr_selection_dto.
Variable sizeof_TPMU_HA : Z.
Variable TPML_PCR_SELECTION : Type.
Variable charra_pcr_selections_to_tpm_pcr_selections :
  Z -> list pcr_selection_dto -> CHARRA_RC * TPML_PCR_SELECTION.
Variable Esys_Initialize : TSS2_RC.
Variable charra_load_tpm2_key :
  Z -> bytes -> CHARRA_RC * option ESYS_TR * bytes.
Variable tpm2_quote :
  ESYS_TR -> TPML_PCR_SELECTION -> TPM2B_DATA ->
  TSS2_RC * TPM2B_ATTEST * bytes.
Variable marshal_attestation_response :
  msg_attestation_response_dto -> Z * bytes.
Variable coap_add_data_large_response : Z -> bytes -> Z.
Variable Esys_FlushContext : ESYS_TR -> TSS2_RC.

Local Abbreviation handler :=
  (coap_attest_handler coap_pdu_t coap_get_data_large pcr_selection_dto
    unmarshal_attestation_request sizeof_TPMU_HA TPML_PCR_SELECTION
    charra_pcr_selections_to_tpm_pcr_selections Esys_Initialize
    charra_load_tpm2_key tpm2_quote marshal_attestation_response
    coap_add_data_large_response Esys_FlushContext).

(** X17: the attester answers only after a quote, and an error gets no
    answer at all.  [coap_add_data_large_response] is called, and the
    response code set to 2.05 Content, exactly in the runs in which the
    request was read and decoded, its nonce was not too long, its PCR
    selection was converted, the ESAPI context initialised, the key
    loaded and the quote made.  In every other run the handler returns
    without setting a response code or adding data. *)
Theorem answers_only_after_a_quote in_pdu :
  let s := handler in_pdu in
  let data := coap_get_data_large in_pdu in
  let decoded :=
    unmarshal_attestation_request (Z.of_nat (length data.2)) data.2 in
  let req := decoded.2 in
  let selection :=
    charra_pcr_selections_to_tpm_pcr_selections (pcr_selections_len req)
      (pcr_selections req) in
  let loaded := charra_load_tpm2_key (sig_key_id_len req) (sig_key_id req) in
  let qualifying_data :=
    {| size := uint16 (nonce_len req);
       buffer := take (Z.to_nat (nonce_len req)) (nonce req) |} in
  let quote :=
    tpm2_quote (default ESYS_TR_NONE loaded.1.2) selection.2
      qualifying_data in
  let quoted :=
    data.1 <> 0 /\ decoded.1 = CHARRA_RC_SUCCESS
    /\ nonce_len req <= sizeof_TPMU_HA
    /\ selection.1 = CHARRA_RC_SUCCESS
    /\ Esys_Initialize = TSS2_RC_SUCCESS
    /\ loaded.1.1 = CHARRA_RC_SUCCESS
    /\ quote.1.1 = TSS2_RC_SUCCESS in
  (response_sent s <-> quoted)
  /\ (In Set_out_code_CONTENT (trace s) <-> quoted).
Proof.
  cbv zeta. unfold response_sent. run_paths.
  all: split; split.
  all: lazymatch goal with
       | |- (exists _ _, _) -> _ =>
         intros (len & buf & Hin); first [exfalso; not_in Hin | reached]
       | |- In _ _ -> _ =>
         intros Hin; first [exfalso; not_in Hin | reached]
       | |- _ -> exists _ _, _ =>
         intros Hq; first [solve [eexists _, _; is_in] | refuted Hq]
       | |- _ -> In _ _ =>
         intros Hq; first [solve [is_in] | refuted Hq]
       end.
Qed.

End Facts.
End AttesterPaths.

(** ** The verifier's [main] after the command line *)

Module MainPaths.
Import VerifierMain.

Ltac reduce :=
  cbv beta iota zeta delta
    [main_after_cli main_body entry leave_if charra_log_error emit record
     set_result set_coap_context set_coap_session set_coap_options
     set_req_buf set_last_request set_waiting bind ret goto get modify
     fst snd result coap_context coap_session coap_options req_buf
     last_request waiting trace negb andb orb from_option id app].

Ltac step_in marker :=
  match goal with
  | |- context [marker state ?b] =>
    let x := stuck b in
    lazymatch x with
    | (_, _) => fail
    | _ => split_on x
    end
  end.

Ltac run_body := reduce; repeat (step_in (@at_label); reduce).

Ltac stable :=
  match goal with
  | H : ~ (?x <> ?y) |- ?x = ?y =>
    destruct (decide (x = y)); [assumption | contradiction]
  end.

(** The conditions under which a path got as far as it did. *)
Ltac reached :=
  repeat split; first [assumption | lia | stable | reflexivity].

(** The condition [H] does not hold on this path. *)
Ltac refuted H :=
  exfalso; destruct_and?; first [contradiction | lia | congruence].

(** The message a trace says was sent. *)
Ltac sent_in H :=
  cbn [In] in H;
  repeat (destruct H as [H|H];
          [first [discriminate H | injection H as <-; split; reflexivity]|]);
  contradiction H.

Ltac run_all :=
  run_body;
  cbv beta iota delta [at_label snd waiting];
  cbv beta iota delta [cleanup]; reduce;
  cbv beta iota delta [at_return snd].

Section Facts.
Variable as_CHARRA_RC : Z -> CHARRA_RC.
Variable CHARRA_TAP_SPEC_VERSION : Z.
Variable charra_random_bytes : Z -> CHARRA_RC * bytes.
Variable charra_random_bytes_from_tpm : Z -> CHARRA_RC * bytes.
Variable coap_dtls_is_supported : bool.
Variable charra_coap_new_context : bool.
Variable charra_coap_new_client_session_psk :
  string -> Z -> string -> string -> bool.
Variable charra_coap_setup_dtls_pki_for_rpk :
  string -> string -> string -> bool -> CHARRA_RC.
Variable charra_coap_new_client_session_pki : string -> Z -> bool.
Variable charra_coap_new_client_session : string -> Z -> bool.
Variable coap_encode_var_safe : Z.
Variable charra_tap_marshal_attestation_request :
  charra_tap_msg_attestation_request_dto -> CHARRA_RC * option bytes.
Variable coap_insert_optlist_URI_PATH : Z.
Variable coap_insert_optlist_CONTENT_TYPE : Z.
Variable charra_coap_new_request : bytes -> bool.
Variable coap_send_large : bytes -> bool.

Local Abbreviation main :=
  (main_after_cli as_CHARRA_RC CHARRA_TAP_SPEC_VERSION charra_random_bytes
     charra_random_bytes_from_tpm coap_dtls_is_supported
     charra_coap_new_context charra_coap_new_client_session_psk
     charra_coap_setup_dtls_pki_for_rpk charra_coap_new_client_session_pki
     charra_coap_new_client_session coap_encode_var_safe
     charra_tap_marshal_attestation_request coap_insert_optlist_URI_PATH
     coap_insert_optlist_CONTENT_TYPE charra_coap_new_request
     coap_send_large).

Local Abbreviation create_request :=
  (create_attestation_request as_CHARRA_RC CHARRA_TAP_SPEC_VERSION
     charra_random_bytes charra_random_bytes_from_tpm).

(** What [main] needs to get as far as sending the request. *)
Local Abbreviation session_created variables :=
  (let c := Cli.common_config variables in
   let v := Cli.verifier_config variables in
   if Cli.use_dtls_psk c
   then charra_coap_new_client_session_psk (Cli.dst_host v) (Cli.port c)
          (Cli.dtls_psk_identity v) (Cli.dtls_psk_key c) = true
   else if Cli.use_dtls_rpk c
   then charra_coap_setup_dtls_pki_for_rpk (Cli.dtls_rpk_private_key_path c)
          (Cli.dtls_rpk_public_key_path c)
          (Cli.dtls_rpk_peer_public_key_path c)
          (Cli.dtls_rpk_verify_peer_public_key c) = CHARRA_RC_SUCCESS
        /\ charra_coap_new_client_session_pki (Cli.dst_host v) (Cli.port c)
           = true
   else charra_coap_new_client_session (Cli.dst_host v) (Cli.port c) = true).

Local Abbreviation request_of variables :=
  (default zero_request (create_request variables).2).

Local Abbreviation payload_of variables :=
  (default []
     (charra_tap_marshal_attestation_request (request_of variables)).2).

Local Abbreviation ready_to_send variables :=
  (let c := Cli.common_config variables in
   Cli.use_dtls_psk c && Cli.use_dtls_rpk c = false
   /\ Cli.use_dtls_psk c && negb coap_dtls_is_supported = false
   /\ charra_coap_new_context = true
   /\ session_created variables
   /\ coap_encode_var_safe <> 0
   /\ (create_request variables).1 = CHARRA_RC_SUCCESS
   /\ (charra_tap_marshal_attestation_request (request_of variables)).1
      = CHARRA_RC_SUCCESS
   /\ coap_insert_optlist_URI_PATH = 1
   /\ coap_insert_optlist_CONTENT_TYPE = 1
   /\ charra_coap_new_request (payload_of variables) = true).


(** X20: the request is sent exactly when everything before the send
    succeeded.  [coap_send_large] is called if and only if the DTLS
    options are consistent, the context and the session for the
    configured mode could be created, the CONTENT_TYPE option could be
    encoded, the request could be created and marshalled, both options
    could be inserted and the PDU could be built; what is sent is the
    marshalled form of the request that [last_request] holds.  While
    the wait loop runs all of this has happened. *)
Theorem request_is_sent_iff_setup_succeeds variables rounds :
  match
    main_after_cli as_CHARRA_RC CHARRA_TAP_SPEC_VERSION charra_random_bytes
      charra_random_bytes_from_tpm coap_dtls_is_supported
      charra_coap_new_context charra_coap_new_client_session_psk
      charra_coap_setup_dtls_pki_for_rpk charra_coap_new_client_session_pki
      charra_coap_new_client_session coap_encode_var_safe
      charra_tap_marshal_attestation_request coap_insert_optlist_URI_PATH
      coap_insert_optlist_CONTENT_TYPE charra_coap_new_request
      coap_send_large
      variables rounds
  with
  | Some s =>
    ((exists payload, In (Call_coap_send_large payload) (trace s))
     <-> ready_to_send variables)
    /\ (forall payload,
          In (Call_coap_send_large payload) (trace s) ->
          payload = payload_of variables
          /\ last_request s = request_of variables)
  | None => ready_to_send variables
  end.
Proof.
  run_all.
  all: try (split;
            [ split;
              [ intros (payload & Hin); first [exfalso; not_in Hin | reached]
              | intros Hq; first [solve [eexists; is_in] | refuted Hq] ]
            | intros payload Hin; sent_in Hin ]).
  all: reached.
Qed.

(** X21: the session is of the kind the DTLS options ask for.  A plain
    UDP session is opened only when neither DTLS-PSK nor DTLS-RPK is
    enabled; a DTLS-PSK session only when PSK is enabled, RPK is not and
    libcoap supports DTLS, and then with the configured host, port,
    identity and key; a DTLS-RPK session only when RPK is enabled, PSK
    is not and the RPK structure could be set up. *)
Theorem session_matches_the_dtls_options variables rounds :
  let c := Cli.common_config variables in
  let v := Cli.verifier_config variables in
  match
    main_after_cli as_CHARRA_RC CHARRA_TAP_SPEC_VERSION charra_random_bytes
      charra_random_bytes_from_tpm coap_dtls_is_supported
      charra_coap_new_context charra_coap_new_client_session_psk
      charra_coap_setup_dtls_pki_for_rpk charra_coap_new_client_session_pki
      charra_coap_new_client_session coap_encode_var_safe
      charra_tap_marshal_attestation_request coap_insert_optlist_URI_PATH
      coap_insert_optlist_CONTENT_TYPE charra_coap_new_request
      coap_send_large
      variables rounds
  with
  | Some s =>
    (forall host port,
       In (Call_charra_coap_new_client_session host port) (trace s) ->
       Cli.use_dtls_psk c = false /\ Cli.use_dtls_rpk c = false)
    /\ (forall host port identity key,
          In (Call_charra_coap_new_client_session_psk host port identity key)
            (trace s) ->
          Cli.use_dtls_psk c = true /\ Cli.use_dtls_rpk c = false
          /\ coap_dtls_is_supported = true
          /\ host = Cli.dst_host v /\ port = Cli.port c
          /\ identity = Cli.dtls_psk_identity v
          /\ key = Cli.dtls_psk_key c)
    /\ (forall host port,
          In (Call_charra_coap_new_client_session_pki host port) (trace s) ->
          Cli.use_dtls_psk c = false /\ Cli.use_dtls_rpk c = true
          /\ charra_coap_setup_dtls_pki_for_rpk
               (Cli.dtls_rpk_private_key_path c)
               (Cli.dtls_rpk_public_key_path c)
               (Cli.dtls_rpk_peer_public_key_path c)
               (Cli.dtls_rpk_verify_peer_public_key c) = CHARRA_RC_SUCCESS)
  | None => True
  end.
Proof.
  cbv zeta. run_all; try exact I.
  all: split; [|split]; intros; 
    match goal with
    | Hin : In _ _ |- _ =>
      cbn [In] in Hin;
      repeat (destruct Hin as [Hin|Hin];
              [first [discriminate Hin
                     | injection Hin as <- <- <- <-; reached
                     | injection Hin as <- <-; reached]|]);
      contradiction Hin
    end.
Qed.

(** X22: once the request is sent, [main] returns what the wait loop
    arrives at.  When everything up to the send succeeds and the send
    returns a valid message id, [main] sets the ACK timeout to the
    configured timeout and returns the code with which the wait loop
    ends: the handler's [attestation_rc], [CHARRA_RC_TIMEOUT] or
    [CHARRA_RC_COAP_ERROR]; options, session and context are
    handed to the release macros as allocated.  While the loop has turns
    to go, [main] has not returned. *)
Theorem main_returns_what_the_wait_loop_returns variables rounds
    (Hready : ready_to_send variables)
    (Hsent : coap_send_large (payload_of variables) = true) :
  match
    Main.wait_for_response (Cli.timeout (Cli.verifier_config variables)) 0
      rounds
  with
  | Main.Returned r =>
    exists s,
      main variables rounds = Some s
      /\ result s = r
      /\ In (Call_coap_session_set_ack_timeout
               (Cli.timeout (Cli.verifier_config variables))) (trace s)
      /\ In (Call_charra_free_if_not_null_ex "coap_options" Allocated
               "coap_delete_optlist") (trace s)
      /\ In (Call_charra_free_if_not_null_ex "coap_session" Allocated
               "coap_session_release") (trace s)
      /\ In (Call_charra_free_if_not_null_ex "coap_context" Allocated
               "coap_free_context") (trace s)
  | Main.Waiting _ => main variables rounds = None
  end.
Proof.
  revert Hready Hsent. run_all; intros Hready Hsent;
    try (refuted Hready).
  all: try (eexists; split; [reflexivity|]; split; [reflexivity|];
            repeat split; is_in).
  all: reflexivity.
Qed.

(** X23: a failing random source is reported as the number 1.  When
    [charra_random_bytes] does not return [CHARRA_RC_SUCCESS],
    [create_attestation_request] returns [(CHARRA_RC)1], the value of
    the comparison, whatever code the random source returned, and
    writes no request.  If that value is not [CHARRA_RC_SUCCESS],
    [main] then sends nothing, leaves [last_request] as it was, and
    where it reports that it cannot create the request it returns that
    1. *)
Theorem failed_random_source_is_reported_as_one variables rounds
    (Hrandom : (charra_random_bytes 20).1 <> CHARRA_RC_SUCCESS)
    (Hone : as_CHARRA_RC 1 <> CHARRA_RC_SUCCESS) :
  create_request variables = (as_CHARRA_RC 1, None)
  /\ exists s,
       main variables rounds = Some s
       /\ (forall payload, ~ In (Call_coap_send_large payload) (trace s))
       /\ last_request s = zero_request
       /\ (In (Log ERROR "[verifier] Cannot create attestation request.")
             (trace s) ->
           result s = as_CHARRA_RC 1).
Proof.
  assert (Hcreate : create_request variables = (as_CHARRA_RC 1, None)).
  { unfold create_attestation_request. simpl.
    destruct (charra_random_bytes 20) as [rc nonce]. simpl in Hrandom.
    rewrite bool_decide_eq_true_2 by exact Hrandom. reflexivity. }
  split; [exact Hcreate|].
  unfold main_after_cli, main_body. rewrite Hcreate.
  run_all; try contradiction.
  all: eexists; split; [reflexivity|]; split;
    [intros payload Hin; not_in Hin|]; split; [reflexivity|];
    intros Hin; first [reflexivity | exfalso; not_in Hin].
Qed.

(** X24: from a well-formed configuration the request is well formed.
    When the random source succeeds with at least twenty bytes, the
    request carries exactly twenty of them as nonce, the fourteen bytes
    of the key identifier, and one PCR selection: the one of the sha256
    bank, with as many PCRs as its length says, whatever the other
    banks select; the declared lengths are the lengths of what is
    carried. *)
Theorem request_matches_the_configuration X variables random
    (Hwf : CliNotions.config_well_formed X variables)
    (Hbanks : (2 <= Cli.TPM2_PCR_BANK_COUNT X)%nat)
    (Hrandom : charra_random_bytes 20 = (CHARRA_RC_SUCCESS, random))
    (Hlength : (20 <= length random)%nat) :
  exists req selection,
    create_request variables = (CHARRA_RC_SUCCESS, Some req)
    /\ hello req = false
    /\ sig_key_id req = String.list_byte_of_string "PK.RSA.default"
    /\ Z.of_nat (length (sig_key_id req)) = sig_key_id_len req
    /\ nonce req = take 20 random
    /\ nonce_len req = 20
    /\ Z.of_nat (length (nonce req)) = nonce_len req
    /\ pcr_selections req = [selection]
    /\ Z.of_nat (length (pcr_selections req)) = pcr_selections_len req
    /\ tcg_hash_alg_id selection = TPM2_ALG_SHA256
    /\ pcrs selection = Cli.pcr_indices variables 1
    /\ Z.of_nat (length (pcrs selection)) = pcrs_len selection.
Proof.
  destruct Hwf as (_ & _ & _ & (Hsel & Hlens & Hrows & Hlen) & _).
  destruct (lookup_lt_is_Some_2
              (Cli.tpm_pcr_selection (Cli.verifier_config variables)) 1)
    as [row Hrow]; [lia|].
  destruct (lookup_lt_is_Some_2
              (Cli.tpm_pcr_selection_len (Cli.verifier_config variables)) 1)
    as [len Hl]; [lia|].
  rewrite Forall_lookup in Hrows. specialize (Hrows _ _ Hrow).
  rewrite Forall_lookup in Hlen. specialize (Hlen _ _ Hl). simpl in Hlen.
  unfold create_attestation_request. simpl. rewrite Hrandom.
  rewrite bool_decide_eq_false_2 by (intros Hne; apply Hne; reflexivity).
  eexists _, _. split; [reflexivity|]. simpl.
  unfold Cli.pcr_indices.
  rewrite (list_lookup_total_correct _ _ _ Hrow).
  rewrite (list_lookup_total_correct _ _ _ Hl).
  repeat split; try reflexivity.
  - rewrite length_take. lia.
  - simpl. rewrite length_take. lia.
Qed.
End Facts.


(** Sixteen turns of two seconds without a response: [main] returns
    [CHARRA_RC_TIMEOUT]. *)
Lemma main_returns_what_the_wait_loop_returns_witness :
  exists s,
    bench CHARRA_RC_SUCCESS true true CliBench.bench_config
      (replicate 16 (Main.quiet_round 2000)) = Some s
    /\ result s = CHARRA_RC_TIMEOUT.
Proof.
  pose proof (main_returns_what_the_wait_loop_returns
       bench_as_CHARRA_RC 1
       (fun n => (CHARRA_RC_SUCCESS, replicate (Z.to_nat n) Byte.x2a))
       (fun n => (CHARRA_RC_ERROR, []))
       true true (fun _ _ _ _ => true)
       (fun _ _ _ _ => CHARRA_RC_SUCCESS)
       (fun _ _ => true) (fun _ _ => true) 1
       (fun _ => (CHARRA_RC_SUCCESS, Some [Byte.x8a]))
       1 1 (fun _ => true) (fun _ => true)
       CliBench.bench_config (replicate 16 (Main.quiet_round 2000))
       ltac:(vm_compute; repeat split; first [reflexivity | discriminate])
       eq_refl) as Hmain.
  assert (Hwait :
    Main.wait_for_response
      (Cli.timeout (Cli.verifier_config CliBench.bench_config)) 0
      (replicate 16 (Main.quiet_round 2000))
    = Main.Returned CHARRA_RC_TIMEOUT) by reflexivity.
  rewrite Hwait in Hmain. destruct Hmain as (s & Hmain & Hresult & _).
  exists s. split; [exact Hmain | exact Hresult].
Defined.

(** The random source fails with [CHARRA_RC_ERROR]: the request is not
    created and the code is [CHARRA_RC_other 1]. *)
Lemma failed_random_source_is_reported_as_one_witness :
  create_attestation_request bench_as_CHARRA_RC 1
    (fun n => (CHARRA_RC_ERROR, replicate (Z.to_nat n) Byte.x2a))
    (fun n => (CHARRA_RC_ERROR, [])) CliBench.bench_config
  = (CHARRA_RC_other 1, None)
  /\ exists s,
       bench CHARRA_RC_ERROR true true CliBench.bench_config [] = Some s
       /\ last_request s = zero_request.
Proof.
  destruct (failed_random_source_is_reported_as_one
       bench_as_CHARRA_RC 1
       (fun n => (CHARRA_RC_ERROR, replicate (Z.to_nat n) Byte.x2a))
       (fun n => (CHARRA_RC_ERROR, []))
       true true (fun _ _ _ _ => true)
       (fun _ _ _ _ => CHARRA_RC_SUCCESS)
       (fun _ _ => true) (fun _ _ => true) 1
       (fun _ => (CHARRA_RC_SUCCESS, Some [Byte.x8a]))
       1 1 (fun _ => true) (fun _ => true)
       CliBench.bench_config []
       ltac:(discriminate) ltac:(discriminate))
    as (Hcreate & s & Hmain & _ & Hlast & _).
  split; [exact Hcreate|]. exists s. split; [exact Hmain | exact Hlast].
Defined.

(** The configuration [main] starts from, and a random source that
    returns as many bytes as are asked for. *)
Lemma request_matches_the_configuration_witness :
  exists req,
    create_attestation_request bench_as_CHARRA_RC 1
      (fun n => (CHARRA_RC_SUCCESS, replicate (Z.to_nat n) Byte.x2a))
      (fun n => (CHARRA_RC_ERROR, [])) CliBench.bench_config
    = (CHARRA_RC_SUCCESS, Some req)
    /\ nonce_len req = 20
    /\ Z.of_nat (length (nonce req)) = 20
    /\ pcr_selections_len req = 1.
Proof.
  destruct (request_matches_the_configuration
       bench_as_CHARRA_RC 1
       (fun n => (CHARRA_RC_SUCCESS, replicate (Z.to_nat n) Byte.x2a))
       (fun n => (CHARRA_RC_ERROR, []))
       CliBench.bench_externals CliBench.bench_config
       (replicate 20 Byte.x2a)
       (ConfigFacts.initial_config_well_formed CliBench.bench_externals
          3 6 eq_refl ltac:(simpl; lia))
       ltac:(simpl; lia) eq_refl ltac:(simpl; lia))
    as (req & selection & Hcreate & _ & _ & _ & _ & Hlen & Hnonce & Hsel
        & Hcount & _).
  exists req. split; [exact Hcreate|]. split; [exact Hlen|].
  split; [rewrite Hnonce; exact Hlen|].
  rewrite <- Hcount, Hsel. reflexivity.
Defined.
End MainPaths.
